(** * Healthcare lead agent: a shallow embedding and its verified properties

    The development embeds the core of [CompleteHealthcareAutomationAgent]
    (autonomous-agent.js and its fault-tolerant variant): the enrichment
    adapter, the scoring function, the record validator, the persistence
    adapter, the strategy cascade, the phase orchestrator and the batch
    coordinator; then the recovery paths, the route handlers, the lead
    discovery, the Telegram webhook and the error diagnostics.

    Conventions of the embedding.
    - A JavaScript string is a [string]: a sequence of code units, here the
      code units below 256.  Regular-expression classes of the source are
      boolean predicates on [ascii].
    - A JavaScript object whose shape matters (practice data, the validated
      record, the fallback record) is a [gmap string value]; a missing key is
      [undefined].
    - A call that can throw returns an [outcome]; [try]/[catch] is
      [try_catch].
    - A JavaScript number is the integer it holds; [String] of it follows
      [Number::toString]: the decimal numeral for a safe integer, the
      shortest digits of the nearest double beyond, in exponent form from
      [1e21] on.
    - Everything outside the process (URL parsing, the Exa search, the content
      classifier regexes, the clock, the random source, GitHub and Railway) is
      a field of [Env]; the lead search and the Telegram API are variables
      of the sections that use them.  Console output and the dashboard
      history ([deploymentResults], [currentStep]) are not modelled.          *)

From Stdlib Require Import ZArith QArith Ascii String List Lia Bool.
From stdpp Require Import base gmap strings list.
From Equations Require Import Equations.
Import ListNotations.
Local Open Scope string_scope.
Local Open Scope list_scope.
Local Open Scope nat_scope.

(* ===================================================================== *)
(** * Part I. Definitions                                                 *)
(* ===================================================================== *)

(** ** The JavaScript platform: strings *)

Module JS.

Definition code (c : ascii) : N := N_of_ascii c.

Definition in_range (lo hi : N) (c : ascii) : bool :=
  ((lo <=? code c) && (code c <=? hi))%N.

(** [\d], [a-z], [A-Z], [a-zA-Z0-9] *)
Definition is_digit (c : ascii) : bool := in_range 48 57 c.
Definition is_lower (c : ascii) : bool := in_range 97 122 c.
Definition is_upper (c : ascii) : bool := in_range 65 90 c.
Definition is_alnum (c : ascii) : bool := is_lower c || is_upper c || is_digit c.

(** [\s], which is also what [trim] removes: TAB LF VT FF CR SPACE NBSP *)
Definition is_space (c : ascii) : bool :=
  in_range 9 13 c || (code c =? 32)%N || (code c =? 160)%N.

(** [\x20-\x7E] *)
Definition is_printable (c : ascii) : bool := in_range 32 126 c.

Definition is_char (x : ascii) (c : ascii) : bool := (code c =? code x)%N.

(** [toLowerCase] and [toUpperCase] on one code unit.  Of the code units
    below 256 only U+00B5, U+00DF and U+00FF have an upper case outside that
    range; they are left as they are. *)
Definition to_lower (c : ascii) : ascii :=
  if is_upper c then ascii_of_N (code c + 32)
  else if in_range 192 222 c && negb (code c =? 215)%N then ascii_of_N (code c + 32)
  else c.

Definition to_upper (c : ascii) : ascii :=
  if is_lower c then ascii_of_N (code c - 32)
  else if in_range 224 254 c && negb (code c =? 247)%N then ascii_of_N (code c - 32)
  else c.

Fixpoint str_map (f : ascii -> ascii) (s : string) : string :=
  match s with
  | "" => ""
  | String c s' => String (f c) (str_map f s')
  end.

(** [s.replace(/[...]/g, '')] keeps the code units outside the class. *)
Fixpoint str_filter (keep : ascii -> bool) (s : string) : string :=
  match s with
  | "" => ""
  | String c s' => if keep c then String c (str_filter keep s') else str_filter keep s'
  end.

Definition toLowerCase (s : string) : string := str_map to_lower s.
Definition toUpperCase (s : string) : string := str_map to_upper s.

(** [s.substring(0, n)] *)
Fixpoint str_take (n : nat) (s : string) : string :=
  match n, s with
  | S n', String c s' => String c (str_take n' s')
  | _, _ => ""
  end.

Fixpoint str_drop (n : nat) (s : string) : string :=
  match n, s with
  | S n', String _ s' => str_drop n' s'
  | _, _ => s
  end.

(** [s.slice(-n)] *)
Definition slice_last (n : nat) (s : string) : string :=
  str_drop (String.length s - n) s.

(** [s.charAt(0)] and [s.slice(1)] *)
Definition charAt0 (s : string) : string := str_take 1 s.
Definition slice1 (s : string) : string := str_drop 1 s.

(** [s.replace(/\s+/g, '-')]: every maximal run of white space becomes one
    hyphen. [in_run] tells that the previous code unit was white space. *)
Fixpoint collapse_spaces (in_run : bool) (s : string) : string :=
  match s with
  | "" => ""
  | String c s' =>
      if is_space c
      then (if in_run then collapse_spaces true s'
            else String "-" (collapse_spaces true s'))
      else String c (collapse_spaces false s')
  end.

Fixpoint strip_prefix (p s : string) : option string :=
  match p, s with
  | "", _ => Some s
  | String a p', String b s' => if Ascii.eqb a b then strip_prefix p' s' else None
  | String _ _, "" => None
  end.

Definition starts_with (p s : string) : bool :=
  match strip_prefix p s with Some _ => true | None => false end.

(** [s.includes(needle)] *)
Fixpoint includes (needle s : string) : bool :=
  starts_with needle s ||
  match s with
  | "" => false
  | String _ s' => includes needle s'
  end.

(** [s.replace(/suffix$/, '')] for a literal suffix: [None] when [s] does not
    end with it. *)
Fixpoint strip_suffix (suffix s : string) : option string :=
  if String.eqb s suffix then Some ""
  else match s with
       | "" => None
       | String c s' =>
           match strip_suffix suffix s' with
           | Some r => Some (String c r)
           | None => None
           end
       end.

(** [s.split(/[...]/)] on a one-code-unit separator class. *)
Fixpoint split_on (sep : ascii -> bool) (s : string) : list string :=
  match s with
  | "" => [""]
  | String c s' =>
      if sep c then "" :: split_on sep s'
      else match split_on sep s' with
           | [] => [String c ""]
           | x :: xs => String c x :: xs
           end
  end.

(** [parts.join(sep)] *)
Fixpoint join (sep : string) (parts : list string) : string :=
  match parts with
  | [] => ""
  | [x] => x
  | x :: rest => x +:+ sep +:+ join sep rest
  end.

Fixpoint trim_left (s : string) : string :=
  match s with
  | "" => ""
  | String c s' => if is_space c then trim_left s' else s
  end.

Fixpoint trim_right (s : string) : string :=
  match s with
  | "" => ""
  | String c s' =>
      match trim_right s' with
      | "" => if is_space c then "" else String c ""
      | r => String c r
      end
  end.

(** [s.trim()] *)
Definition trim (s : string) : string := trim_right (trim_left s).

(** [s.replace(/https?:\/\//, '')]: the leftmost occurrence is removed. *)
Fixpoint remove_first_scheme (s : string) : string :=
  match strip_prefix "https://" s with
  | Some r => r
  | None =>
      match strip_prefix "http://" s with
      | Some r => r
      | None =>
          match s with
          | "" => ""
          | String c s' => String c (remove_first_scheme s')
          end
      end
  end.

(** [s.replace(/^https?:\/\//, '')] *)
Definition remove_leading_scheme (s : string) : string :=
  match strip_prefix "https://" s with
  | Some r => r
  | None =>
      match strip_prefix "http://" s with
      | Some r => r
      | None => s
      end
  end.

(** ** Numbers as text *)

Definition digit_char (d : N) : ascii := ascii_of_N (48 + d).

(** Decimal digits, least significant first. *)
Fixpoint digits_le (fuel : nat) (n : N) : list N :=
  match fuel with
  | O => []
  | S fuel' =>
      (n mod 10)%N :: (if (n / 10 =? 0)%N then [] else digits_le fuel' (n / 10)%N)
  end.

Definition N_toString (n : N) : string :=
  string_of_list_ascii
    (rev (map digit_char (digits_le (S (N.to_nat (N.log2 n))) n))).

(** [n.toString()] for an integer [n] *)
Definition Z_toString (z : Z) : string :=
  if (z <? 0)%Z then String "-" (N_toString (Z.abs_N z)) else N_toString (Z.to_N z).

(** The value of a digit in radix 10 or 16, [None] for any other code unit. *)
Definition digit_value (radix : Z) (c : ascii) : option Z :=
  let v :=
    if is_digit c then Some (Z.of_N (code c) - 48)%Z
    else if is_lower c then Some (Z.of_N (code c) - 87)%Z
    else if is_upper c then Some (Z.of_N (code c) - 55)%Z
    else None in
  match v with
  | Some d => if (d <? radix)%Z then Some d else None
  | None => None
  end.

(** The longest prefix of digits, read in [radix]; [None] when it is empty. *)
Fixpoint read_digits (radix : Z) (acc : option Z) (s : string) : option Z :=
  match s with
  | "" => acc
  | String c s' =>
      match digit_value radix c with
      | Some d =>
          read_digits radix
            (Some (match acc with Some a => a * radix + d | None => d end)%Z) s'
      | None => acc
      end
  end.

(** [parseInt(s)] without a radix argument; [None] is [NaN]. *)
Definition parseInt_string (s : string) : option Z :=
  let s := trim_left s in
  let '(negative, s) :=
    match s with
    | String "-" r => (true, r)
    | String "+" r => (false, r)
    | _ => (false, s)
    end in
  let '(radix, s) :=
    match s with
    | String "0" (String "x" r) => (16%Z, r)
    | String "0" (String "X" r) => (16%Z, r)
    | _ => (10%Z, s)
    end in
  match read_digits radix None s with
  | Some n => Some (if negative then - n else n)%Z
  | None => None
  end.

(** ** [String(x)] for a number

    A number is given by its mathematical value, an integer.  An integer
    below [2^53] in absolute value is a double and prints as its decimal
    numeral.  A larger one stands for the double nearest to it (ties to
    even), which prints with the fewest digits that still read back as that
    double, padded with zeros up to 21 digits and in exponent form beyond. *)

(** The double nearest to a non-negative integer; [2^1024] stands for
    [Infinity]. *)
Definition to_double (m : Z) : Z :=
  if (m <? 2 ^ 53)%Z then m
  else
    let e := (Z.log2 m - 52)%Z in
    let q := Z.shiftr m e in
    let r := (m - Z.shiftl q e)%Z in
    let half := Z.shiftl 1 (e - 1) in
    let q' :=
      if (r <? half)%Z then q
      else if (half <? r)%Z then (q + 1)%Z
      else if Z.even q then q else (q + 1)%Z in
    Z.min (Z.shiftl q' e) (2 ^ 1024).

(** The number of decimal digits of a positive integer. *)
Definition decimal_length (m : Z) : Z :=
  Z.of_nat (String.length (N_toString (Z.to_N m))).

(** The digits [s] and the exponent [n] of the numerals with [k] digits that
    read back as the double [d]: of the two neighbours of [d] at that
    precision, the one that reads back as [d], the closer one if both do, the
    even one if they are as close. *)
Definition numeral_with (d n0 k : Z) : option (Z * Z) :=
  let scale := (10 ^ (n0 - k))%Z in
  let lo := (d / scale)%Z in
  let hi := (lo + 1)%Z in
  let reads_lo := (to_double (lo * scale) =? d)%Z in
  let reads_hi := (to_double (hi * scale) =? d)%Z in
  let up := if (hi =? 10 ^ k)%Z then (10 ^ (k - 1), n0 + 1)%Z else (hi, n0) in
  match reads_lo, reads_hi with
  | false, false => None
  | true, false => Some (lo, n0)
  | false, true => Some up
  | true, true =>
      let below := (d - lo * scale)%Z in
      let above := (hi * scale - d)%Z in
      if (below <? above)%Z then Some (lo, n0)
      else if (above <? below)%Z then Some up
      else if Z.even lo then Some (lo, n0) else Some up
  end.

(** The shortest numeral: the first [k], counting up, that has one. *)
Fixpoint shortest_numeral (fuel : nat) (d n0 k : Z) : Z * Z * Z :=
  match fuel with
  | O => (d, n0, n0)
  | S fuel' =>
      match numeral_with d n0 k with
      | Some (s, n) => (s, n, k)
      | None => shortest_numeral fuel' d n0 (k + 1)
      end
  end.

Fixpoint zeros (n : nat) : string :=
  match n with
  | O => ""
  | S n' => String "0" (zeros n')
  end.

(** [Number::toString] for the digits [s], [k] of them, and the exponent
    [n >= k]. *)
Definition numeral_text (s n k : Z) : string :=
  let digits := N_toString (Z.to_N s) in
  if (n <=? 21)%Z then digits +:+ zeros (Z.to_nat (n - k))
  else
    match digits with
    | String first "" => String first ("e+" +:+ N_toString (Z.to_N (n - 1)))
    | String first rest =>
        String first ("." +:+ rest +:+ "e+" +:+ N_toString (Z.to_N (n - 1)))
    | "" => ""
    end.

(** [String(x)] for a number [x] with an integer value. *)
Definition Number_toString (x : Z) : string :=
  let magnitude := Z.abs x in
  let text :=
    if (magnitude <? 2 ^ 53)%Z then N_toString (Z.to_N magnitude)
    else
      let d := to_double magnitude in
      if (2 ^ 1024 <=? d)%Z then "Infinity"
      else
        let n0 := decimal_length d in
        let '(s, n, k) := shortest_numeral 17 d n0 1 in
        numeral_text s n k in
  if (x <? 0)%Z then String "-" text else text.

(** ** Regular expressions that are tested against a whole string *)

Inductive regex : Type :=
| Void
| Eps
| Class (p : ascii -> bool)
| Seq (r1 r2 : regex)
| Alt (r1 r2 : regex)
| Star (r : regex).

Definition Plus (r : regex) : regex := Seq r (Star r).

Fixpoint nullable (r : regex) : bool :=
  match r with
  | Void => false
  | Eps => true
  | Class _ => false
  | Seq r1 r2 => nullable r1 && nullable r2
  | Alt r1 r2 => nullable r1 || nullable r2
  | Star _ => true
  end.

Fixpoint deriv (c : ascii) (r : regex) : regex :=
  match r with
  | Void => Void
  | Eps => Void
  | Class p => if p c then Eps else Void
  | Seq r1 r2 =>
      if nullable r1 then Alt (Seq (deriv c r1) r2) (deriv c r2)
      else Seq (deriv c r1) r2
  | Alt r1 r2 => Alt (deriv c r1) (deriv c r2)
  | Star r' => Seq (deriv c r') (Star r')
  end.

(** [/^r$/.test(s)] *)
Fixpoint test (r : regex) (s : string) : bool :=
  match s with
  | "" => nullable r
  | String c s' => test (deriv c r) s'
  end.

(** ** Values and objects *)

Inductive value : Type :=
| VStr (s : string)
| VNum (n : Z)
| VBool (b : bool)
| VArr (items : list string).

(** A property read: [None] is [undefined]. *)
Definition truthy (v : option value) : bool :=
  match v with
  | None => false
  | Some (VStr s) => negb (String.eqb s "")
  | Some (VNum n) => negb (n =? 0)%Z
  | Some (VBool b) => b
  | Some (VArr _) => true
  end.

(** [String(v)], also the conversion inside a template literal *)
Definition toString (v : option value) : string :=
  match v with
  | None => "undefined"
  | Some (VStr s) => s
  | Some (VNum n) => Number_toString n
  | Some (VBool true) => "true"
  | Some (VBool false) => "false"
  | Some (VArr items) => join "," items
  end.

(** [a || b] where [b] is defined *)
Definition or_else (a : option value) (b : value) : value :=
  match a with
  | Some v => if truthy a then v else b
  | None => b
  end.

(** [parseInt(v)]: the argument is converted to a string first. *)
Definition parseInt (v : option value) : option Z := parseInt_string (toString v).

End JS.

Export JS.

Abbreviation obj := (gmap string value).

(** ** Calls that can throw *)

Inductive outcome (A : Type) : Type :=
| Returned (a : A)
| Thrown (message : string).
Arguments Returned {A} a.
Arguments Thrown {A} message.

Definition bind {A B : Type} (m : outcome A) (k : A -> outcome B) : outcome B :=
  match m with
  | Returned a => k a
  | Thrown msg => Thrown msg
  end.

Notation "'let*' x ':=' m 'in' k" := (bind m (fun x => k))
  (at level 10, x pattern, m at level 100, k at level 200).

(** [try { body } catch (error) { handler(error.message) }] *)
Definition try_catch {A : Type} (body : outcome A) (handler : string -> outcome A)
  : outcome A :=
  match body with
  | Returned a => Returned a
  | Thrown msg => handler msg
  end.

(** ** The scoring function *)

(** The object [searchWithExa] resolves to.  [content_analyzed] is set by
    [extractHealthcareData] only. *)
Record ExaData : Type := mkExaData {
  company : string;
  phone : string;
  email : string;
  location : string;
  services : list string;
  treatments : list string;
  specializations : list string;
  practice_type : string;
  content_analyzed : option nat
}.

Definition nonempty (s : string) : bool := negb (String.eqb s "").

Definition calculateLeadScore (exaData : ExaData) : Z :=
  let score := 50%Z in
  let score :=
    if 0 <? length (services exaData)
    then (score + Z.min (Z.of_nat (length (services exaData)) * 5) 25)%Z else score in
  let score :=
    if 0 <? length (treatments exaData)
    then (score + Z.min (Z.of_nat (length (treatments exaData)) * 3) 20)%Z else score in
  let score := if nonempty (phone exaData) then (score + 10)%Z else score in
  let score := if nonempty (email exaData) then (score + 10)%Z else score in
  let score := if nonempty (location exaData) then (score + 5)%Z else score in
  let score :=
    if 0 <? length (specializations exaData) then (score + 5)%Z else score in
  let score :=
    match content_analyzed exaData with
    | Some n => if 1000 <? n then (score + 5)%Z else score
    | None => score
    end in
  Z.min score 100.

(** ** The environment of the agent *)

(** What [createGitHubRepository] resolves to; it catches its own errors. *)
Record GithubResult : Type := mkGithubResult {
  gh_success : bool;
  gh_repo_name : string;
  gh_repo_url : string;
  gh_error : string
}.

(** Replies of the Railway client. *)
Record RailwayProject : Type := mkRailwayProject {
  rp_success : bool;
  rp_project_id : string
}.

Record RailwayService : Type := mkRailwayService {
  rs_success : bool;
  rs_service_id : string;
  rs_environment_id : string
}.

(** One environment stands for what a workflow run observes.  The clock and
    the random source are read several times in a run; the readings are one
    value each here, and no property below depends on two readings being
    different. *)
Record Env : Type := mkEnv {
  (** [new URL(url).hostname]; [None] when the constructor throws *)
  URL_hostname : string -> option string;
  (** [config.exa_api_key] *)
  exa_api_key : option string;
  (** [axios.post('https://api.exa.ai/search', ...)] for a company name and
      a host: the [text] of each result, or a rejection *)
  axios_post_exa : string -> string -> outcome (list string);
  (** the content classifier: the regular-expression heuristics *)
  extractServices : string -> list string;
  extractTreatments : string -> list string;
  extractSpecializations : string -> list string;
  extractContactInfo : string -> string * string;
  extractLocationFromContent : string -> option string;
  (** [Date.now()] and [new Date().toISOString()] *)
  Date_now : Z;
  Date_toISOString : string;
  (** [Math.random()] as drawn by the simulated store call, and
      [Math.random().toString(36).substring(7)] *)
  Math_random : Q;
  random_base36 : string;
  (** source control and hosting *)
  createGitHubRepository : obj -> string -> GithubResult;
  railway_createProject : string -> outcome RailwayProject;
  railway_createServiceFromRepo : string -> string -> outcome RailwayService;
  railway_setEnvironmentVariables : string -> string -> obj -> outcome unit;
  railway_createDomain : string -> string -> outcome (option string);
  railway_createServiceFromImage : string -> string -> outcome RailwayService
}.

(** ** Results of the phases *)

(** What the store call and the fallback builder resolve to.  A flag that the
    source leaves out of the object reads as [false]. *)
Record NotionResult : Type := mkNotionResult {
  nr_success : bool;
  nr_leadId : string;
  nr_record : option obj;
  nr_is_fallback : bool;
  nr_is_emergency_fallback : bool;
  nr_error : option string
}.

Record RailwayDeployment : Type := mkRailwayDeployment {
  rd_project_id : string;
  rd_service_id : string;
  rd_domain_url : string
}.

Record ProvisioningResult : Type := mkProvisioningResult {
  pr_success : bool;
  pr_github_repo : option string;
  pr_railway_url : option string;
  pr_project_id : option string;
  pr_service_id : option string;
  pr_method : string;
  pr_error : option string;
  pr_note : option string
}.

Record Strategy : Type := mkStrategy {
  strategy_name : string;
  strategy_priority : nat
}.

(** An entry of [stepResults].  [step_fallback_used] is the entry's
    [fallback_used] (scraping, deployment) or [emergency_fallback] (notion). *)
Record StepResult (A : Type) : Type := mkStepResult {
  step_success : bool;
  step_error : option string;
  step_data : option A;
  step_fallback_used : bool
}.
Arguments mkStepResult {A}.
Arguments step_success {A}.
Arguments step_error {A}.
Arguments step_data {A}.
Arguments step_fallback_used {A}.

(** What the fault-tolerant workflow returns, without its [timing] and the
    note on the voice agent. *)
Record WorkflowResult : Type := mkWorkflowResult {
  wf_success : bool;
  workflow_status : string;
  practice_company : option value;
  practice_doctor : option value;
  practice_location : option value;
  practice_id : option value;
  deployment_github_repo : option string;
  deployment_railway_url : option string;
  deployment_method : string;
  deployment_project_id : option string;
  deployment_service_id : option string;
  notion_stored : bool;
  notion_lead_id : string;
  notion_is_fallback : bool;
  step_scraping : StepResult obj;
  step_notion : StepResult NotionResult;
  step_deployment : StepResult ProvisioningResult;
  successful_steps : nat;
  total_steps : nat;
  success_rate : string;
  fallbacks_used : list string
}.

Section Agent.

Context (E : Env).

Definition new_URL_hostname (url : string) : outcome string :=
  match URL_hostname E url with
  | Some hostname => Returned hostname
  | None => Thrown "Invalid URL"
  end.

(** ** Enrichment adapter *)

Definition capitalize (part : string) : string :=
  toUpperCase (charAt0 part) +:+ slice1 part.

(** [name.replace(/\.(com|org|net|co\.uk|nl|de|fr)$/, '')] *)
Fixpoint strip_first_suffix (suffixes : list string) (name : string) : string :=
  match suffixes with
  | [] => name
  | suffix :: rest =>
      match strip_suffix suffix name with
      | Some r => r
      | None => strip_first_suffix rest name
      end
  end.

Definition strip_www (hostname : string) : string :=
  match strip_prefix "www." hostname with
  | Some r => r
  | None => hostname
  end.

Definition extractCompanyFromUrl (hostname : string) : string :=
  let name :=
    strip_first_suffix [".com"; ".org"; ".net"; ".co.uk"; ".nl"; ".de"; ".fr"]
      (strip_www hostname) in
  let parts := split_on (fun c => is_char "." c || is_char "-" c) name in
  let meaningful := filter (fun part => 2 < String.length part) parts in
  join " " (map capitalize meaningful) +:+ " Healthcare".

Definition locationHints : list string :=
  ["london"; "newyork"; "sydney"; "toronto"; "vancouver"; "melbourne";
   "amsterdam"; "berlin"; "paris"].

Fixpoint first_hint (hints : list string) (domain : string) : string :=
  match hints with
  | [] => "Practice Location"
  | location :: rest =>
      if includes location domain then capitalize location
      else first_hint rest domain
  end.

Definition extractLocationFromUrl (hostname : string) : string :=
  first_hint locationHints (toLowerCase hostname).

Definition generatePracticeId (companyName : string) : string :=
  str_take 30
    (collapse_spaces false
       (str_filter (fun c => is_alnum c || is_space c) (toLowerCase companyName)))
  +:+ "-" +:+ slice_last 6 (Z_toString (Date_now E)).

Definition basicContentAnalysis (url : string) : outcome ExaData :=
  let* hostname := new_URL_hostname url in
  Returned
    {| company := extractCompanyFromUrl hostname;
       phone := "";
       email := "";
       location := extractLocationFromUrl hostname;
       services := ["Healthcare Services"];
       treatments := ["Consultation"];
       specializations := ["General Healthcare"];
       practice_type := "general-healthcare";
       content_analyzed := None |}.

Definition determinePracticeType (content : string)
    (services treatments : list string) : string :=
  let contentLower := toLowerCase content in
  if includes "cosmetic" contentLower || includes "aesthetic" contentLower then "cosmetic"
  else if includes "dental" contentLower || includes "dentist" contentLower then "dental"
  else if includes "surgery" contentLower || includes "surgical" contentLower then "surgical"
  else if includes "therapy" contentLower || includes "rehabilitation" contentLower then "therapy"
  else if includes "dermatology" contentLower || includes "skin" contentLower then "dermatology"
  else "general-healthcare".

Definition extractHealthcareData (content url companyName : string) : outcome ExaData :=
  let services := extractServices E content in
  let treatments := extractTreatments E content in
  let specializations := extractSpecializations E content in
  let contactInfo := extractContactInfo E content in
  let* location :=
    match extractLocationFromContent E content with
    | Some l => if nonempty l then Returned l
                else let* hostname := new_URL_hostname url in
                     Returned (extractLocationFromUrl hostname)
    | None => let* hostname := new_URL_hostname url in
              Returned (extractLocationFromUrl hostname)
    end in
  let practiceType := determinePracticeType content services treatments in
  Returned
    {| company := companyName;
       phone := fst contactInfo;
       email := snd contactInfo;
       location := location;
       services := services;
       treatments := treatments;
       specializations := specializations;
       practice_type := practiceType;
       content_analyzed := Some (String.length content) |}.

(** [!config.exa_api_key] *)
Definition exa_disabled : bool :=
  match exa_api_key E with
  | Some key => negb (nonempty key)
  | None => true
  end.

Definition searchWithExa (url companyName : string) : outcome ExaData :=
  if exa_disabled then basicContentAnalysis url
  else
    try_catch
      (let* hostname := new_URL_hostname url in
       let* results := axios_post_exa E companyName hostname in
       match results with
       | [] => basicContentAnalysis url
       | text :: _ => extractHealthcareData text url companyName
       end)
      (fun _ => basicContentAnalysis url).

(** [a || b] on strings *)
Definition str_or (a b : string) : string := if nonempty a then a else b.

Definition scrapeHealthcarePractice (url : string) : outcome obj :=
  try_catch
    (let* hostname := new_URL_hostname url in
     let companyName := extractCompanyFromUrl hostname in
     let* exaData := searchWithExa url companyName in
     let practiceData : obj :=
       list_to_map
         [("company", VStr (str_or (company exaData) companyName));
          ("phone", VStr (str_or (phone exaData) ""));
          ("email", VStr (str_or (email exaData) ""));
          ("location", VStr (str_or (location exaData) (extractLocationFromUrl hostname)));
          ("services", VArr (services exaData));
          ("treatments", VArr (treatments exaData));
          ("specializations", VArr (specializations exaData));
          ("url", VStr url);
          ("domain", VStr hostname);
          ("scraped_at", VStr (Date_toISOString E));
          ("practice_type", VStr (str_or (practice_type exaData) "healthcare"));
          ("lead_score", VNum (calculateLeadScore exaData));
          ("exa_enhanced", VBool true)] in
     let practiceData :=
       <["practiceId" :=
           VStr (generatePracticeId (toString (practiceData !! "company")))]> practiceData in
     Returned practiceData)
    (fun message =>
       let* hostname := new_URL_hostname url in
       let fallbackId := str_take 20 (str_filter is_alnum (remove_first_scheme url)) in
       Returned
         (list_to_map
            [("company", VStr (extractCompanyFromUrl hostname));
             ("phone", VStr "");
             ("email", VStr "");
             ("location", VStr (extractLocationFromUrl hostname));
             ("services", VArr ["General Healthcare"]);
             ("treatments", VArr ["Consultation"]);
             ("specializations", VArr ["Healthcare"]);
             ("url", VStr url);
             ("domain", VStr hostname);
             ("practiceId", VStr fallbackId);
             ("scraped_at", VStr (Date_toISOString E));
             ("practice_type", VStr "healthcare-basic");
             ("lead_score", VNum 30);
             ("exa_enhanced", VBool false);
             ("error", VStr message)])).

(** ** Record validator *)

Definition newline_to_space (c : ascii) : ascii :=
  if is_char "010" c || is_char "013" c || is_char "009" c then " "%char else c.

Definition sanitize (str : option value) : string :=
  if negb (truthy str) then ""
  else str_take 2000
         (trim (str_filter is_printable (str_map newline_to_space (toString str)))).

(** [/^[^\s@]+@[^\s@]+\.[^\s@]+$/] *)
Definition emailRegex : regex :=
  let word := Plus (Class (fun c => negb (is_space c || is_char "@" c))) in
  Seq word (Seq (Class (is_char "@")) (Seq word (Seq (Class (is_char ".")) word))).

Definition validateEmail (email : option value) : value :=
  match email with
  | Some v => if negb (truthy email) then VStr ""
              else if test emailRegex (toString email) then v else VStr ""
  | None => VStr ""
  end.

(** [[+\d\s()-]], the code units a phone number keeps *)
Definition is_phone_char (c : ascii) : bool :=
  is_char "+" c || is_digit c || is_space c || is_char "(" c || is_char ")" c
  || is_char "-" c.

Definition validatePhone (phone : option value) : outcome value :=
  if negb (truthy phone) then Returned (VStr "")
  else match phone with
       | Some (VStr p) =>
           let cleanPhone := str_filter is_phone_char p in
           Returned (VStr (if 10 <=? String.length cleanPhone then cleanPhone else ""))
       | _ => Thrown "phone.replace is not a function"
       end.

Definition validateUrl (url : option value) : outcome value :=
  match url with
  | Some v =>
      if negb (truthy url) then Returned (VStr "")
      else match URL_hostname E (toString url) with
           | Some _ => Returned v
           | None =>
               match v with
               | VStr u => Returned (VStr ("https://" +:+ remove_leading_scheme u))
               | _ => Thrown "url.replace is not a function"
               end
           end
  | None => Returned (VStr "")
  end.

(** [Array.isArray(x) ? x.map(s => sanitize(s)).join(', ').substring(0, n) : d] *)
Definition joined_list (x : option value) (n : nat) (default : string) : string :=
  match x with
  | Some (VArr items) =>
      str_take n (join ", " (map (fun s => sanitize (Some (VStr s))) items))
  | _ => default
  end.

(** [Math.min(Math.max(parseInt(x) || 50, 0), 100)] *)
Definition clamp_score (x : option value) : Z :=
  let parsed :=
    match parseInt x with
    | Some n => if (n =? 0)%Z then 50%Z else n
    | None => 50%Z
    end in
  Z.min (Z.max parsed 0) 100.

Definition validateNotionData (practiceData : obj) : outcome obj :=
  let company := str_or (sanitize (practiceData !! "company")) "Healthcare Practice" in
  let* phone := validatePhone (practiceData !! "phone") in
  let email := validateEmail (practiceData !! "email") in
  let location := str_or (sanitize (practiceData !! "location")) "Healthcare Location" in
  let* website := validateUrl (practiceData !! "url") in
  Returned
    (list_to_map
       [("company", VStr company);
        ("phone", phone);
        ("email", email);
        ("location", VStr location);
        ("website", website);
        ("practice_id", VStr (sanitize (practiceData !! "practiceId")));
        ("status", VStr "Lead Captured");
        ("practice_type",
          VStr (str_or (sanitize (practiceData !! "practice_type")) "healthcare"));
        ("services",
          VStr (joined_list (practiceData !! "services") 1000 "Healthcare Services"));
        ("treatments",
          VStr (joined_list (practiceData !! "treatments") 1000 "Consultation"));
        ("specializations",
          VStr (joined_list (practiceData !! "specializations") 500 "General Healthcare"));
        ("lead_score", VNum (clamp_score (practiceData !! "lead_score")));
        ("exa_enhanced", or_else (practiceData !! "exa_enhanced") (VBool false));
        ("domain", VStr (str_or (sanitize (practiceData !! "domain")) ""));
        ("scraped_at",
          or_else (practiceData !! "scraped_at") (VStr (Date_toISOString E)));
        ("last_updated", VStr (Date_toISOString E))]).

(** ** Persistence adapter *)

(** The simulated store call: it resolves when [Math.random() > 0.3] and
    rejects otherwise. *)
Definition mockNotionCall (validatedData : obj) : outcome NotionResult :=
  if negb (Qle_bool (Math_random E) (3 # 10))
  then Returned
         {| nr_success := true;
            nr_leadId := "notion_" +:+ Z_toString (Date_now E) +:+ "_" +:+ random_base36 E;
            nr_record := Some validatedData;
            nr_is_fallback := false;
            nr_is_emergency_fallback := false;
            nr_error := None |}
  else Thrown "Notion API rate limit exceeded".

Definition attemptNotionStorage (validatedData : obj) : outcome NotionResult :=
  try_catch (mockNotionCall validatedData)
    (fun message =>
       Returned
         {| nr_success := false;
            nr_leadId := "";
            nr_record := None;
            nr_is_fallback := false;
            nr_is_emergency_fallback := false;
            nr_error := Some message |}).

Definition createFallbackNotionRecord (practiceData : obj) : NotionResult :=
  let fallbackRecord : obj :=
    list_to_map
      [("company", or_else (practiceData !! "company") (VStr "Healthcare Practice"));
       ("doctor", or_else (practiceData !! "doctor") (VStr "Dr. Smith"));
       ("phone", or_else (practiceData !! "phone") (VStr ""));
       ("email", or_else (practiceData !! "email") (VStr ""));
       ("location", or_else (practiceData !! "location") (VStr "Healthcare Location"));
       ("website", or_else (practiceData !! "url") (VStr ""));
       ("practice_id",
         or_else (practiceData !! "practiceId")
           (VStr ("practice_" +:+ Z_toString (Date_now E))));
       ("status", VStr "Fallback Record");
       ("services",
         match practiceData !! "services" with
         | Some (VArr items) => VStr (join ", " items)
         | _ => VStr "Healthcare Services"
         end);
       ("created_at", VStr (Date_toISOString E));
       ("fallback_reason", VStr "Notion API unavailable - continuing workflow")] in
  {| nr_success := true;
     nr_leadId := "fallback_" +:+ Z_toString (Date_now E) +:+ "_" +:+ random_base36 E;
     nr_record := Some fallbackRecord;
     nr_is_fallback := true;
     nr_is_emergency_fallback := false;
     nr_error := None |}.

Definition storeLeadInNotion (practiceData : obj) : outcome NotionResult :=
  try_catch
    (let* validatedData := validateNotionData practiceData in
     let* notionResult := attemptNotionStorage validatedData in
     if nr_success notionResult then Returned notionResult
     else Returned (createFallbackNotionRecord validatedData))
    (fun _ => Returned (createFallbackNotionRecord practiceData)).

(** ** Strategy cascade *)

Definition deployToRailwayViaMCP (practiceData : obj) (repoName : string)
  : outcome RailwayDeployment :=
  let practiceId := toString (practiceData !! "practiceId") in
  try_catch
    (let* createResult := railway_createProject E (practiceId +:+ "-healthcare") in
     if negb (rp_success createResult) then Thrown "Failed to create Railway project"
     else
       let* serviceResult :=
         railway_createServiceFromRepo E (rp_project_id createResult)
           ("jomarcello/" +:+ repoName) in
       if negb (rs_success serviceResult) then Thrown "Failed to create Railway service"
       else
         let* _ :=
           railway_setEnvironmentVariables E (rp_project_id createResult)
             (rs_service_id serviceResult)
             (list_to_map
                [("NEXT_PUBLIC_PRACTICE_ID", VStr practiceId);
                 ("NEXT_PUBLIC_COMPANY", VStr (toString (practiceData !! "company")));
                 ("NEXT_PUBLIC_DOMAIN", VStr (toString (practiceData !! "domain")))]) in
         let* domainResult :=
           railway_createDomain E (rs_service_id serviceResult)
             (rs_environment_id serviceResult) in
         Returned
           {| rd_project_id := rp_project_id createResult;
              rd_service_id := rs_service_id serviceResult;
              rd_domain_url :=
                match domainResult with
                | Some domain_url =>
                    str_or domain_url
                      ("https://" +:+ practiceId +:+ "-service-production.up.railway.app")
                | None => "https://" +:+ practiceId +:+ "-service-production.up.railway.app"
                end |})
    (fun message => Thrown ("Railway MCP deployment failed: " +:+ message)).

Definition createDirectRailwayService (practiceData : obj) : outcome RailwayDeployment :=
  let practiceId := toString (practiceData !! "practiceId") in
  let projectName := practiceId +:+ "-direct-" +:+ Z_toString (Date_now E) in
  let* projectResult := railway_createProject E projectName in
  let* serviceResult :=
    railway_createServiceFromImage E (rp_project_id projectResult) "nginx:alpine" in
  Returned
    {| rd_project_id := rp_project_id projectResult;
       rd_service_id := rs_service_id serviceResult;
       rd_domain_url := "https://" +:+ practiceId +:+ "-direct-production.up.railway.app" |}.

Definition attemptFullGithubRailwayDeployment (practiceData : obj)
  : outcome ProvisioningResult :=
  let repoName := toString (practiceData !! "practiceId") +:+ "-demo" in
  let githubResult := createGitHubRepository E practiceData repoName in
  if negb (gh_success githubResult)
  then Thrown ("GitHub creation failed: " +:+ gh_error githubResult)
  else
    try_catch
      (let* railwayResult := deployToRailwayViaMCP practiceData (gh_repo_name githubResult) in
       Returned
         {| pr_success := true;
            pr_github_repo := Some (gh_repo_url githubResult);
            pr_railway_url := Some (rd_domain_url railwayResult);
            pr_project_id := Some (rd_project_id railwayResult);
            pr_service_id := Some (rd_service_id railwayResult);
            pr_method := "full-github-railway";
            pr_error := None;
            pr_note := None |})
      (fun message => Thrown ("Railway deployment failed: " +:+ message)).

Definition attemptExistingRepoDeployment (practiceData : obj)
  : outcome ProvisioningResult :=
  let* railwayResult := deployToRailwayViaMCP practiceData "Agentsdemo" in
  Returned
    {| pr_success := true;
       pr_github_repo := Some "https://github.com/jomarcello/Agentsdemo";
       pr_railway_url := Some (rd_domain_url railwayResult);
       pr_project_id := Some (rd_project_id railwayResult);
       pr_service_id := Some (rd_service_id railwayResult);
       pr_method := "existing-repo-railway";
       pr_error := None;
       pr_note := None |}.

Definition attemptDirectRailwayMCP (practiceData : obj) : outcome ProvisioningResult :=
  let* railwayResult := createDirectRailwayService practiceData in
  Returned
    {| pr_success := true;
       pr_github_repo := None;
       pr_railway_url := Some (rd_domain_url railwayResult);
       pr_project_id := Some (rd_project_id railwayResult);
       pr_service_id := Some (rd_service_id railwayResult);
       pr_method := "direct-railway-mcp";
       pr_error := None;
       pr_note := None |}.

Definition createEmergencyMockDeployment (practiceData : obj) : ProvisioningResult :=
  let mockUrl :=
    "https://" +:+ toString (practiceData !! "practiceId") +:+ "-emergency-"
    +:+ Z_toString (Date_now E) +:+ ".mock.demo" in
  {| pr_success := true;
     pr_github_repo := Some "https://github.com/jomarcello/Agentsdemo";
     pr_railway_url := Some mockUrl;
     pr_project_id := Some "emergency-mock";
     pr_service_id := Some "emergency-service";
     pr_method := "emergency-mock";
     pr_error := None;
     pr_note :=
       Some "Emergency mock deployment - workflow completed with simulated resources" |}.

Definition deploymentStrategies : list Strategy :=
  [ mkStrategy "full-github-railway" 1;
    mkStrategy "existing-repo-railway" 2;
    mkStrategy "direct-railway-mcp" 3;
    mkStrategy "emergency-mock" 4 ].

(** The [switch] on the strategy name; [None] when no case matches and the
    loop body ends without returning. *)
Definition run_strategy (strategy : Strategy) (practiceData : obj)
  : option (outcome ProvisioningResult) :=
  if String.eqb (strategy_name strategy) "full-github-railway"
  then Some (attemptFullGithubRailwayDeployment practiceData)
  else if String.eqb (strategy_name strategy) "existing-repo-railway"
  then Some (attemptExistingRepoDeployment practiceData)
  else if String.eqb (strategy_name strategy) "direct-railway-mcp"
  then Some (attemptDirectRailwayMCP practiceData)
  else if String.eqb (strategy_name strategy) "emergency-mock"
  then Some (Returned (createEmergencyMockDeployment practiceData))
  else None.

(** The [for ... of] loop.  Falling out of the loop returns [undefined],
    which is [None]. *)
Fixpoint cascade (strategies : list Strategy) (practiceData : obj)
  : outcome (option ProvisioningResult) :=
  match strategies with
  | [] => Returned None
  | strategy :: rest =>
      match run_strategy strategy practiceData with
      | Some (Returned result) => Returned (Some result)
      | Some (Thrown message) =>
          if strategy_priority strategy =? 4
          then Returned
                 (Some
                    {| pr_success := false;
                       pr_github_repo := None;
                       pr_railway_url := None;
                       pr_project_id := None;
                       pr_service_id := None;
                       pr_method := "all-failed";
                       pr_error :=
                         Some ("All deployment strategies failed. Last error: " +:+ message);
                       pr_note := None |})
          else cascade rest practiceData
      | None => cascade rest practiceData
      end
  end.

Definition createPersonalizedRepository (practiceData : obj)
  : outcome (option ProvisioningResult) :=
  cascade deploymentStrategies practiceData.

(** ** Phase orchestrator (the fault-tolerant workflow) *)

(** [s.replace(pattern, '')] for a literal pattern: the first occurrence. *)
Fixpoint remove_first (pattern s : string) : string :=
  match strip_prefix pattern s with
  | Some r => r
  | None =>
      match s with
      | "" => ""
      | String c s' => String c (remove_first pattern s')
      end
  end.

Definition createMinimalFallbackData (url : string) : outcome obj :=
  let* h := new_URL_hostname url in
  let hostname := remove_first "www." h in
  let timestamp := Date_now E in
  let first_label := hd "" (split_on (is_char ".") hostname) in
  Returned
    (list_to_map
       [("company", VStr (capitalize first_label +:+ " Healthcare"));
        ("doctor", VStr "Dr. Healthcare");
        ("phone", VStr "");
        ("email", VStr "");
        ("location", VStr "Healthcare Location");
        ("services", VArr ["General Healthcare"]);
        ("url", VStr url);
        ("practiceId",
          VStr ("fallback-" +:+ str_filter is_alnum hostname +:+ "-"
                +:+ slice_last 6 (Z_toString timestamp)));
        ("scraped_at", VStr (Date_toISOString E));
        ("practice_type", VStr "healthcare");
        ("lead_score", VNum 30);
        ("fallback_reason", VStr "Scraping failed - using URL-based fallback data")]).

(** PHASE 0 *)
Definition phase_scraping (url : string) : outcome (obj * StepResult obj) :=
  match
    (let* practiceData := scrapeHealthcarePractice url in
     if negb (truthy (practiceData !! "company"))
     then Thrown "No valid practice data extracted"
     else Returned practiceData)
  with
  | Returned practiceData =>
      Returned (practiceData, mkStepResult true None (Some practiceData) false)
  | Thrown message =>
      let* practiceData := createMinimalFallbackData url in
      Returned (practiceData, mkStepResult false (Some message) (Some practiceData) true)
  end.

(** PHASE 1 *)
Definition phase_notion (practiceData : obj) : NotionResult * StepResult NotionResult :=
  match storeLeadInNotion practiceData with
  | Returned notionResult =>
      (notionResult, mkStepResult true None (Some notionResult) false)
  | Thrown message =>
      let notionResult :=
        {| nr_success := true;
           nr_leadId := "emergency_" +:+ Z_toString (Date_now E);
           nr_record :=
             Some (list_to_map
                     (match practiceData !! "company" with
                      | Some c => [("company", c)]
                      | None => []
                      end ++ [("status", VStr "Emergency Fallback")]));
           nr_is_fallback := false;
           nr_is_emergency_fallback := true;
           nr_error := None |} in
      (notionResult, mkStepResult false (Some message) (Some notionResult) true)
  end.

(** PHASE 2+3 *)
Definition phase_deployment (practiceData : obj)
  : ProvisioningResult * StepResult ProvisioningResult :=
  match
    (let* r := createPersonalizedRepository practiceData in
     match r with
     | Some deploymentResult => Returned deploymentResult
     | None => Thrown "Cannot read properties of undefined (reading 'success')"
     end)
  with
  | Returned deploymentResult =>
      (deploymentResult,
       mkStepResult (pr_success deploymentResult) None (Some deploymentResult) false)
  | Thrown message =>
      let deploymentResult :=
        {| pr_success := false;
           pr_github_repo := Some "N/A - Deployment Failed";
           pr_railway_url := Some "N/A - Deployment Failed";
           pr_project_id := None;
           pr_service_id := None;
           pr_method := "failed-with-fallback";
           pr_error := Some message;
           pr_note := None |} in
      (deploymentResult, mkStepResult false (Some message) (Some deploymentResult) true)
  end.

(** [Object.values(stepResults).filter(step => step.success).length] *)
Definition count_successful (flags : list bool) : nat :=
  length (filter (fun b => b = true) flags).

Definition status_of (successfulSteps totalSteps : nat) : string :=
  let workflowStatus := "failed" in
  if successfulSteps =? totalSteps then "complete"
  else if 0 <? successfulSteps then "partial-success"
  else workflowStatus.

(** [Math.round(x / y * 100)] for naturals *)
Definition percent (x y : nat) : Z :=
  ((200 * Z.of_nat x + Z.of_nat y) / (2 * Z.of_nat y))%Z.

Definition processHealthcarePractice (url : string) : outcome WorkflowResult :=
  let* phase0 := phase_scraping url in
  let '(practiceData, scraping) := phase0 in
  let '(notionResult, notion) := phase_notion practiceData in
  let '(deploymentResult, deployment) := phase_deployment practiceData in
  let flags := [step_success scraping; step_success notion; step_success deployment] in
  let successfulSteps := count_successful flags in
  let totalSteps := length flags in
  let workflowStatus := status_of successfulSteps totalSteps in
  Returned
    {| wf_success := negb (String.eqb workflowStatus "failed");
       workflow_status := workflowStatus;
       practice_company := practiceData !! "company";
       practice_doctor := practiceData !! "doctor";
       practice_location := practiceData !! "location";
       practice_id := practiceData !! "practiceId";
       deployment_github_repo := pr_github_repo deploymentResult;
       deployment_railway_url := pr_railway_url deploymentResult;
       deployment_method := pr_method deploymentResult;
       deployment_project_id := pr_project_id deploymentResult;
       deployment_service_id := pr_service_id deploymentResult;
       notion_stored := nr_success notionResult;
       notion_lead_id := nr_leadId notionResult;
       notion_is_fallback :=
         nr_is_fallback notionResult || nr_is_emergency_fallback notionResult;
       step_scraping := scraping;
       step_notion := notion;
       step_deployment := deployment;
       successful_steps := successfulSteps;
       total_steps := totalSteps;
       success_rate := Z_toString (percent successfulSteps totalSteps) +:+ "%";
       fallbacks_used :=
         (if step_fallback_used scraping then ["scraping"] else [])
         ++ (if step_fallback_used notion then ["notion-emergency"] else [])
         ++ (if step_fallback_used deployment then ["deployment"] else []) |}.

End Agent.

(** ** The three-step workflow of autonomous-agent.js *)

(** An object literal some of whose values may be [undefined]: reading such
    a key gives [undefined], like reading a missing one. *)
Definition object_of (fields : list (string * option value)) : obj :=
  list_to_map (omap (fun field => pair (fst field) <$> snd field) fields).

Module Simplified.

Record NotionSummary : Type := mkNotionSummary {
  stored : bool;
  lead_id : string;
  is_fallback : bool
}.

Record WorkflowResult : Type := mkWorkflowResult {
  success : bool;
  workflow_type : string;
  error : option string;
  practice : option obj;
  notion : option NotionSummary
}.

Section Workflow.

Context (E : Env).

(** The [catch] block; [practiceData] is [None] while the variable is still
    [null]. *)
Definition failure (message : string) (practiceData : option obj) : WorkflowResult :=
  {| success := false;
     workflow_type := "3-step-simplified";
     error := Some message;
     practice :=
       match practiceData with
       | Some pd =>
           Some (object_of
                   [("company", Some (or_else (pd !! "company") (VStr "Unknown")));
                    ("practice_id", Some (or_else (pd !! "practiceId") (VStr "unknown")))])
       | None => None
       end;
     notion := None |}.

Definition processHealthcarePractice (url : string) : WorkflowResult :=
  match scrapeHealthcarePractice E url with
  | Thrown message => failure message None
  | Returned practiceData =>
      if negb (truthy (practiceData !! "company"))
      then failure "No valid practice data extracted" (Some practiceData)
      else
        match storeLeadInNotion E practiceData with
        | Thrown message => failure message (Some practiceData)
        | Returned notionResult =>
            {| success := true;
               workflow_type := "3-step-simplified";
               error := None;
               practice :=
                 Some (object_of
                         [("company", practiceData !! "company");
                          ("location", practiceData !! "location");
                          ("practice_id", practiceData !! "practiceId");
                          ("services", practiceData !! "services");
                          ("treatments", practiceData !! "treatments");
                          ("lead_score", practiceData !! "lead_score")]);
               notion :=
                 Some {| stored := nr_success notionResult;
                         lead_id := nr_leadId notionResult;
                         is_fallback := nr_is_fallback notionResult |} |}
        end
  end.

End Workflow.

End Simplified.

(** ** Batch coordinator *)

Record BatchItem (R : Type) : Type := mkBatchItem {
  item_url : string;
  item_success : bool;
  item_result : option R;
  item_error : option string
}.
Arguments mkBatchItem {R}.
Arguments item_url {R}.
Arguments item_success {R}.
Arguments item_result {R}.
Arguments item_error {R}.

(** What the coordinator does, in program order: [batch.map(async ...)]
    starts the workflows of a window, [await Promise.all(...)] returns when
    all of them have settled, [setTimeout] is the pause before the next
    window. *)
Inductive BatchEvent : Type :=
| Launched (first : nat) (batch : list string)
| AllSettled (first : nat) (count : nat)
| Paused (milliseconds : nat).

Definition concurrencyLimit : nat := 3.

(** [urls.slice(i, j)] *)
Definition slice {A : Type} (i j : nat) (l : list A) : list A :=
  take (j - i) (drop i l).

Section Batch.

Context {R : Type}.

(** The workflow run for the item at a position of the input: in the agent
    this is [processHealthcarePractice]. *)
Context (process : nat -> string -> outcome R).

Definition batch_item (i index : nat) (url : string) : BatchItem R :=
  match process (i + index) url with
  | Returned result => mkBatchItem url true (Some result) None
  | Thrown message => mkBatchItem url false None (Some message)
  end.

Equations? batch_loop (urls : list string) (i : nat)
    (state : list (BatchItem R) * list BatchEvent)
  : list (BatchItem R) * list BatchEvent by wf (length urls - i) lt :=
  batch_loop urls i (results, log) with lt_dec i (length urls) := {
    | left _ =>
        let batch := slice i (i + concurrencyLimit) urls in
        let batchResults := imap (batch_item i) batch in
        batch_loop urls (i + concurrencyLimit)
          (results ++ batchResults,
           log ++ [Launched i batch; AllSettled i (length batchResults)]
               ++ (if lt_dec (i + concurrencyLimit) (length urls)
                   then [Paused 2000] else []))
    | right _ => (results, log) }.
Proof. unfold concurrencyLimit. lia. Qed.

Definition run_batch (urls : list string) : list (BatchItem R) * list BatchEvent :=
  batch_loop urls 0 ([], []).

End Batch.

(** The coordinator over the fault-tolerant workflow and over the three-step
    workflow; [envs k] is the environment the workflow of the [k]-th input
    runs in. *)
Definition processBatchHealthcarePractices (envs : nat -> Env) (urls : list string)
  : list (BatchItem WorkflowResult) :=
  fst (run_batch (fun k url => processHealthcarePractice (envs k) url) urls).

Definition processBatchSimplified (envs : nat -> Env) (urls : list string)
  : list (BatchItem Simplified.WorkflowResult) :=
  fst (run_batch
         (fun k url => Returned (Simplified.processHealthcarePractice (envs k) url)) urls).

(** ** The signals the score is read from *)

Record Signals : Type := mkSignals {
  sig_services : nat;
  sig_treatments : nat;
  sig_phone : bool;
  sig_email : bool;
  sig_location : bool;
  sig_specializations : nat;
  sig_content : nat
}.

Definition signals_of (exaData : ExaData) : Signals :=
  {| sig_services := length (services exaData);
     sig_treatments := length (treatments exaData);
     sig_phone := nonempty (phone exaData);
     sig_email := nonempty (email exaData);
     sig_location := nonempty (location exaData);
     sig_specializations := length (specializations exaData);
     sig_content := match content_analyzed exaData with Some n => n | None => 0 end |}.

(** Two signal vectors that agree everywhere but in one signal, which is a
    greater count, or a presence instead of an absence, in the second. *)
Inductive raised_one_signal : Signals -> Signals -> Prop :=
| raised_services sv sv' t p e l sp c :
    sv < sv' ->
    raised_one_signal (mkSignals sv t p e l sp c) (mkSignals sv' t p e l sp c)
| raised_treatments sv t t' p e l sp c :
    t < t' ->
    raised_one_signal (mkSignals sv t p e l sp c) (mkSignals sv t' p e l sp c)
| raised_phone sv t e l sp c :
    raised_one_signal (mkSignals sv t false e l sp c) (mkSignals sv t true e l sp c)
| raised_email sv t p l sp c :
    raised_one_signal (mkSignals sv t p false l sp c) (mkSignals sv t p true l sp c)
| raised_location sv t p e sp c :
    raised_one_signal (mkSignals sv t p e false sp c) (mkSignals sv t p e true sp c)
| raised_specializations sv t p e l sp sp' c :
    sp < sp' ->
    raised_one_signal (mkSignals sv t p e l sp c) (mkSignals sv t p e l sp' c)
| raised_content sv t p e l sp c c' :
    c < c' ->
    raised_one_signal (mkSignals sv t p e l sp c) (mkSignals sv t p e l sp c').

(** The score as the sum the documentation of the caps describes. *)
Definition bonus (present : bool) (points : Z) : Z := if present then points else 0%Z.

Definition score_of_signals (s : Signals) : Z :=
  Z.min
    (50
     + Z.min (5 * Z.of_nat (sig_services s)) 25
     + Z.min (3 * Z.of_nat (sig_treatments s)) 20
     + bonus (sig_phone s) 10
     + bonus (sig_email s) 10
     + bonus (sig_location s) 5
     + bonus (0 <? sig_specializations s)%nat 5
     + bonus (1000 <? sig_content s)%nat 5)%Z
    100.

(** ** The shape of lead records and of validated records *)

Fixpoint str_forall (p : ascii -> bool) (s : string) : bool :=
  match s with
  | "" => true
  | String c s' => p c && str_forall p s'
  end.

Definition starts_clean (s : string) : bool :=
  match s with
  | "" => true
  | String c _ => negb (is_space c)
  end.

(** What [sanitize] returns: printable, no white space in front, at most
    2000 code units. *)
Definition neat (s : string) : Prop :=
  str_forall is_printable s = true /\ starts_clean s = true /\ String.length s <= 2000.

Definition string_or_absent (v : option value) : Prop :=
  match v with
  | None | Some (VStr _) => True
  | Some _ => False
  end.

(** The typing of a lead record the validator relies on: [phone] and [url]
    are strings when they are present. *)
Definition is_lead_record (practiceData : obj) : Prop :=
  string_or_absent (practiceData !! "phone")
  /\ string_or_absent (practiceData !! "url").

(** The object literal [validateNotionData] returns. *)
Definition validatedRecord (E : Env) (company : string) (phone email : value)
    (location : string) (website : value) (practice_id practice_type : string)
    (services treatments specializations : string) (lead_score : Z)
    (exa_enhanced : value) (domain : string) (scraped_at : value) : obj :=
  list_to_map
    [("company", VStr company);
     ("phone", phone);
     ("email", email);
     ("location", VStr location);
     ("website", website);
     ("practice_id", VStr practice_id);
     ("status", VStr "Lead Captured");
     ("practice_type", VStr practice_type);
     ("services", VStr services);
     ("treatments", VStr treatments);
     ("specializations", VStr specializations);
     ("lead_score", VNum lead_score);
     ("exa_enhanced", exa_enhanced);
     ("domain", VStr domain);
     ("scraped_at", scraped_at);
     ("last_updated", VStr (Date_toISOString E))].

(** [validateNotionData] applied to what it returned. *)
Definition validate_twice (E : Env) (practiceData : obj) : outcome obj :=
  let* validatedData := validateNotionData E practiceData in
  validateNotionData E validatedData.

(** ** The format of practice ids *)

(** [a-z0-9-] *)
Definition is_slug_char (c : ascii) : bool := is_lower c || is_digit c || is_char "-" c.

(** A slug of lower-case letters, digits and hyphens, a hyphen, six digits. *)
Definition slug_format (practiceId : string) : Prop :=
  exists slug suffix,
    practiceId = slug +:+ "-" +:+ suffix
    /\ str_forall is_slug_char slug = true
    /\ String.length suffix = 6
    /\ str_forall is_digit suffix = true.

(** ** The practice id, as specified *)

(** The pieces of a text between its runs of white space; [in_run] tells
    that the previous code unit was white space. *)
Fixpoint pieces_between_spaces (in_run : bool) (s : string) : list string :=
  match s with
  | "" => [""]
  | String c s' =>
      if is_space c
      then (if in_run then pieces_between_spaces true s'
            else "" :: pieces_between_spaces true s')
      else match pieces_between_spaces false s' with
           | piece :: pieces => String c piece :: pieces
           | [] => [String c ""]
           end
  end.

(** The slug of a company name: the name in lower case, reduced to letters,
    digits and white space, its pieces between white space joined by hyphens,
    and of that the first 30 code units. *)
Definition slug_as_specified (companyName : string) : string :=
  str_take 30
    (join "-"
       (pieces_between_spaces false
          (str_filter (fun c => is_alnum c || is_space c) (toLowerCase companyName)))).

(** The time-based suffix: the six low-order decimal digits of the clock. *)
Definition six_digits (now : Z) : string :=
  let n := Z.to_N now in
  string_of_list_ascii
    (map (fun i => digit_char ((n / 10 ^ i) mod 10)%N) [5; 4; 3; 2; 1; 0]%N).

(** ** The scenario with the classifier disabled, as specified *)

Definition drsmith_url : string := "https://drsmith-dental.example.com".

(** What the end-to-end scenario expects of the enrichment of [drsmith_url]
    when no API key is configured. *)
Definition scenario_as_specified (E : Env) : Prop :=
  exists practiceData company score,
    scrapeHealthcarePractice E drsmith_url = Returned practiceData
    /\ practiceData !! "services" = Some (VArr ["Healthcare Services"])
    /\ practiceData !! "treatments" = Some (VArr ["Consultation"])
    /\ practiceData !! "company" = Some (VStr company)
    /\ nonempty company = true
    /\ practiceData !! "lead_score" = Some (VNum score)
    /\ (50 <= score <= 60)%Z
    /\ practiceData !! "exa_enhanced" = Some (VBool false).

(** ** Example environments *)

(** The host of a plain [http://host/...] or [https://host/...] URL, lower
    case; the example environments parse URLs with it. *)
Fixpoint until_path (s : string) : string :=
  match s with
  | "" => ""
  | String c s' =>
      if is_char "/" c || is_char "?" c || is_char "#" c then ""
      else String c (until_path s')
  end.

Definition plain_hostname (url : string) : option string :=
  let rest :=
    match strip_prefix "https://" url with
    | Some r => Some r
    | None => strip_prefix "http://" url
    end in
  match rest with
  | Some r => if nonempty (until_path r) then Some (toLowerCase (until_path r)) else None
  | None => None
  end.

(** An agent without outside services: no Exa key, no GitHub token, Railway
    unreachable, and a store call that draws [random] . *)
Definition offline_env (random : Q) : Env :=
  {| URL_hostname := plain_hostname;
     exa_api_key := None;
     axios_post_exa := fun _ _ => Thrown "connect ECONNREFUSED";
     extractServices := fun _ => [];
     extractTreatments := fun _ => [];
     extractSpecializations := fun _ => [];
     extractContactInfo := fun _ => ("", "");
     extractLocationFromContent := fun _ => None;
     Date_now := 1730000123456;
     Date_toISOString := "2024-10-27T03:35:23.456Z";
     Math_random := random;
     random_base36 := "k3x9q";
     createGitHubRepository :=
       fun _ _ => mkGithubResult false "" "" "GitHub repository creation failed: Bad credentials";
     railway_createProject := fun _ => Thrown "connect ECONNREFUSED";
     railway_createServiceFromRepo := fun _ _ => Thrown "connect ECONNREFUSED";
     railway_setEnvironmentVariables := fun _ _ _ => Thrown "connect ECONNREFUSED";
     railway_createDomain := fun _ _ => Thrown "connect ECONNREFUSED";
     railway_createServiceFromImage := fun _ _ => Thrown "connect ECONNREFUSED" |}.

Definition failed {A : Type} (o : outcome A) : bool :=
  match o with
  | Returned _ => false
  | Thrown _ => true
  end.

(** A lead as the enrichment adapter produces it. *)
Definition sample_lead : obj :=
  list_to_map
    [("company", VStr "Acme Dental Healthcare");
     ("phone", VStr "+31 20 123 4567");
     ("email", VStr "info@acme-dental.nl");
     ("location", VStr "Amsterdam");
     ("services", VArr ["Implants"; "Whitening"]);
     ("treatments", VArr ["consultation"]);
     ("specializations", VArr ["Cosmetic dentistry"]);
     ("url", VStr "https://acme-dental.nl");
     ("domain", VStr "acme-dental.nl");
     ("scraped_at", VStr "2024-10-27T03:35:20.000Z");
     ("practice_type", VStr "dental");
     ("lead_score", VNum 88);
     ("exa_enhanced", VBool true);
     ("practiceId", VStr "acme-dental-healthcare-120000")].

(** A field of the object a call returned. *)
Definition field_of (o : outcome obj) (key : string) : option value :=
  match o with
  | Returned record => record !! key
  | Thrown _ => None
  end.

(** A field of the record inside a persistence result. *)
Definition stored_field (o : outcome NotionResult) (key : string) : option value :=
  match o with
  | Returned r =>
      match nr_record r with
      | Some record => record !! key
      | None => None
      end
  | Thrown _ => None
  end.

(** The simulated store call rejects: [Math.random() > 0.3] is false. *)
Definition store_call_fails (E : Env) : Prop := Qle_bool (Math_random E) (3 # 10) = true.

(** ** The overall status, as specified *)

(** Every phase succeeded and no fallback was used: neither one of the
    orchestrator ([fallback_used], [emergency_fallback]) nor the fallback
    record of the persistence adapter, which the result reports as
    [notion.is_fallback]. *)
Definition every_phase_clean (r : WorkflowResult) : Prop :=
  step_success (step_scraping r) = true
  /\ step_success (step_notion r) = true
  /\ step_success (step_deployment r) = true
  /\ step_fallback_used (step_scraping r) = false
  /\ step_fallback_used (step_notion r) = false
  /\ step_fallback_used (step_deployment r) = false
  /\ notion_is_fallback r = false.

Definition status_as_specified (E : Env) (url : string) : Prop :=
  forall r,
    processHealthcarePractice E url = Returned r ->
    (workflow_status r = "complete" <-> every_phase_clean r).


(** ** Recovery

    The retries and [POST /recover] as the fault-tolerant agent has them:
    there [retryDeploymentOnly] finds the cascade it calls. *)

Inductive RecoveryData : Type :=
| NotionData (notionResult : NotionResult)
| DeploymentData (deploymentResult : ProvisioningResult).

Record RetryResult : Type := mkRetryResult {
  retry_success : bool;
  retry_data : option RecoveryData;
  retry_error : option string
}.

(** The reply of [POST /recover]. *)
Record RecoverResponse : Type := mkRecoverResponse {
  recover_status : nat;
  recover_success : bool;
  recover_phase : option value;
  recover_result : option RetryResult;
  recover_error : option string
}.

Section Recovery.

Context (E : Env).

(** [practiceId] is what the request body holds under [practice_id]: any
    value, or nothing. *)
Definition retryNotionStorage (practiceId : option value) : outcome RetryResult :=
  try_catch
    (let id := toString practiceId in
     let fallbackData : obj :=
       object_of
         [("practiceId", practiceId);
          ("company", Some (VStr ("Healthcare Practice " +:+ id)));
          ("domain", Some (VStr (id +:+ ".example.com")));
          ("location", Some (VStr "Recovery Location"));
          ("services", Some (VArr ["Recovery Services"]));
          ("url", Some (VStr ("https://" +:+ id +:+ ".example.com")));
          ("scraped_at", Some (VStr (Date_toISOString E)));
          ("practice_type", Some (VStr "healthcare-recovery"));
          ("lead_score", Some (VNum 50));
          ("retry_attempt", Some (VBool true))] in
     let* notionResult := attemptNotionStorage E fallbackData in
     Returned
       {| retry_success := nr_success notionResult;
          retry_data := Some (NotionData notionResult);
          retry_error := None |})
    (fun message =>
       Returned {| retry_success := false; retry_data := None; retry_error := Some message |}).

Definition retryDeploymentOnly (practiceId : option value) : outcome RetryResult :=
  try_catch
    (let id := toString practiceId in
     let fallbackData : obj :=
       object_of
         [("practiceId", practiceId);
          ("company", Some (VStr ("Healthcare Practice " +:+ id)));
          ("domain", Some (VStr (id +:+ ".example.com")))] in
     let* r := createPersonalizedRepository E fallbackData in
     match r with
     | Some deploymentResult =>
         Returned
           {| retry_success := pr_success deploymentResult;
              retry_data := Some (DeploymentData deploymentResult);
              retry_error := None |}
     | None => Thrown "Cannot read properties of undefined (reading 'success')"
     end)
    (fun message =>
       Returned {| retry_success := false; retry_data := None; retry_error := Some message |}).

(** The handler of [POST /recover]; the [switch] compares with [===]. *)
Definition recover (practice_id retry_phase : option value) : RecoverResponse :=
  let attempt :=
    match retry_phase with
    | Some (VStr phase) =>
        if String.eqb phase "notion" then retryNotionStorage practice_id
        else if String.eqb phase "deployment" then retryDeploymentOnly practice_id
        else Returned
               {| retry_success := false; retry_data := None;
                  retry_error := Some "Invalid retry phase" |}
    | _ =>
        Returned
          {| retry_success := false; retry_data := None;
             retry_error := Some "Invalid retry phase" |}
    end in
  match attempt with
  | Returned result =>
      {| recover_status := 200;
         recover_success := retry_success result;
         recover_phase := retry_phase;
         recover_result := Some result;
         recover_error := None |}
  | Thrown message =>
      {| recover_status := 500;
         recover_success := false;
         recover_phase := None;
         recover_result := None;
         recover_error := Some ("Recovery failed: " +:+ message) |}
  end.

End Recovery.

(** ** Analytics *)

Definition categorizeError (errorMessage : string) : string :=
  let message := toLowerCase errorMessage in
  if includes "notion" message || includes "400" message then "notion_api"
  else if includes "github" message || includes "repository" message then "github_api"
  else if includes "railway" message || includes "deployment" message then "railway_api"
  else if includes "network" message || includes "timeout" message then "network_issues"
  else if includes "scraping" message || includes "exa" message then "scraping_issues"
  else "other".

(** What the analytics read of an entry of [deploymentResults]: whether its
    [success] is truthy, and its [error] when it is a string. *)
Record LoggedResult : Type := mkLoggedResult {
  logged_success : bool;
  logged_error : option string
}.

Definition analyzeErrorPatterns (deploymentResults : list LoggedResult)
  : gmap string nat :=
  let failedDeployments :=
    filter (fun r => logged_success r = false) deploymentResults in
  foldl
    (fun errorPatterns deployment =>
       match logged_error deployment with
       | Some error =>
           if nonempty error
           then let errorType := categorizeError error in
                <[errorType := default 0 (errorPatterns !! errorType) + 1]> errorPatterns
           else errorPatterns
       | None => errorPatterns
       end)
    ∅ failedDeployments.

(** The failed entries whose error falls in a category. *)
Definition in_category (category : string) (r : LoggedResult) : bool :=
  negb (logged_success r)
  && match logged_error r with
     | Some error => nonempty error && String.eqb (categorizeError error) category
     | None => false
     end.

Definition count_category (category : string) (results : list LoggedResult) : nat :=
  length (filter (fun r => in_category category r = true) results).

Definition error_categories : list string :=
  ["notion_api"; "github_api"; "railway_api"; "network_issues"; "scraping_issues"; "other"].


(** The name of the first strategy, in priority order, that does not throw. *)
Definition first_success (E : Env) (practiceData : obj) : string :=
  if negb (failed (attemptFullGithubRailwayDeployment E practiceData))
  then "full-github-railway"
  else if negb (failed (attemptExistingRepoDeployment E practiceData))
  then "existing-repo-railway"
  else if negb (failed (attemptDirectRailwayMCP E practiceData))
  then "direct-railway-mcp"
  else "emergency-mock".


(** ** When the Exa search contributes nothing *)

(** No API key, a URL that does not parse, a rejected search or a search
    without results. *)
Definition exa_unusable (E : Env) (url companyName : string) : bool :=
  exa_disabled E
  || match URL_hostname E url with
     | None => true
     | Some hostname =>
         match axios_post_exa E companyName hostname with
         | Thrown _ => true
         | Returned [] => true
         | Returned (_ :: _) => false
         end
     end.

Definition practice_types : list string :=
  ["cosmetic"; "dental"; "surgical"; "therapy"; "dermatology"; "general-healthcare"].

Definition known_locations : list string :=
  ["London"; "Newyork"; "Sydney"; "Toronto"; "Vancouver"; "Melbourne"; "Amsterdam";
   "Berlin"; "Paris"; "Practice Location"].

(** An environment whose Exa search answers with one page of text. *)
Definition exa_env (text : string) : Env :=
  {| URL_hostname := plain_hostname;
     exa_api_key := Some "exa-key";
     axios_post_exa := fun _ _ => Returned [text];
     extractServices := fun _ => ["dental implants"; "teeth whitening"];
     extractTreatments := fun _ => ["consultation"];
     extractSpecializations := fun _ => [];
     extractContactInfo := fun _ => ("+442071234567", "");
     extractLocationFromContent := fun _ => None;
     Date_now := 1730000123456;
     Date_toISOString := "2024-10-27T03:35:23.456Z";
     Math_random := 1 # 2;
     random_base36 := "k3x9q";
     createGitHubRepository :=
       fun _ repoName =>
         mkGithubResult true repoName ("https://github.com/jomarcello/" +:+ repoName) "";
     railway_createProject := fun _ => Returned (mkRailwayProject true "project-1");
     railway_createServiceFromRepo :=
       fun _ _ => Returned (mkRailwayService true "service-1" "environment-1");
     railway_setEnvironmentVariables := fun _ _ _ => Returned tt;
     railway_createDomain := fun _ _ => Returned None;
     railway_createServiceFromImage :=
       fun _ _ => Returned (mkRailwayService true "service-2" "environment-2") |}.


(** ** Host names and names derived from them *)

(** [[.-]], the separators of a host name *)
Definition is_host_separator (c : ascii) : bool := is_char "." c || is_char "-" c.


(** ** The constraints of the store's schema *)

(** Printable text of at most [n] code units. *)
Definition text_within (n : nat) (s : string) : Prop :=
  str_forall is_printable s = true /\ String.length s <= n.

(** The key holds a string, and the string satisfies [P]. *)
Definition string_field (o : obj) (key : string) (P : string -> Prop) : Prop :=
  exists s, o !! key = Some (VStr s) /\ P s.

(** [n] copies of a code unit. *)
Fixpoint str_repeat (c : ascii) (n : nat) : string :=
  match n with
  | O => ""
  | S n' => String c (str_repeat c n')
  end.

(** An environment whose store call resolves. *)
Definition online_store_env : Env := offline_env (1 # 2).


(** ** What the persistence adapter returns *)

(** The prefix of a lead id: [fallback_] on a fallback record, [notion_] on
    a stored one. *)
Definition lead_id_prefix (r : NotionResult) : string :=
  if nr_is_fallback r then "fallback_" else "notion_".

(** The record was stored as validated, by a store call that resolved. *)
Definition stored_as_validated (E : Env) (practiceData : obj) (r : NotionResult) : Prop :=
  Qle_bool (Math_random E) (3 # 10) = false
  /\ exists validatedData,
       validateNotionData E practiceData = Returned validatedData
       /\ nr_record r = Some validatedData.


(** ** What the coordinator's log shows *)

(** The windows launched, in order. *)
Definition windows_of (log : list BatchEvent) : list (list string) :=
  omap (fun event => match event with Launched _ batch => Some batch | _ => None end) log.

(** The number of pauses taken. *)
Definition pauses_of (log : list BatchEvent) : nat :=
  length (omap (fun event => match event with Paused ms => Some ms | _ => None end) log).

(** A window holds at least one URL and at most [concurrencyLimit]. *)
Definition full_window (batch : list string) : Prop :=
  1 <= length batch <= concurrencyLimit.

(** [Math.ceil(n / concurrencyLimit)] *)
Definition batch_count (n : nat) : nat := (n + concurrencyLimit - 1) / concurrencyLimit.
Arguments batch_count : simpl never.

(** Whether [new URL(url)] succeeds. *)
Definition url_parses (E : Env) (url : string) : bool :=
  match URL_hostname E url with
  | Some _ => true
  | None => false
  end.


(** ** Route handlers *)

(** The reply of [POST /automate]: 400, the summary of a batch, the result
    of a single run, or 500. *)
Inductive AutomateReply (R : Type) : Type :=
| BadRequest (error : string)
| BatchReply (batch_results : list (BatchItem R)) (total_processed successful failed : nat)
| SingleReply (result : R)
| ServerError (error : string).
Arguments BadRequest {R}.
Arguments BatchReply {R}.
Arguments SingleReply {R}.
Arguments ServerError {R}.

(** [results.filter(r => r.success).length] and
    [results.filter(r => !r.success).length] *)
Definition count_items {R : Type} (wanted : bool) (results : list (BatchItem R)) : nat :=
  length (filter (fun r => item_success r = wanted) results).

(** One entry of the reply of [POST /process-leads]. *)
Record LeadItem : Type := mkLeadItem {
  lead_url : string;
  lead_success : bool;
  lead_company : option value;
  lead_treatments : option value;
  lead_services : option value;
  lead_score : option value;
  lead_notion_id : option string;
  lead_error : option string
}.

Inductive LeadsReply : Type :=
| LeadsBadRequest (error : string)
| LeadsProcessed (total_processed successful failed : nat) (results : list LeadItem).

(** [x?.slice(0, 3) || []]: the first three entries of an array, the first
    three code units of a string unless there is none; anything else that is
    defined has no [slice]. *)
Definition first_three (x : option value) : outcome value :=
  match x with
  | None => Returned (VArr [])
  | Some (VArr items) => Returned (VArr (take 3 items))
  | Some (VStr s) =>
      Returned (if nonempty (str_take 3 s) then VStr (str_take 3 s) else VArr [])
  | Some _ => Thrown "x?.slice is not a function"
  end.

Section Routes.

(** [envs k] is the environment of the [k]-th workflow the request runs. *)
Context (envs : nat -> Env).

(** The URL of a single run as [new URL] reads it; [url] is the string the
    body holds under [url], if any. *)
Definition single_target (url : option string) : string := toString (VStr <$> url).

(** [POST /automate] of autonomous-agent.js, on the body's [url] and
    [urls]. *)
Definition automate_simplified (url : option string) (urls : option value)
  : AutomateReply Simplified.WorkflowResult :=
  if negb (truthy (VStr <$> url)) && negb (truthy urls)
  then BadRequest "URL or URLs array required"
  else
    match
      match urls with
      | Some (VArr urls) =>
          let results :=
            imap (batch_item
                    (fun k singleUrl =>
                       Returned (Simplified.processHealthcarePractice (envs k) singleUrl))
                    0)
                 urls in
          Returned
            (BatchReply results (length results)
               (count_items true results) (count_items false results))
      | _ =>
          let result :=
            Simplified.processHealthcarePractice (envs 0) (single_target url) in
          Returned (SingleReply result)
      end
    with
    | Returned reply => reply
    | Thrown message => ServerError message
    end.

(** [POST /automate] of the fault-tolerant agent. *)
Definition automate (url : option string) (urls : option value)
  : AutomateReply WorkflowResult :=
  if negb (truthy (VStr <$> url)) && negb (truthy urls)
  then BadRequest "URL or URLs array required"
  else
    match
      match urls with
      | Some (VArr urls) =>
          let results := processBatchHealthcarePractices envs urls in
          Returned
            (BatchReply results (length results)
               (count_items true results) (count_items false results))
      | _ =>
          let* result := processHealthcarePractice (envs 0) (single_target url) in
          Returned (SingleReply result)
      end
    with
    | Returned reply => reply
    | Thrown message => ServerError message
    end.

(** The body of the loop of [POST /process-leads]. *)
Definition process_lead (E : Env) (leadUrl : string) : LeadItem :=
  match
    (let* practiceData := scrapeHealthcarePractice E leadUrl in
     let* notionResult := storeLeadInNotion E practiceData in
     let* treatments := first_three (practiceData !! "treatments") in
     let* services := first_three (practiceData !! "services") in
     Returned
       {| lead_url := leadUrl;
          lead_success := nr_success notionResult;
          lead_company := practiceData !! "company";
          lead_treatments := Some treatments;
          lead_services := Some services;
          lead_score := practiceData !! "lead_score";
          lead_notion_id := Some (nr_leadId notionResult);
          lead_error := None |})
  with
  | Returned item => item
  | Thrown message =>
      {| lead_url := leadUrl;
         lead_success := false;
         lead_company := None;
         lead_treatments := None;
         lead_services := None;
         lead_score := None;
         lead_notion_id := None;
         lead_error := Some message |}
  end.

Definition process_leads (leads : option value) : LeadsReply :=
  match leads with
  | Some (VArr leads) =>
      let results := imap (fun k leadUrl => process_lead (envs k) leadUrl) leads in
      let successful := filter (fun r => lead_success r = true) results in
      LeadsProcessed (length results) (length successful)
        (length results - length successful) results
  | _ => LeadsBadRequest "Leads array required"
  end.

End Routes.

(** How many of the URLs parse, each in the environment of its run. *)
Definition parsed_count (envs : nat -> Env) (urls : list string) : nat :=
  count_successful (imap (fun k url => url_parses (envs k) url) urls).


(** ** Lead discovery *)

(** The options of a discovery: [location], [practice_type], [limit]. *)
Record DiscoveryOptions : Type := mkDiscoveryOptions {
  opt_location : option string;
  opt_practice_type : option string;
  opt_limit : option Z
}.

(** One result of the Exa search. *)
Record SearchResult : Type := mkSearchResult {
  sr_url : string;
  sr_title : option string;
  sr_text : option string;
  sr_score : option Q
}.

Record Lead : Type := mkLead {
  dl_url : string;
  dl_title : option string;
  dl_snippet : string;
  dl_score : Q;
  dl_domain : string;
  dl_discovered_at : string
}.

(** [s] as an option: [None] when it is missing or empty (falsy). *)
Definition given (s : option string) : option string :=
  match s with
  | Some text => if nonempty text then Some text else None
  | None => None
  end.

Definition buildHealthcareSearchQuery (query : string) (options : DiscoveryOptions)
  : string :=
  let searchQuery := query in
  let searchQuery :=
    if negb (includes "healthcare" (toLowerCase query))
       && negb (includes "medical" (toLowerCase query))
    then searchQuery +:+ " healthcare medical practice clinic"
    else searchQuery in
  let searchQuery :=
    match given (opt_location options) with
    | Some location => searchQuery +:+ " in " +:+ location
    | None => searchQuery
    end in
  let searchQuery :=
    match given (opt_practice_type options) with
    | Some practice_type =>
        if negb (String.eqb practice_type "healthcare")
        then searchQuery +:+ " " +:+ practice_type
        else searchQuery
    | None => searchQuery
    end in
  searchQuery +:+ " treatment services appointments booking".

Definition locationDomains : list (string * list string) :=
  [("london", [".co.uk"; ".uk"]);
   ("uk", [".co.uk"; ".uk"]);
   ("canada", [".ca"]);
   ("toronto", [".ca"]);
   ("vancouver", [".ca"]);
   ("australia", [".com.au"; ".au"]);
   ("sydney", [".com.au"; ".au"]);
   ("amsterdam", [".nl"]);
   ("netherlands", [".nl"]);
   ("germany", [".de"]);
   ("berlin", [".de"])].

Fixpoint first_domains (entries : list (string * list string)) (locationLower : string)
  : option (list string) :=
  match entries with
  | [] => None
  | (loc, domains) :: rest =>
      if includes loc locationLower then Some domains
      else first_domains rest locationLower
  end.

Definition getLocationDomains (location : string) : option (list string) :=
  first_domains locationDomains (toLowerCase location).

(** [options.limit || 10] *)
Definition limit_or_10 (options : DiscoveryOptions) : Z :=
  match opt_limit options with
  | Some limit => if (limit =? 0)%Z then 10%Z else limit
  | None => 10%Z
  end.

(** [l.slice(0, end)]: a negative [end] counts from the end of the array. *)
Definition slice_to {A : Type} (finish : Z) (l : list A) : list A :=
  if (finish <? 0)%Z
  then take (Z.to_nat (Z.of_nat (length l) + finish)) l
  else take (Z.to_nat finish) l.

(** [x || 0.5] on a score *)
Definition score_or_half (x : option Q) : Q :=
  match x with
  | Some q => if Qeq_bool q 0 then 1 # 2 else q
  | None => 1 # 2
  end.

(** [text?.substring(0, 200) + '...'] *)
Definition snippet_of (text : option string) : string :=
  match text with
  | Some t => str_take 200 t +:+ "..."
  | None => "undefined" +:+ "..."
  end.

(** [l.map(f)] where [f] can throw: the first throw ends the loop. *)
Fixpoint map_outcome {A B : Type} (f : A -> outcome B) (l : list A) : outcome (list B) :=
  match l with
  | [] => Returned []
  | x :: rest =>
      let* y := f x in
      let* ys := map_outcome f rest in
      Returned (y :: ys)
  end.

Section Discovery.

Context (E : Env).

(** [axios.post('https://api.exa.ai/search', ...)] on the query, [numResults]
    and [includeDomains]: the [results] of the response, empty when the
    response has none. *)
Context (exa_search : string -> Z -> option (list string) -> outcome (list SearchResult)).

Definition createDemoLeads (query : string) (options : DiscoveryOptions) : list Lead :=
  let demoLeads :=
    [ {| dl_url := "https://demo-healthcare-clinic.com";
         dl_title := Some (query +:+ " Healthcare Practice");
         dl_snippet :=
           "Professional healthcare practice offering " +:+ toLowerCase query
           +:+ " services and treatments...";
         dl_score := 17 # 20;
         dl_domain := "demo-healthcare-clinic.com";
         dl_discovered_at := Date_toISOString E |};
      {| dl_url := "https://advanced-medical-center.com";
         dl_title := Some ("Advanced Medical Center - " +:+ query);
         dl_snippet :=
           "Specialized medical center providing comprehensive " +:+ toLowerCase query
           +:+ " care and modern treatments...";
         dl_score := 39 # 50;
         dl_domain := "advanced-medical-center.com";
         dl_discovered_at := Date_toISOString E |} ] in
  slice_to (limit_or_10 options) demoLeads.

Definition lead_of_result (result : SearchResult) : outcome Lead :=
  let* hostname := new_URL_hostname E (sr_url result) in
  Returned
    {| dl_url := sr_url result;
       dl_title := sr_title result;
       dl_snippet := snippet_of (sr_text result);
       dl_score := score_or_half (sr_score result);
       dl_domain := hostname;
       dl_discovered_at := Date_toISOString E |}.

Definition discoverHealthcareLeads (query : string) (options : DiscoveryOptions)
  : list Lead :=
  if exa_disabled E then createDemoLeads query options
  else
    match
      (let searchQuery := buildHealthcareSearchQuery query options in
       let* results :=
         exa_search searchQuery (limit_or_10 options)
           (match given (opt_location options) with
            | Some location => getLocationDomains location
            | None => None
            end) in
       match results with
       | [] => Returned []
       | _ => map_outcome lead_of_result results
       end)
    with
    | Returned leads => leads
    | Thrown _ => createDemoLeads query options
    end.

(** What the search is asked, and what it answers. *)
Definition search_of (query : string) (options : DiscoveryOptions)
  : outcome (list SearchResult) :=
  exa_search (buildHealthcareSearchQuery query options) (limit_or_10 options)
    (match given (opt_location options) with
     | Some location => getLocationDomains location
     | None => None
     end).

End Discovery.

(** The literal the query builder always appends. *)
Definition booking_terms : string := " treatment services appointments booking".

(** A lead made from a search result: its domain is the host of its URL, its
    snippet has at most 203 code units and ends with an ellipsis, its score
    is not zero. *)
Definition lead_from_search (E : Env) (lead : Lead) : Prop :=
  URL_hostname E (dl_url lead) = Some (dl_domain lead)
  /\ String.length (dl_snippet lead) <= 203
  /\ (exists text, dl_snippet lead = text +:+ "...")
  /\ Qeq_bool (dl_score lead) 0 = false.


(** ** Telegram webhook (autonomous-agent.js) *)

(** The maximal run of code units that are not white space: [[^\s]+]. *)
Fixpoint take_nonspace (s : string) : string :=
  match s with
  | "" => ""
  | String c s' => if is_space c then "" else String c (take_nonspace s')
  end.

(** A match of [/https?:\/\/[^\s]+/] at the start of [s]. *)
Definition url_here (s : string) : option string :=
  let after_scheme :=
    match strip_prefix "https://" s with
    | Some rest => Some ("https://", rest)
    | None =>
        match strip_prefix "http://" s with
        | Some rest => Some ("http://", rest)
        | None => None
        end
    end in
  match after_scheme with
  | Some (scheme, rest) =>
      if nonempty (take_nonspace rest) then Some (scheme +:+ take_nonspace rest) else None
  | None => None
  end.

(** [text.match(/https?:\/\/[^\s]+/)]: the leftmost match. *)
Fixpoint first_url (text : string) : option string :=
  match url_here text with
  | Some url => Some url
  | None =>
      match text with
      | "" => None
      | String _ text' => first_url text'
      end
  end.

(** The messages of the bot, by kind; the texts themselves are not
    modelled. *)
Inductive BotMessage : Type :=
| ProcessingStarted (url : string)
| StepOne
| StepTwo
| StepThree (practice location treatments services lead_score notion_id : string)
| ProcessingFailed (error : string)
| Help.

(** A computation that posts messages: its outcome and what it posted, in
    order.  What was posted before a throw stays posted. *)
Definition Bot (A : Type) : Type := outcome A * list BotMessage.

Definition bot_lift {A : Type} (o : outcome A) : Bot A := (o, []).

Definition bot_bind {A B : Type} (m : Bot A) (k : A -> Bot B) : Bot B :=
  match m with
  | (Returned a, posted) => let '(r, posted') := k a in (r, posted ++ posted')
  | (Thrown message, posted) => (Thrown message, posted)
  end.

Definition bot_catch {A : Type} (m : Bot A) (handler : string -> Bot A) : Bot A :=
  match m with
  | (Returned a, posted) => (Returned a, posted)
  | (Thrown message, posted) =>
      let '(r, posted') := handler message in (r, posted ++ posted')
  end.

(** The reply of the webhook: its status, and the URL of the workflow it
    scheduled, if any. *)
Record WebhookReply : Type := mkWebhookReply {
  wh_status : nat;
  wh_started : option string
}.

Section Telegram.

Context (E : Env).

(** [config.telegram_bot_token], and [axios.post] on the bot API. *)
Context (telegram_bot_token : option string).
Context (axios_post_telegram : value -> BotMessage -> outcome unit).

Definition sendTelegramMessage (chatId : value) (text : BotMessage) : Bot unit :=
  if negb (truthy (VStr <$> telegram_bot_token)) then (Returned tt, [])
  else
    match axios_post_telegram chatId text with
    | Returned _ => (Returned tt, [text])
    | Thrown message => (Thrown message, [])
    end.

(** The handler up to its reply, on [message?.chat?.id] and
    [message?.text]. *)
Definition telegram_webhook (chatId messageText : option value) : Bot WebhookReply :=
  bot_catch
    (match chatId, messageText with
     | Some chat, Some text =>
         if negb (truthy chatId) || negb (truthy messageText)
         then (Returned (mkWebhookReply 400 None), [])
         else
           match text with
           | VStr text =>
               match first_url text with
               | Some url =>
                   bot_bind (sendTelegramMessage chat (ProcessingStarted url))
                     (fun _ => (Returned (mkWebhookReply 200 (Some url)), []))
               | None =>
                   bot_bind (sendTelegramMessage chat Help)
                     (fun _ => (Returned (mkWebhookReply 200 None), []))
               end
           | _ => (Thrown "messageText.match is not a function", [])
           end
     | _, _ => (Returned (mkWebhookReply 400 None), [])
     end)
    (fun _ => (Returned (mkWebhookReply 500 None), [])).

(** [Array.isArray(x) ? x.slice(0,3).join(', ') : default] *)
Definition first_three_joined (x : option value) (default : string) : string :=
  match x with
  | Some (VArr items) => join ", " (take 3 items)
  | _ => default
  end.

(** The workflow the handler schedules with [setImmediate]. *)
Definition webhook_workflow (chatId : value) (url : string) : Bot unit :=
  bot_catch
    (bot_bind (sendTelegramMessage chatId StepOne) (fun _ =>
     bot_bind (bot_lift (scrapeHealthcarePractice E url)) (fun practiceData =>
     bot_bind (sendTelegramMessage chatId StepTwo) (fun _ =>
     bot_bind (bot_lift (storeLeadInNotion E practiceData)) (fun notionResult =>
     sendTelegramMessage chatId
       (StepThree
          (toString (practiceData !! "company"))
          (toString (practiceData !! "location"))
          (first_three_joined (practiceData !! "treatments") "Consultation")
          (first_three_joined (practiceData !! "services") "Healthcare Services")
          (toString (Some (or_else (practiceData !! "lead_score") (VNum 50))))
          (nr_leadId notionResult)))))))
    (fun message => sendTelegramMessage chatId (ProcessingFailed message)).

End Telegram.

(** What the URL pattern matches: a scheme and a run, not empty, of code
    units that are not white space. *)
Definition url_token (url : string) : Prop :=
  exists scheme run,
    (scheme = "https://" \/ scheme = "http://")
    /\ url = scheme +:+ run
    /\ nonempty run = true
    /\ str_forall (fun c => negb (is_space c)) run = true.

(** The text goes on after the match with white space, or ends. *)
Definition ends_token (after : string) : Prop :=
  after = "" \/ exists c rest, after = String c rest /\ is_space c = true.

(* ===================================================================== *)
(** * Part II. Properties                                                 *)
(* ===================================================================== *)

(** Reading a key of an object literal: the values of the literal are
    abstracted, then the lookup is computed. *)
Ltac abstract_values :=
  repeat match goal with
         | |- context [@pair string value ?k ?v] =>
             tryif is_var v then fail
             else (let x := fresh "v" in generalize v; intro x)
         end.

Ltac obj_lookup := abstract_values; vm_compute; reflexivity.


(** ** Strings *)

Section Strings.

Implicit Types (s : string) (c : ascii) (p : ascii -> bool) (n : nat).

Lemma str_take_all n s : String.length s <= n -> str_take n s = s.
Proof.
  revert n; induction s as [|c s IH]; intros [|n] H; cbn in *; try reflexivity; try lia.
  f_equal. apply IH. lia.
Qed.

Lemma str_take_length n s : String.length (str_take n s) <= n.
Proof.
  revert s; induction n as [|n IH]; intros [|c s]; cbn; try lia.
  specialize (IH s). lia.
Qed.

Lemma str_forall_take p n s :
  str_forall p s = true -> str_forall p (str_take n s) = true.
Proof.
  revert s; induction n as [|n IH]; intros [|c s]; cbn; try reflexivity.
  intros [-> H]%andb_true_iff. cbn. by apply IH.
Qed.

Lemma str_forall_filter p s : str_forall p (str_filter p s) = true.
Proof.
  induction s as [|c s IH]; cbn; [reflexivity|].
  destruct (p c) eqn:Hc; cbn; [rewrite Hc|]; assumption.
Qed.

Lemma str_filter_fixed p s : str_forall p s = true -> str_filter p s = s.
Proof.
  induction s as [|c s IH]; cbn; [reflexivity|].
  intros [-> H]%andb_true_iff. f_equal. by apply IH.
Qed.

Lemma str_filter_idem p s : str_filter p (str_filter p s) = str_filter p s.
Proof. apply str_filter_fixed, str_forall_filter. Qed.

Lemma str_forall_trim_left p s :
  str_forall p s = true -> str_forall p (trim_left s) = true.
Proof.
  induction s as [|c s IH]; cbn; [reflexivity|].
  intros H. destruct (is_space c); [|exact H].
  apply andb_true_iff in H as [_ H]. by apply IH.
Qed.

Lemma str_forall_trim_right p s :
  str_forall p s = true -> str_forall p (trim_right s) = true.
Proof.
  induction s as [|c s IH]; cbn; [reflexivity|].
  intros [Hc H]%andb_true_iff. specialize (IH H).
  destruct (trim_right s) as [|a r].
  - destruct (is_space c); cbn; [reflexivity|]. by rewrite Hc.
  - cbn in *. by rewrite Hc, IH.
Qed.

Lemma trim_right_length s : String.length (trim_right s) <= String.length s.
Proof.
  induction s as [|c s IH]; cbn; [lia|].
  destruct (trim_right s) as [|a r]; [destruct (is_space c)|]; cbn in *; lia.
Qed.

Lemma trim_right_idem s : trim_right (trim_right s) = trim_right s.
Proof.
  induction s as [|c s IH]; cbn; [reflexivity|].
  destruct (trim_right s) as [|a r] eqn:Hr.
  - destruct (is_space c) eqn:Hc; cbn; [reflexivity|]. by rewrite Hc.
  - change (trim_right (String c (String a r))) with
      (match trim_right (String a r) with
       | "" => if is_space c then "" else String c ""
       | r' => String c r'
       end).
    by rewrite IH.
Qed.

Lemma trim_left_starts_clean s : starts_clean (trim_left s) = true.
Proof.
  induction s as [|c s IH]; cbn; [reflexivity|].
  destruct (is_space c) eqn:Hc; [exact IH|]. cbn. by rewrite Hc.
Qed.

Lemma trim_left_fixed s : starts_clean s = true -> trim_left s = s.
Proof.
  destruct s as [|c s]; cbn; [reflexivity|].
  by intros ->%negb_true_iff.
Qed.

Lemma trim_right_starts_clean s :
  starts_clean s = true -> starts_clean (trim_right s) = true.
Proof.
  destruct s as [|c s]; cbn; [reflexivity|].
  intros Hc. destruct (trim_right s).
  - apply negb_true_iff in Hc. rewrite Hc. cbn. by rewrite Hc.
  - exact Hc.
Qed.

Lemma str_take_starts_clean n s :
  starts_clean s = true -> starts_clean (str_take n s) = true.
Proof. destruct n, s; cbn; auto. Qed.

Lemma newline_to_space_printable c :
  is_printable c = true -> newline_to_space c = c.
Proof.
  destruct c as [[] [] [] [] [] [] [] []]; vm_compute; congruence.
Qed.

Lemma str_map_newline_printable s :
  str_forall is_printable s = true -> str_map newline_to_space s = s.
Proof.
  induction s as [|c s IH]; cbn; [reflexivity|].
  intros [Hc H]%andb_true_iff. by rewrite newline_to_space_printable, IH.
Qed.

Lemma str_or_left a b : nonempty a = true -> str_or a b = a.
Proof. unfold str_or. by intros ->. Qed.

End Strings.

(** ** Numbers as text *)

Section Decimal.

Implicit Types (n : N) (fuel k : nat) (s : string) (p : ascii -> bool).

Lemma digits_le_below_ten fuel n : Forall (fun d => (d < 10)%N) (digits_le fuel n).
Proof.
  revert n; induction fuel as [|fuel IH]; intros n; cbn [digits_le]; [constructor|].
  constructor; [apply N.mod_lt; lia|].
  destruct (n / 10 =? 0)%N; [constructor|apply IH].
Qed.

Lemma digits_le_length k fuel n :
  (10 ^ N.of_nat k <= n)%N -> S k <= fuel -> S k <= length (digits_le fuel n).
Proof.
  revert fuel n; induction k as [|k IH]; intros [|fuel] n Hn Hfuel; try lia;
    cbn [digits_le length]; [lia|].
  assert (Hdiv : (10 ^ N.of_nat k <= n / 10)%N).
  { apply N.div_le_lower_bound; [lia|].
    rewrite Nat2N.inj_succ, N.pow_succ_r' in Hn. lia. }
  assert (Hpos : (0 < 10 ^ N.of_nat k)%N) by (apply N.neq_0_lt_0, N.pow_nonzero; lia).
  destruct (n / 10 =? 0)%N eqn:H0; [apply N.eqb_eq in H0; lia|].
  specialize (IH fuel (n / 10)%N Hdiv). lia.
Qed.

Lemma digit_char_is_digit (d : N) : (d < 10)%N -> is_digit (digit_char d) = true.
Proof.
  intros H.
  assert (Hall : forallb (fun k => is_digit (digit_char (N.of_nat k))) (seq 0 10) = true)
    by (vm_compute; reflexivity).
  rewrite forallb_forall in Hall. specialize (Hall (N.to_nat d)).
  rewrite N2Nat.id in Hall. apply Hall, in_seq. lia.
Qed.

Lemma string_of_list_ascii_length (l : list ascii) :
  String.length (string_of_list_ascii l) = length l.
Proof. induction l; cbn; congruence. Qed.

Lemma str_forall_string_of_list p (l : list ascii) :
  Forall (fun c => p c = true) l -> str_forall p (string_of_list_ascii l) = true.
Proof. induction 1 as [|c l Hc _ IH]; cbn; [reflexivity|]. by rewrite Hc, IH. Qed.

Lemma N_toString_digits n : str_forall is_digit (N_toString n) = true.
Proof.
  unfold N_toString. apply str_forall_string_of_list.
  apply Forall_rev, Forall_map.
  eapply Forall_impl; [apply digits_le_below_ten|].
  intros d Hd. by apply digit_char_is_digit.
Qed.

Lemma N_toString_length n : (100000 <= n)%N -> 6 <= String.length (N_toString n).
Proof.
  intros Hn. unfold N_toString.
  rewrite string_of_list_ascii_length, length_rev, length_map.
  apply (digits_le_length 5); [exact Hn|].
  assert (16 <= N.log2 n)%N by (change 16%N with (N.log2 100000); by apply N.log2_le_mono).
  lia.
Qed.

Lemma str_drop_length k s : String.length (str_drop k s) = String.length s - k.
Proof. revert s; induction k as [|k IH]; intros [|c s]; cbn; try lia. apply IH. Qed.

Lemma str_forall_drop p k s :
  str_forall p s = true -> str_forall p (str_drop k s) = true.
Proof.
  revert s; induction k as [|k IH]; intros [|c s]; cbn; try done.
  intros [_ H]%andb_true_iff. by apply IH.
Qed.

(** [Date.now().toString().slice(-6)] once the clock is past 99999 ms. *)
Lemma clock_suffix (now : Z) :
  (100000 <= now)%Z ->
  String.length (slice_last 6 (Z_toString now)) = 6
  /\ str_forall is_digit (slice_last 6 (Z_toString now)) = true.
Proof.
  intros Hnow. unfold Z_toString. destruct (now <? 0)%Z eqn:Hneg; [lia|].
  unfold slice_last. split.
  - rewrite str_drop_length.
    assert (6 <= String.length (N_toString (Z.to_N now))) by (apply N_toString_length; lia).
    lia.
  - apply str_forall_drop, N_toString_digits.
Qed.

End Decimal.

(** ** Scoring function *)

Section Scoring.

Implicit Types (d : ExaData) (s : Signals).

(** Case analysis on every test of the score, with the comparisons turned
    into facts [lia] reads. *)
Ltac score_cases :=
  cbn [sig_services sig_treatments sig_phone sig_email sig_location
       sig_specializations sig_content];
  repeat match goal with
         | |- context [if ?b then _ else _] => destruct b eqn:?
         end;
  repeat match goal with
         | H : (_ <? _) = true |- _ => apply Nat.ltb_lt in H
         | H : (_ <? _) = false |- _ => apply Nat.ltb_ge in H
         end;
  try lia.

Lemma calculateLeadScore_signals d :
  calculateLeadScore d = score_of_signals (signals_of d).
Proof.
  unfold calculateLeadScore, score_of_signals, signals_of, bonus.
  destruct (content_analyzed d) as [n|]; score_cases.
Qed.

Lemma score_of_signals_bounds s : (50 <= score_of_signals s <= 100)%Z.
Proof. unfold score_of_signals, bonus. score_cases. Qed.

Lemma score_of_signals_mono s s' :
  raised_one_signal s s' -> (score_of_signals s <= score_of_signals s')%Z.
Proof. intros H; destruct H; unfold score_of_signals, bonus; score_cases. Qed.

End Scoring.

(** C4. For every signals input, [calculateLeadScore] returns an integer
    between 0 and 100 that is the base of 50 plus the capped contributions
    (services 5 each up to 25, treatments 3 each up to 20, phone 10, email 10,
    location 5, non-empty specializations 5, more than 1000 characters
    analyzed 5), cut off at 100.  The function is a pure function of its
    argument: it reads nothing else and changes nothing. *)
Theorem calculateLeadScore_formula (exaData : ExaData) :
  calculateLeadScore exaData =
    Z.min
      (50
       + Z.min (5 * Z.of_nat (length (services exaData))) 25
       + Z.min (3 * Z.of_nat (length (treatments exaData))) 20
       + (if nonempty (phone exaData) then 10 else 0)
       + (if nonempty (email exaData) then 10 else 0)
       + (if nonempty (location exaData) then 5 else 0)
       + (if (0 <? length (specializations exaData))%nat then 5 else 0)
       + (match content_analyzed exaData with
          | Some n => if (1000 <? n)%nat then 5 else 0
          | None => 0
          end))%Z
      100
  /\ (0 <= calculateLeadScore exaData <= 100)%Z.
Proof.
  split.
  - rewrite calculateLeadScore_signals.
    unfold score_of_signals, signals_of, bonus; cbn [sig_services sig_treatments
      sig_phone sig_email sig_location sig_specializations sig_content].
    destruct (content_analyzed exaData); reflexivity.
  - rewrite calculateLeadScore_signals.
    pose proof (score_of_signals_bounds (signals_of exaData)). lia.
Qed.

(** C5. The score never decreases when one signal is raised and the others
    are held fixed. *)
Theorem calculateLeadScore_monotone (a b : ExaData) :
  raised_one_signal (signals_of a) (signals_of b) ->
  (calculateLeadScore a <= calculateLeadScore b)%Z.
Proof.
  intros H. rewrite !calculateLeadScore_signals.
  by apply score_of_signals_mono.
Qed.

Lemma calculateLeadScore_monotone_witness :
  raised_one_signal
    (signals_of (mkExaData "Acme Dental" "" "" "London" ["Implants"] [] [] "dental" None))
    (signals_of (mkExaData "Acme Dental" "" "" "London" ["Implants"; "Crowns"] [] []
                   "dental" None))
  /\ (calculateLeadScore
        (mkExaData "Acme Dental" "" "" "London" ["Implants"] [] [] "dental" None)
      <= calculateLeadScore
           (mkExaData "Acme Dental" "" "" "London" ["Implants"; "Crowns"] [] []
              "dental" None))%Z.
Proof.
  assert (H : raised_one_signal
    (signals_of (mkExaData "Acme Dental" "" "" "London" ["Implants"] [] [] "dental" None))
    (signals_of (mkExaData "Acme Dental" "" "" "London" ["Implants"; "Crowns"] [] []
                   "dental" None))).
  { apply raised_services. cbn. lia. }
  split; [exact H | exact (calculateLeadScore_monotone _ _ H)].
Defined.

(** C10. The score is never below the base of 50: the range of the function
    is 50 to 100, both ends are reached, and a clamp from below would change
    nothing. *)
Theorem calculateLeadScore_at_least_base (exaData : ExaData) :
  (50 <= calculateLeadScore exaData <= 100)%Z
  /\ Z.max (calculateLeadScore exaData) 0 = calculateLeadScore exaData
  /\ calculateLeadScore (mkExaData "" "" "" "" [] [] [] "" None) = 50%Z
  /\ calculateLeadScore
       (mkExaData "Acme" "+31 20 123 4567" "info@acme.nl" "Amsterdam"
          ["a"; "b"; "c"; "d"; "e"] ["t"; "u"; "v"; "w"; "x"; "y"; "z"] ["s"]
          "dental" (Some 4000)) = 100%Z.
Proof.
  pose proof (score_of_signals_bounds (signals_of exaData)) as H.
  rewrite <- calculateLeadScore_signals in H.
  repeat split; try lia; reflexivity.
Qed.

(** ** Enrichment adapter *)

Section Enrichment.

Context (E : Env).
Implicit Types (url hostname companyName : string).

Lemma nonempty_append a b : nonempty b = true -> nonempty (a +:+ b) = true.
Proof. destruct a; [done|reflexivity]. Qed.

Lemma extractCompanyFromUrl_nonempty hostname :
  nonempty (extractCompanyFromUrl hostname) = true.
Proof. unfold extractCompanyFromUrl. by apply nonempty_append. Qed.

Lemma new_URL_hostname_valid url hostname :
  URL_hostname E url = Some hostname -> new_URL_hostname E url = Returned hostname.
Proof. unfold new_URL_hostname. by intros ->. Qed.

Lemma basicContentAnalysis_valid url hostname :
  URL_hostname E url = Some hostname ->
  exists exaData,
    basicContentAnalysis E url = Returned exaData
    /\ company exaData = extractCompanyFromUrl hostname.
Proof.
  intros H. unfold basicContentAnalysis. rewrite (new_URL_hostname_valid _ _ H).
  cbn [bind]. by eexists.
Qed.

Lemma extractHealthcareData_valid content url hostname companyName :
  URL_hostname E url = Some hostname ->
  exists exaData,
    extractHealthcareData E content url companyName = Returned exaData
    /\ company exaData = companyName.
Proof.
  intros H. unfold extractHealthcareData. rewrite (new_URL_hostname_valid _ _ H).
  destruct (extractLocationFromContent E content) as [l|]; [destruct (nonempty l)|];
    cbn [bind]; by eexists.
Qed.

(** For a URL that parses, the search resolves, whatever the Exa call does. *)
Lemma searchWithExa_valid url hostname :
  URL_hostname E url = Some hostname ->
  exists exaData,
    searchWithExa E url (extractCompanyFromUrl hostname) = Returned exaData
    /\ company exaData = extractCompanyFromUrl hostname.
Proof.
  intros H. unfold searchWithExa.
  destruct (basicContentAnalysis_valid _ _ H) as (basic & Hbasic & Hcompany).
  destruct (exa_disabled E); [by exists basic|].
  rewrite (new_URL_hostname_valid _ _ H). cbn [bind].
  destruct (axios_post_exa E _ hostname) as [[|text results]|];
    cbn [bind try_catch].
  - rewrite Hbasic. by exists basic.
  - destruct (extractHealthcareData_valid text url hostname
                (extractCompanyFromUrl hostname) H) as (d & -> & Hd).
    by exists d.
  - by exists basic.
Qed.

(** The lower-cased text keeps no upper-case letter, so the slug has none. *)
Lemma slug_char_after_lowering (c : ascii) :
  (is_alnum (to_lower c) || is_space (to_lower c)) = true ->
  is_space (to_lower c) = false ->
  is_slug_char (to_lower c) = true.
Proof.
  destruct c as [[] [] [] [] [] [] [] []]; vm_compute; congruence.
Qed.

Lemma slug_chars (in_run : bool) (s : string) :
  str_forall is_slug_char
    (collapse_spaces in_run
       (str_filter (fun c => is_alnum c || is_space c) (toLowerCase s))) = true.
Proof.
  revert in_run; induction s as [|c s IH]; intros in_run; [reflexivity|].
  cbn [toLowerCase str_map str_filter]. fold (toLowerCase s).
  destruct (is_alnum (to_lower c) || is_space (to_lower c)) eqn:Hkeep; [|apply IH].
  cbn [collapse_spaces].
  destruct (is_space (to_lower c)) eqn:Hspace.
  - destruct in_run; [apply IH|]. cbn [str_forall]. by rewrite IH.
  - cbn [str_forall]. rewrite IH, slug_char_after_lowering; [done| |done].
    by rewrite Hspace.
Qed.

Lemma generatePracticeId_format companyName :
  (100000 <= Date_now E)%Z -> slug_format (generatePracticeId E companyName).
Proof.
  intros Hnow. destruct (clock_suffix _ Hnow) as [Hlen Hdigits].
  unfold generatePracticeId. eexists _, _. split; [reflexivity|].
  split; [|by split]. apply str_forall_take, slug_chars.
Qed.

(** The practice data of a URL that parses: the [try] block completes. *)
Lemma scrapeHealthcarePractice_valid url hostname :
  URL_hostname E url = Some hostname ->
  exists exaData practiceData,
    searchWithExa E url (extractCompanyFromUrl hostname) = Returned exaData
    /\ scrapeHealthcarePractice E url = Returned practiceData
    /\ practiceData !! "company" = Some (VStr (extractCompanyFromUrl hostname))
    /\ practiceData !! "practiceId"
       = Some (VStr (generatePracticeId E (extractCompanyFromUrl hostname)))
    /\ practiceData !! "services" = Some (VArr (services exaData))
    /\ practiceData !! "treatments" = Some (VArr (treatments exaData))
    /\ practiceData !! "lead_score" = Some (VNum (calculateLeadScore exaData))
    /\ practiceData !! "exa_enhanced" = Some (VBool true).
Proof.
  intros H. destruct (searchWithExa_valid _ _ H) as (exaData & Hsearch & Hcompany).
  exists exaData. unfold scrapeHealthcarePractice.
  rewrite (new_URL_hostname_valid _ _ H). cbn [bind]. rewrite Hsearch.
  cbn [bind try_catch]. rewrite Hcompany.
  rewrite (str_or_left _ _ (extractCompanyFromUrl_nonempty hostname)).
  set (literal := list_to_map _).
  assert (Hc : literal !! "company" = Some (VStr (extractCompanyFromUrl hostname)))
    by (subst literal; obj_lookup).
  rewrite Hc. cbn [toString].
  eexists. split; [reflexivity|]. split; [reflexivity|].
  split; [by rewrite lookup_insert_ne|]. split; [by rewrite lookup_insert_eq|].
  subst literal.
  repeat split; (rewrite lookup_insert_ne by done); obj_lookup.
Qed.

End Enrichment.

(** ** The practice id against its specification *)

Section PracticeIdAsSpecified.

Implicit Types (s : string) (n : N).

Lemma pieces_between_spaces_not_nil (in_run : bool) s :
  pieces_between_spaces in_run s <> [].
Proof.
  revert in_run. induction s as [|c s IH]; intros in_run; cbn [pieces_between_spaces];
    [discriminate|].
  destruct (is_space c); [destruct in_run; [apply IH|discriminate]|].
  by destruct (pieces_between_spaces false s).
Qed.

Lemma join_cons_char (c : ascii) (piece : string) (pieces : list string) :
  join "-" (String c piece :: pieces) = String c (join "-" (piece :: pieces)).
Proof. by destruct pieces. Qed.

Lemma collapse_spaces_join (in_run : bool) s :
  collapse_spaces in_run s = join "-" (pieces_between_spaces in_run s).
Proof.
  revert in_run. induction s as [|c s IH]; intros in_run; [reflexivity|].
  cbn [collapse_spaces pieces_between_spaces]. destruct (is_space c).
  - destruct in_run; [apply IH|]. rewrite IH.
    pose proof (pieces_between_spaces_not_nil true s) as Hne.
    by destruct (pieces_between_spaces true s).
  - rewrite IH. pose proof (pieces_between_spaces_not_nil false s) as Hne.
    destruct (pieces_between_spaces false s) as [|piece pieces] eqn:Hp; [done|].
    by rewrite join_cons_char.
Qed.

Lemma digits_le_step (fuel : nat) n :
  (n / 10 <> 0)%N ->
  digits_le (S fuel) n = (n mod 10)%N :: digits_le fuel (n / 10)%N.
Proof. intros H%N.eqb_neq. cbn [digits_le]. by rewrite H. Qed.

Lemma digits_le_six (fuel : nat) n :
  (100000 <= n)%N ->
  exists rest,
    digits_le (6 + fuel) n
    = [(n / 10 ^ 0) mod 10; (n / 10 ^ 1) mod 10; (n / 10 ^ 2) mod 10;
       (n / 10 ^ 3) mod 10; (n / 10 ^ 4) mod 10; (n / 10 ^ 5) mod 10]%N ++ rest.
Proof.
  intros Hn.
  change (6 + fuel) with (S (S (S (S (S (S fuel)))))).
  rewrite !digits_le_step by (rewrite ?N.Div0.div_div; apply N.neq_0_lt_0, N.div_str_pos; lia).
  rewrite !N.Div0.div_div.
  eexists. cbn [app]. repeat f_equal.
  change (10 ^ 0)%N with 1%N. by rewrite N.div_1_r.
Qed.

Lemma string_of_list_ascii_append (l1 l2 : list ascii) :
  string_of_list_ascii (l1 ++ l2) = string_of_list_ascii l1 +:+ string_of_list_ascii l2.
Proof.
  induction l1 as [|c l1 IH]; [reflexivity|].
  change (String c (string_of_list_ascii (l1 ++ l2))
          = String c (string_of_list_ascii l1 +:+ string_of_list_ascii l2)).
  by rewrite IH.
Qed.

Lemma str_length_app (s1 s2 : string) :
  String.length (s1 +:+ s2) = String.length s1 + String.length s2.
Proof. induction s1 as [|c s1 IH]; simpl; [reflexivity|]. f_equal. exact IH. Qed.

Lemma slice_last_append (s1 s2 : string) :
  slice_last (String.length s2) (s1 +:+ s2) = s2.
Proof.
  unfold slice_last. rewrite str_length_app.
  replace (String.length s1 + String.length s2 - String.length s2)
    with (String.length s1) by lia.
  induction s1 as [|c s1 IH]; [by destruct s2|exact IH].
Qed.

(** [Date.now().toString().slice(-6)] is the clock's six low-order digits,
    once the clock has six. *)
Lemma clock_suffix_digits (now : Z) :
  (100000 <= now)%Z -> slice_last 6 (Z_toString now) = six_digits now.
Proof.
  intros Hnow. unfold Z_toString, six_digits. cbv zeta.
  destruct (now <? 0)%Z eqn:Hneg; [lia|].
  set (n := Z.to_N now). assert (Hn : (100000 <= n)%N) by lia.
  unfold N_toString.
  assert (Hfuel : exists fuel, S (N.to_nat (N.log2 n)) = 6 + fuel).
  { assert (16 <= N.log2 n)%N
      by (change 16%N with (N.log2 100000); by apply N.log2_le_mono).
    exists (N.to_nat (N.log2 n) - 5). lia. }
  destruct Hfuel as [fuel ->].
  destruct (digits_le_six fuel n Hn) as [rest ->].
  rewrite map_app, rev_app_distr, string_of_list_ascii_append.
  cbn [map rev app].
  exact (slice_last_append _
           (string_of_list_ascii
              (map (fun i => digit_char ((n / 10 ^ i) mod 10)%N) [5; 4; 3; 2; 1; 0]%N))).
Qed.

End PracticeIdAsSpecified.

Lemma generatePracticeId_as_specified (E : Env) (companyName : string) :
  (100000 <= Date_now E)%Z ->
  generatePracticeId E companyName
  = slug_as_specified companyName +:+ "-" +:+ six_digits (Date_now E).
Proof.
  intros Hnow. unfold generatePracticeId, slug_as_specified.
  by rewrite collapse_spaces_join, (clock_suffix_digits _ Hnow).
Qed.

(** C8. For every URL that parses, with a clock of at least six digits, the
    enrichment adapter returns a record whose company, the name derived from
    the host, is not empty, and whose practice id is the slug of that company
    as specified (the name in lower case, reduced to letters, digits and
    white space, its pieces joined by hyphens, cut at 30 code units), a
    hyphen, and the six low-order digits of the clock; so it is made of
    lower-case letters, digits and hyphens followed by a hyphen and six
    digits.  This holds whether the Exa search answers, finds nothing, fails
    or is disabled. *)
Theorem scrapeHealthcarePractice_company_and_id (E : Env) (url hostname : string) :
  URL_hostname E url = Some hostname ->
  (100000 <= Date_now E)%Z ->
  exists practiceData company practiceId,
    scrapeHealthcarePractice E url = Returned practiceData
    /\ practiceData !! "company" = Some (VStr company)
    /\ nonempty company = true
    /\ practiceData !! "practiceId" = Some (VStr practiceId)
    /\ practiceId = generatePracticeId E company
    /\ slug_format practiceId
    /\ company = extractCompanyFromUrl hostname
    /\ practiceId = slug_as_specified company +:+ "-" +:+ six_digits (Date_now E).
Proof.
  intros Hurl Hnow.
  destruct (scrapeHealthcarePractice_valid E url hostname Hurl)
    as (exaData & practiceData & _ & Hscrape & Hcompany & Hid & _).
  exists practiceData, (extractCompanyFromUrl hostname),
    (generatePracticeId E (extractCompanyFromUrl hostname)).
  split; [exact Hscrape|]. split; [exact Hcompany|].
  split; [apply extractCompanyFromUrl_nonempty|]. split; [exact Hid|].
  split; [reflexivity|]. split; [by apply generatePracticeId_format|].
  split; [reflexivity|]. by apply generatePracticeId_as_specified.
Qed.

Lemma scrapeHealthcarePractice_company_and_id_witness :
  URL_hostname (offline_env (1 # 10)) "https://www.london-smiles.co.uk/contact"
    = Some "www.london-smiles.co.uk"
  /\ (100000 <= Date_now (offline_env (1 # 10)))%Z
  /\ exists practiceData company practiceId,
       scrapeHealthcarePractice (offline_env (1 # 10))
         "https://www.london-smiles.co.uk/contact" = Returned practiceData
       /\ practiceData !! "company" = Some (VStr company)
       /\ nonempty company = true
       /\ practiceData !! "practiceId" = Some (VStr practiceId)
       /\ practiceId = generatePracticeId (offline_env (1 # 10)) company
       /\ slug_format practiceId
       /\ company = extractCompanyFromUrl "www.london-smiles.co.uk"
       /\ practiceId
          = slug_as_specified company +:+ "-"
            +:+ six_digits (Date_now (offline_env (1 # 10))).
Proof.
  assert (H1 : URL_hostname (offline_env (1 # 10)) "https://www.london-smiles.co.uk/contact"
               = Some "www.london-smiles.co.uk") by reflexivity.
  assert (H2 : (100000 <= Date_now (offline_env (1 # 10)))%Z) by (cbn; lia).
  split; [exact H1|]. split; [exact H2|].
  exact (scrapeHealthcarePractice_company_and_id _ _ _ H1 H2).
Defined.

Example practice_id_of_london_smiles :
  field_of
    (scrapeHealthcarePractice (offline_env (1 # 10))
       "https://www.london-smiles.co.uk/contact") "practiceId"
  = Some (VStr "london-smiles-healthcare-123456").
Proof. vm_compute. reflexivity. Qed.

(** The enrichment when no API key is configured: the basic analysis of the
    host name, scored like any other. *)
Lemma scrape_without_api_key (E : Env) (url hostname : string) :
  exa_disabled E = true ->
  URL_hostname E url = Some hostname ->
  exists practiceData,
    scrapeHealthcarePractice E url = Returned practiceData
    /\ practiceData !! "services" = Some (VArr ["Healthcare Services"])
    /\ practiceData !! "treatments" = Some (VArr ["Consultation"])
    /\ practiceData !! "company" = Some (VStr (extractCompanyFromUrl hostname))
    /\ practiceData !! "lead_score"
       = Some (VNum (if nonempty (extractLocationFromUrl hostname) then 68 else 63))
    /\ practiceData !! "exa_enhanced" = Some (VBool true).
Proof.
  intros Hoff Hurl.
  destruct (scrapeHealthcarePractice_valid E _ _ Hurl)
    as (exaData & practiceData & Hsearch & Hscrape & Hcompany & _ & Hs & Ht & Hscore & Hexa).
  unfold searchWithExa, basicContentAnalysis in Hsearch.
  rewrite Hoff, (new_URL_hostname_valid _ _ _ Hurl) in Hsearch.
  cbn [bind] in Hsearch. injection Hsearch as <-.
  exists practiceData. repeat split; try assumption.
  rewrite Hscore. unfold calculateLeadScore.
  cbn [services treatments specializations phone email location content_analyzed].
  by destruct (nonempty (extractLocationFromUrl hostname)).
Qed.

(** C7 (as the code has it).  With no API key, the enrichment of
    https://drsmith-dental.example.com returns the services
    ["Healthcare Services"], the treatments ["Consultation"], the company
    "Drsmith Dental Example Healthcare" derived from the host name, and the
    lead score 68: the base of 50, 5 for one service, 3 for one treatment, 5
    for the location and 5 for the specializations of the basic analysis. *)
Theorem enrichment_with_classifier_disabled (E : Env) :
  exa_disabled E = true ->
  URL_hostname E drsmith_url = Some "drsmith-dental.example.com" ->
  exists practiceData,
    scrapeHealthcarePractice E drsmith_url = Returned practiceData
    /\ practiceData !! "services" = Some (VArr ["Healthcare Services"])
    /\ practiceData !! "treatments" = Some (VArr ["Consultation"])
    /\ practiceData !! "company" = Some (VStr "Drsmith Dental Example Healthcare")
    /\ practiceData !! "lead_score" = Some (VNum 68).
Proof.
  intros Hoff Hurl.
  destruct (scrape_without_api_key E _ _ Hoff Hurl)
    as (practiceData & Hscrape & Hs & Ht & Hcompany & Hscore & _).
  exists practiceData. repeat split; assumption.
Qed.

Lemma enrichment_with_classifier_disabled_witness :
  exa_disabled (offline_env (1 # 10)) = true
  /\ URL_hostname (offline_env (1 # 10)) drsmith_url = Some "drsmith-dental.example.com"
  /\ exists practiceData,
       scrapeHealthcarePractice (offline_env (1 # 10)) drsmith_url = Returned practiceData
       /\ practiceData !! "services" = Some (VArr ["Healthcare Services"])
       /\ practiceData !! "treatments" = Some (VArr ["Consultation"])
       /\ practiceData !! "company" = Some (VStr "Drsmith Dental Example Healthcare")
       /\ practiceData !! "lead_score" = Some (VNum 68).
Proof.
  assert (H1 : exa_disabled (offline_env (1 # 10)) = true) by reflexivity.
  assert (H2 : URL_hostname (offline_env (1 # 10)) drsmith_url
               = Some "drsmith-dental.example.com") by reflexivity.
  split; [exact H1|]. split; [exact H2|].
  exact (enrichment_with_classifier_disabled _ H1 H2).
Defined.

(** C7 (as stated) fails: the score of the scenario is 68, above 60, and
    [exa_enhanced] is [true]. *)
Lemma scenario_as_specified_fails : ~ scenario_as_specified (offline_env (1 # 10)).
Proof.
  intros (practiceData & company & score & Hscrape & _ & _ & _ & _ & Hscore & Hrange & Hexa).
  destruct (scrape_without_api_key (offline_env (1 # 10)) drsmith_url
              "drsmith-dental.example.com" eq_refl eq_refl)
    as (practiceData' & Hscrape' & _ & _ & _ & Hscore' & Hexa').
  rewrite Hscrape in Hscrape'. injection Hscrape' as <-.
  rewrite Hscore in Hscore'. injection Hscore' as ->.
  change (nonempty (extractLocationFromUrl "drsmith-dental.example.com")) with true in Hrange.
  lia.
Qed.

(** ** Record validator *)

Section Validator.

Context (E : Env).
Implicit Types (s : string) (v : option value) (practiceData : obj).

Lemma neat_empty : neat "".
Proof. repeat split. cbn. lia. Qed.

Lemma sanitize_neat v : neat (sanitize v).
Proof.
  unfold sanitize. destruct (negb (truthy v)); [apply neat_empty|].
  repeat split.
  - apply str_forall_take. unfold trim.
    apply str_forall_trim_right, str_forall_trim_left, str_forall_filter.
  - apply str_take_starts_clean. unfold trim.
    apply trim_right_starts_clean, trim_left_starts_clean.
  - apply str_take_length.
Qed.

Lemma sanitize_of_neat s : neat s -> sanitize (Some (VStr s)) = trim_right s.
Proof.
  intros (Hp & Hs & Hl). destruct s as [|c s]; [reflexivity|].
  unfold sanitize. cbn [truthy String.eqb negb toString].
  rewrite str_map_newline_printable, str_filter_fixed by assumption.
  unfold trim. rewrite trim_left_fixed by assumption.
  apply str_take_all. pose proof (trim_right_length (String c s)). lia.
Qed.

(** A text field settles at the second application. *)
Lemma text_field_settles (default : string) v :
  neat default -> trim_right default = default ->
  let c1 := str_or (sanitize v) default in
  let c2 := str_or (sanitize (Some (VStr c1))) default in
  str_or (sanitize (Some (VStr c2))) default = c2.
Proof.
  intros Hd Hfix c1 c2.
  assert (H1 : neat c1).
  { subst c1. unfold str_or. destruct (nonempty _); [apply sanitize_neat|exact Hd]. }
  assert (H2 : c2 = str_or (trim_right c1) default).
  { subst c2. by rewrite sanitize_of_neat. }
  assert (H3 : neat (trim_right c1)).
  { rewrite <- sanitize_of_neat by exact H1. apply sanitize_neat. }
  rewrite H2. unfold str_or at 2 3.
  destruct (nonempty (trim_right c1)) eqn:Hn.
  - rewrite sanitize_of_neat, trim_right_idem by exact H3.
    by apply str_or_left.
  - rewrite sanitize_of_neat, Hfix by exact Hd.
    unfold str_or. by destruct (nonempty default).
Qed.

Lemma validatePhone_idem v phone :
  validatePhone v = Returned phone -> validatePhone (Some phone) = Returned phone.
Proof.
  unfold validatePhone at 1.
  destruct (negb (truthy v)); [by intros [= <-]|].
  destruct v as [[p| | |]|]; try discriminate.
  destruct (10 <=? String.length (str_filter is_phone_char p)) eqn:Hlen;
    intros [= <-]; [|reflexivity].
  assert (Ht : truthy (Some (VStr (str_filter is_phone_char p))) = true).
  { destruct (str_filter is_phone_char p); [discriminate Hlen|reflexivity]. }
  unfold validatePhone. rewrite Ht. cbn [negb].
  by rewrite str_filter_idem, Hlen.
Qed.

Lemma validateEmail_idem v :
  validateEmail (Some (validateEmail v)) = validateEmail v.
Proof.
  destruct v as [x|]; [|reflexivity].
  assert (Hcases : validateEmail (Some x) = x
                   /\ negb (truthy (Some x)) = false
                   /\ test emailRegex (toString (Some x)) = true
                   \/ validateEmail (Some x) = VStr "").
  { unfold validateEmail.
    destruct (negb (truthy (Some x))); [by right|].
    destruct (test emailRegex (toString (Some x))); [by left|by right]. }
  destruct Hcases as [(Hx & Ht & Hm)| ->]; [|reflexivity].
  by rewrite Hx.
Qed.

Lemma or_else_idem v (default : value) :
  or_else (Some (or_else v default)) default = or_else v default.
Proof.
  assert (Hd : or_else (Some default) default = default).
  { unfold or_else. by destruct (truthy (Some default)). }
  destruct v as [x|]; [|exact Hd].
  unfold or_else at 2 3. destruct (truthy (Some x)) eqn:Ht; [|exact Hd].
  unfold or_else. by rewrite Ht.
Qed.

Lemma clamp_score_range v : (0 <= clamp_score v <= 100)%Z.
Proof. unfold clamp_score. lia. Qed.

Lemma clamp_score_number (n : Z) :
  (0 <= n <= 100)%Z ->
  clamp_score (Some (VNum n)) = if (n =? 0)%Z then 50%Z else n.
Proof.
  intros Hn.
  assert (Hall :
    forallb
      (fun k => (clamp_score (Some (VNum (Z.of_nat k)))
                 =? (if (Z.of_nat k =? 0) then 50 else Z.of_nat k))%Z)
      (seq 0 101) = true) by (vm_compute; reflexivity).
  rewrite forallb_forall in Hall.
  specialize (Hall (Z.to_nat n)). rewrite Z2Nat.id in Hall by lia.
  apply Z.eqb_eq, Hall, in_seq. lia.
Qed.

Lemma clamp_score_settles v :
  let n1 := clamp_score v in
  let n2 := clamp_score (Some (VNum n1)) in
  clamp_score (Some (VNum n2)) = n2.
Proof.
  intros n1 n2. pose proof (clamp_score_range v) as H1.
  assert (H2 : n2 = if (n1 =? 0)%Z then 50%Z else n1)
    by (subst n2; by apply clamp_score_number).
  rewrite H2. destruct (n1 =? 0)%Z eqn:H0; [reflexivity|].
  apply Z.eqb_neq in H0. rewrite clamp_score_number by exact H1.
  by apply Z.eqb_neq in H0 as ->.
Qed.

(** The validator on a lead record: it returns, and what it returns is the
    literal of the source. *)
Lemma validateNotionData_lead practiceData :
  is_lead_record practiceData ->
  exists phone website,
    validatePhone (practiceData !! "phone") = Returned phone
    /\ validateNotionData E practiceData =
       Returned
         (validatedRecord E
            (str_or (sanitize (practiceData !! "company")) "Healthcare Practice")
            phone
            (validateEmail (practiceData !! "email"))
            (str_or (sanitize (practiceData !! "location")) "Healthcare Location")
            website
            (sanitize (practiceData !! "practiceId"))
            (str_or (sanitize (practiceData !! "practice_type")) "healthcare")
            (joined_list (practiceData !! "services") 1000 "Healthcare Services")
            (joined_list (practiceData !! "treatments") 1000 "Consultation")
            (joined_list (practiceData !! "specializations") 500 "General Healthcare")
            (clamp_score (practiceData !! "lead_score"))
            (or_else (practiceData !! "exa_enhanced") (VBool false))
            (str_or (sanitize (practiceData !! "domain")) "")
            (or_else (practiceData !! "scraped_at") (VStr (Date_toISOString E)))).
Proof.
  intros [Hphone Hurl]. unfold validateNotionData.
  assert (Hp : exists phone, validatePhone (practiceData !! "phone") = Returned phone).
  { unfold validatePhone. destruct (practiceData !! "phone") as [[p| | |]|];
      try contradiction; [|cbn; eauto]. destruct (negb _); eauto. }
  assert (Hw : exists website, validateUrl E (practiceData !! "url") = Returned website).
  { unfold validateUrl. destruct (practiceData !! "url") as [[u| | |]|];
      try contradiction; [|eauto].
    destruct (negb _); [eauto|]. destruct (URL_hostname E _); eauto. }
  destruct Hp as [phone Hp], Hw as [website Hw].
  exists phone, website. split; [exact Hp|]. by rewrite Hp, Hw.
Qed.

(** The validator on a record it returned: [url], [practiceId] and the
    list fields are not found under the names and types it reads. *)
Lemma validateNotionData_validatedRecord
    (company : string) (phone email : value) (location : string) (website : value)
    (practice_id practice_type services treatments specializations : string)
    (lead_score : Z) (exa_enhanced : value) (domain : string) (scraped_at : value) :
  validatePhone (Some phone) = Returned phone ->
  validateNotionData E
    (validatedRecord E company phone email location website practice_id practice_type
       services treatments specializations lead_score exa_enhanced domain scraped_at)
  = Returned
      (validatedRecord E
         (str_or (sanitize (Some (VStr company))) "Healthcare Practice")
         phone
         (validateEmail (Some email))
         (str_or (sanitize (Some (VStr location))) "Healthcare Location")
         (VStr "")
         ""
         (str_or (sanitize (Some (VStr practice_type))) "healthcare")
         "Healthcare Services" "Consultation" "General Healthcare"
         (clamp_score (Some (VNum lead_score)))
         (or_else (Some exa_enhanced) (VBool false))
         (str_or (sanitize (Some (VStr domain))) "")
         (or_else (Some scraped_at) (VStr (Date_toISOString E)))).
Proof.
  intros Hphone. unfold validateNotionData.
  set (o := validatedRecord _ _ _ _ _ _ _ _ _ _ _ _ _ _ _).
  assert (o !! "company" = Some (VStr company)) as -> by (vm_compute; reflexivity).
  assert (o !! "phone" = Some phone) as -> by (vm_compute; reflexivity).
  assert (o !! "email" = Some email) as -> by (vm_compute; reflexivity).
  assert (o !! "location" = Some (VStr location)) as -> by (vm_compute; reflexivity).
  assert (o !! "url" = None) as -> by (vm_compute; reflexivity).
  assert (o !! "practiceId" = None) as -> by (vm_compute; reflexivity).
  assert (o !! "practice_type" = Some (VStr practice_type)) as ->
    by (vm_compute; reflexivity).
  assert (o !! "services" = Some (VStr services)) as -> by (vm_compute; reflexivity).
  assert (o !! "treatments" = Some (VStr treatments)) as -> by (vm_compute; reflexivity).
  assert (o !! "specializations" = Some (VStr specializations)) as ->
    by (vm_compute; reflexivity).
  assert (o !! "lead_score" = Some (VNum lead_score)) as -> by (vm_compute; reflexivity).
  assert (o !! "exa_enhanced" = Some exa_enhanced) as -> by (vm_compute; reflexivity).
  assert (o !! "domain" = Some (VStr domain)) as -> by (vm_compute; reflexivity).
  assert (o !! "scraped_at" = Some scraped_at) as -> by (vm_compute; reflexivity).
  rewrite Hphone. reflexivity.
Qed.

Lemma neat_literal s :
  str_forall is_printable s && starts_clean s && (String.length s <=? 2000) = true ->
  neat s.
Proof.
  intros [[H1 H2]%andb_true_iff H3%Nat.leb_le]%andb_true_iff. by repeat split.
Qed.

End Validator.

(** Outside the lead records the validator can throw: a phone that is a
    number has no [replace]. *)
Example validateNotionData_number_phone :
  validateNotionData (offline_env (1 # 10)) (<["phone" := VNum 5551234567]> sample_lead)
  = Thrown "phone.replace is not a function".
Proof. vm_compute. reflexivity. Qed.

(** C6 (as the code has it).  On a lead record the validator returns a
    record; applied to that record it returns a second one in which
    [website] and [practice_id] are empty and the three list fields are their
    defaults; and the second record is a fixed point of the validator. *)
Theorem validateNotionData_settles (E : Env) (practiceData : obj) :
  is_lead_record practiceData ->
  exists first second,
    validateNotionData E practiceData = Returned first
    /\ validateNotionData E first = Returned second
    /\ validateNotionData E second = Returned second
    /\ second !! "website" = Some (VStr "")
    /\ second !! "practice_id" = Some (VStr "")
    /\ second !! "services" = Some (VStr "Healthcare Services")
    /\ second !! "treatments" = Some (VStr "Consultation")
    /\ second !! "specializations" = Some (VStr "General Healthcare").
Proof.
  intros Hlead.
  destruct (validateNotionData_lead E practiceData Hlead) as (phone & website & Hp & H1).
  apply validatePhone_idem in Hp.
  eexists _, _. split; [exact H1|].
  split; [by apply validateNotionData_validatedRecord|].
  split; [|repeat split; vm_compute; reflexivity].
  rewrite validateNotionData_validatedRecord by exact Hp.
  f_equal.
  rewrite !validateEmail_idem, !or_else_idem.
  rewrite (text_field_settles "Healthcare Practice"),
    (text_field_settles "Healthcare Location"), (text_field_settles "healthcare"),
    (text_field_settles ""), clamp_score_settles;
    first [reflexivity | by apply neat_literal].
Qed.

Lemma validateNotionData_settles_witness :
  is_lead_record sample_lead
  /\ exists first second,
       validateNotionData (offline_env (1 # 10)) sample_lead = Returned first
       /\ validateNotionData (offline_env (1 # 10)) first = Returned second
       /\ validateNotionData (offline_env (1 # 10)) second = Returned second.
Proof.
  assert (H : is_lead_record sample_lead) by (split; exact I).
  split; [exact H|].
  destruct (validateNotionData_settles (offline_env (1 # 10)) sample_lead H)
    as (first & second & H1 & H2 & H3 & _).
  exists first, second. split; [exact H1|]. split; [exact H2|exact H3].
Defined.

(** C6 (as stated) fails: the validator is not idempotent.  On the sample
    lead the first application keeps the website, the second empties it. *)
Lemma validateNotionData_not_idempotent :
  validate_twice (offline_env (1 # 10)) sample_lead
  <> validateNotionData (offline_env (1 # 10)) sample_lead.
Proof.
  intros H.
  apply (f_equal (fun o => match o with
                           | Returned record => record !! "website"
                           | Thrown _ => None
                           end)) in H.
  vm_compute in H. discriminate H.
Qed.

(** ** Persistence adapter *)

Section Persistence.

Context (E : Env).
Implicit Types (practiceData validatedData : obj).

Lemma validateNotionData_inv practiceData validatedData :
  validateNotionData E practiceData = Returned validatedData ->
  exists phone website,
    validatePhone (practiceData !! "phone") = Returned phone
    /\ validateUrl E (practiceData !! "url") = Returned website
    /\ validatedData !! "company"
       = Some (VStr (str_or (sanitize (practiceData !! "company")) "Healthcare Practice"))
    /\ validatedData !! "phone" = Some phone
    /\ validatedData !! "email" = Some (validateEmail (practiceData !! "email"))
    /\ validatedData !! "location"
       = Some (VStr (str_or (sanitize (practiceData !! "location")) "Healthcare Location"))
    /\ validatedData !! "website" = Some website
    /\ validatedData !! "practice_id" = Some (VStr (sanitize (practiceData !! "practiceId")))
    /\ validatedData !! "services"
       = Some (VStr (joined_list (practiceData !! "services") 1000 "Healthcare Services")).
Proof.
  unfold validateNotionData. intros H.
  destruct (validatePhone _) as [phone|]; cbn [bind] in H; [|discriminate].
  destruct (validateUrl _ _) as [website|]; cbn [bind] in H; [|discriminate].
  injection H as <-. exists phone, website.
  repeat split; obj_lookup.
Qed.

(** The validated record is keyed by the store's field names: it has no
    [url], [practiceId] or [doctor], and its [services] is a string. *)
Lemma validateNotionData_keys practiceData validatedData :
  validateNotionData E practiceData = Returned validatedData ->
  validatedData !! "url" = None
  /\ validatedData !! "practiceId" = None
  /\ validatedData !! "doctor" = None.
Proof.
  unfold validateNotionData. intros H.
  destruct (validatePhone _) as [phone|]; cbn [bind] in H; [|discriminate].
  destruct (validateUrl _ _) as [website|]; cbn [bind] in H; [|discriminate].
  injection H as <-. repeat split; obj_lookup.
Qed.

Lemma attemptNotionStorage_returns validatedData :
  exists r, attemptNotionStorage E validatedData = Returned r.
Proof.
  unfold attemptNotionStorage, mockNotionCall.
  destruct (negb _); cbn [try_catch]; eauto.
Qed.

Lemma attemptNotionStorage_fails validatedData :
  store_call_fails E ->
  exists r, attemptNotionStorage E validatedData = Returned r /\ nr_success r = false.
Proof.
  unfold store_call_fails, attemptNotionStorage, mockNotionCall. intros ->.
  cbn [negb try_catch]. eauto.
Qed.

(** The adapter never throws, and the record it returns carries an id. *)
Lemma storeLeadInNotion_returns practiceData :
  exists r,
    storeLeadInNotion E practiceData = Returned r
    /\ nr_success r = true
    /\ nonempty (nr_leadId r) = true.
Proof.
  unfold storeLeadInNotion.
  destruct (validateNotionData E practiceData) as [validatedData|];
    cbn [bind try_catch]; [|eexists; repeat split].
  unfold attemptNotionStorage, mockNotionCall.
  destruct (negb _); cbn [bind try_catch nr_success]; eexists; repeat split.
Qed.

(** A failing store call degrades to a fallback record. *)
Lemma storeLeadInNotion_fallback practiceData r :
  store_call_fails E ->
  storeLeadInNotion E practiceData = Returned r ->
  nr_is_fallback r = true.
Proof.
  unfold storeLeadInNotion. intros Hfail.
  destruct (validateNotionData E practiceData) as [validatedData|];
    cbn [bind try_catch].
  - destruct (attemptNotionStorage_fails validatedData Hfail) as (r' & -> & Hr').
    cbn [bind]. rewrite Hr'. cbn [try_catch]. by intros [= <-].
  - by intros [= <-].
Qed.

(** Called on the practice data, as in the [catch] branch, the fallback
    builder keeps the URL, the practice id and the services. *)
Lemma createFallbackNotionRecord_keeps practiceData url practiceId items :
  practiceData !! "url" = Some url -> truthy (Some url) = true ->
  practiceData !! "practiceId" = Some practiceId -> truthy (Some practiceId) = true ->
  practiceData !! "services" = Some (VArr items) ->
  exists record,
    nr_record (createFallbackNotionRecord E practiceData) = Some record
    /\ record !! "website" = Some url
    /\ record !! "practice_id" = Some practiceId
    /\ record !! "services" = Some (VStr (join ", " items)).
Proof.
  intros Hu Htu Hp Htp Hs. unfold createFallbackNotionRecord. cbn [nr_record].
  rewrite Hu, Hp, Hs. unfold or_else. rewrite Htu, Htp.
  eexists; split; [reflexivity|]. repeat split; obj_lookup.
Qed.

(** Called on the validated record, as after a failed store call, it finds
    none of the three and falls back to the defaults. *)
Lemma storeLeadInNotion_after_failure practiceData validatedData :
  validateNotionData E practiceData = Returned validatedData ->
  store_call_fails E ->
  stored_field (storeLeadInNotion E practiceData) "website" = Some (VStr "")
  /\ stored_field (storeLeadInNotion E practiceData) "practice_id"
     = Some (VStr ("practice_" +:+ Z_toString (Date_now E)))
  /\ stored_field (storeLeadInNotion E practiceData) "services"
     = Some (VStr "Healthcare Services").
Proof.
  intros Hv Hfail. unfold storeLeadInNotion. rewrite Hv. cbn [bind].
  destruct (attemptNotionStorage_fails validatedData Hfail) as (r' & -> & Hr').
  cbn [bind]. rewrite Hr'. cbn [try_catch stored_field].
  unfold createFallbackNotionRecord. cbn [nr_record].
  destruct (validateNotionData_keys _ _ Hv) as (-> & -> & _).
  destruct (validateNotionData_inv _ _ Hv) as (? & ? & _ & _ & _ & _ & _ & _ & _ & _ & ->).
  cbn [or_else]. repeat split; obj_lookup.
Qed.

End Persistence.

(** C3 (the code departs from it).  With a store call that fails, the
    adapter returns a fallback record with an id, but the URL, the practice id
    and the services of the lead are not in it: the fallback builder is handed
    the validated record, which has them under other names. *)
Theorem storeLeadInNotion_drops_payload :
  store_call_fails (offline_env (1 # 10))
  /\ sample_lead !! "url" = Some (VStr "https://acme-dental.nl")
  /\ sample_lead !! "practiceId" = Some (VStr "acme-dental-healthcare-120000")
  /\ sample_lead !! "services" = Some (VArr ["Implants"; "Whitening"])
  /\ failed (storeLeadInNotion (offline_env (1 # 10)) sample_lead) = false
  /\ stored_field (storeLeadInNotion (offline_env (1 # 10)) sample_lead) "website"
     = Some (VStr "")
  /\ stored_field (storeLeadInNotion (offline_env (1 # 10)) sample_lead) "practice_id"
     = Some (VStr "practice_1730000123456")
  /\ stored_field (storeLeadInNotion (offline_env (1 # 10)) sample_lead) "services"
     = Some (VStr "Healthcare Services")
  /\ stored_field (Returned (createFallbackNotionRecord (offline_env (1 # 10)) sample_lead))
       "website" = Some (VStr "https://acme-dental.nl")
  /\ stored_field (Returned (createFallbackNotionRecord (offline_env (1 # 10)) sample_lead))
       "practice_id" = Some (VStr "acme-dental-healthcare-120000")
  /\ stored_field (Returned (createFallbackNotionRecord (offline_env (1 # 10)) sample_lead))
       "services" = Some (VStr "Implants, Whitening").
Proof. repeat split; vm_compute; reflexivity. Qed.

(** ** Strategy cascade *)

Section Cascade.

Context (E : Env).
Implicit Types (practiceData : obj).

Lemma run_strategy_full practiceData :
  run_strategy E (mkStrategy "full-github-railway" 1) practiceData
  = Some (attemptFullGithubRailwayDeployment E practiceData).
Proof. reflexivity. Qed.

Lemma run_strategy_existing practiceData :
  run_strategy E (mkStrategy "existing-repo-railway" 2) practiceData
  = Some (attemptExistingRepoDeployment E practiceData).
Proof. reflexivity. Qed.

Lemma run_strategy_direct practiceData :
  run_strategy E (mkStrategy "direct-railway-mcp" 3) practiceData
  = Some (attemptDirectRailwayMCP E practiceData).
Proof. reflexivity. Qed.

Lemma run_strategy_mock practiceData :
  run_strategy E (mkStrategy "emergency-mock" 4) practiceData
  = Some (Returned (createEmergencyMockDeployment E practiceData)).
Proof. reflexivity. Qed.

(** The cascade, one strategy after the other. *)
Lemma createPersonalizedRepository_unfold practiceData :
  createPersonalizedRepository E practiceData =
    match attemptFullGithubRailwayDeployment E practiceData with
    | Returned r => Returned (Some r)
    | Thrown _ =>
        match attemptExistingRepoDeployment E practiceData with
        | Returned r => Returned (Some r)
        | Thrown _ =>
            match attemptDirectRailwayMCP E practiceData with
            | Returned r => Returned (Some r)
            | Thrown _ => Returned (Some (createEmergencyMockDeployment E practiceData))
            end
        end
    end.
Proof.
  unfold createPersonalizedRepository, deploymentStrategies.
  cbn [cascade]. rewrite run_strategy_full.
  destruct (attemptFullGithubRailwayDeployment E practiceData); [reflexivity|].
  cbn [strategy_priority Nat.eqb]. rewrite run_strategy_existing.
  destruct (attemptExistingRepoDeployment E practiceData); [reflexivity|].
  cbn [strategy_priority Nat.eqb]. rewrite run_strategy_direct.
  destruct (attemptDirectRailwayMCP E practiceData); [reflexivity|].
  cbn [strategy_priority Nat.eqb]. rewrite run_strategy_mock. reflexivity.
Qed.

(** Every intermediate strategy that returns, returns a success. *)
Lemma createPersonalizedRepository_success practiceData :
  exists result,
    createPersonalizedRepository E practiceData = Returned (Some result)
    /\ pr_success result = true.
Proof.
  rewrite createPersonalizedRepository_unfold.
  unfold attemptFullGithubRailwayDeployment, attemptExistingRepoDeployment,
    attemptDirectRailwayMCP.
  destruct (gh_success (createGitHubRepository E practiceData _)); cbn [negb];
    repeat match goal with
           | |- context [deployToRailwayViaMCP E ?p ?r] =>
               destruct (deployToRailwayViaMCP E p r); cbn [bind try_catch]
           | |- context [createDirectRailwayService E ?p] =>
               destruct (createDirectRailwayService E p); cbn [bind try_catch]
           end;
    eexists; split; reflexivity.
Qed.

End Cascade.

(** C2. The cascade always returns a result and never throws; when the
    strategies full-github-railway, existing-repo-railway and
    direct-railway-mcp all fail, the result is the one of the fourth strategy,
    the emergency mock, whose [success] is [true]. *)
Theorem cascade_falls_back_to_emergency_mock (E : Env) (practiceData : obj) :
  (exists result, createPersonalizedRepository E practiceData = Returned (Some result))
  /\ (failed (attemptFullGithubRailwayDeployment E practiceData) = true ->
      failed (attemptExistingRepoDeployment E practiceData) = true ->
      failed (attemptDirectRailwayMCP E practiceData) = true ->
      createPersonalizedRepository E practiceData
        = Returned (Some (createEmergencyMockDeployment E practiceData))
      /\ pr_success (createEmergencyMockDeployment E practiceData) = true
      /\ pr_method (createEmergencyMockDeployment E practiceData) = "emergency-mock").
Proof.
  split.
  - destruct (createPersonalizedRepository_success E practiceData) as (r & Hr & _).
    by exists r.
  - intros H1 H2 H3. rewrite createPersonalizedRepository_unfold.
    destruct (attemptFullGithubRailwayDeployment E practiceData); [discriminate|].
    destruct (attemptExistingRepoDeployment E practiceData); [discriminate|].
    destruct (attemptDirectRailwayMCP E practiceData); [discriminate|].
    repeat split.
Qed.

Lemma cascade_falls_back_to_emergency_mock_witness :
  failed (attemptFullGithubRailwayDeployment (offline_env (1 # 10)) sample_lead) = true
  /\ failed (attemptExistingRepoDeployment (offline_env (1 # 10)) sample_lead) = true
  /\ failed (attemptDirectRailwayMCP (offline_env (1 # 10)) sample_lead) = true
  /\ createPersonalizedRepository (offline_env (1 # 10)) sample_lead
       = Returned (Some (createEmergencyMockDeployment (offline_env (1 # 10)) sample_lead)).
Proof.
  assert (H1 : failed (attemptFullGithubRailwayDeployment (offline_env (1 # 10)) sample_lead)
               = true) by reflexivity.
  assert (H2 : failed (attemptExistingRepoDeployment (offline_env (1 # 10)) sample_lead)
               = true) by reflexivity.
  assert (H3 : failed (attemptDirectRailwayMCP (offline_env (1 # 10)) sample_lead)
               = true) by reflexivity.
  split; [exact H1|]. split; [exact H2|]. split; [exact H3|].
  exact (proj1 (proj2 (cascade_falls_back_to_emergency_mock
                         (offline_env (1 # 10)) sample_lead) H1 H2 H3)).
Defined.

(** ** Phase orchestrator *)

Section Orchestrator.

Context (E : Env).
Implicit Types (url : string) (practiceData : obj) (r : WorkflowResult).

(** The status as a function of the three [success] flags. *)
Lemma status_of_flags (a b c : bool) :
  let n := count_successful [a; b; c] in
  (status_of n 3 = "complete" <-> a = true /\ b = true /\ c = true)
  /\ (status_of n 3 = "partial-success" <-> 0 < n < 3)
  /\ (status_of n 3 = "failed" <-> n = 0).
Proof.
  destruct a, b, c; vm_compute; repeat split; intros; try discriminate; try lia;
    repeat match goal with H : _ /\ _ |- _ => destruct H end; try discriminate; lia.
Qed.

(** An orchestrator-level fallback is recorded with [success = false]. *)
Lemma phase_scraping_flags url practiceData step :
  phase_scraping E url = Returned (practiceData, step) ->
  step_fallback_used step = negb (step_success step).
Proof.
  unfold phase_scraping.
  destruct (let* _ := scrapeHealthcarePractice E url in _) as [pd|message].
  - by intros [= _ <-].
  - destruct (createMinimalFallbackData E url); cbn [bind]; [|discriminate].
    by intros [= _ <-].
Qed.

Lemma phase_notion_flags practiceData :
  step_fallback_used (snd (phase_notion E practiceData))
  = negb (step_success (snd (phase_notion E practiceData))).
Proof. unfold phase_notion. by destruct (storeLeadInNotion E practiceData). Qed.

Lemma phase_deployment_flags practiceData :
  step_fallback_used (snd (phase_deployment E practiceData)) = true ->
  step_success (snd (phase_deployment E practiceData)) = false.
Proof.
  unfold phase_deployment.
  by destruct (let* _ := createPersonalizedRepository E practiceData in _).
Qed.

(** The result of a run, read off the three phases. *)
Lemma processHealthcarePractice_inv url r :
  processHealthcarePractice E url = Returned r ->
  exists practiceData scraping,
    phase_scraping E url = Returned (practiceData, scraping)
    /\ step_scraping r = scraping
    /\ step_notion r = snd (phase_notion E practiceData)
    /\ step_deployment r = snd (phase_deployment E practiceData)
    /\ successful_steps r
       = count_successful
           [step_success (step_scraping r); step_success (step_notion r);
            step_success (step_deployment r)]
    /\ workflow_status r = status_of (successful_steps r) 3
    /\ fallbacks_used r
       = (if step_fallback_used (step_scraping r) then ["scraping"] else [])
         ++ (if step_fallback_used (step_notion r) then ["notion-emergency"] else [])
         ++ (if step_fallback_used (step_deployment r) then ["deployment"] else []).
Proof.
  unfold processHealthcarePractice.
  destruct (phase_scraping E url) as [[practiceData scraping]|]; cbn [bind];
    [|discriminate].
  destruct (phase_notion E practiceData) as [notionResult notion] eqn:Hn.
  destruct (phase_deployment E practiceData) as [deploymentResult deployment] eqn:Hd.
  intros [= <-]. exists practiceData, scraping. rewrite Hn, Hd. by repeat split.
Qed.

(** A run that returns had a URL that parses, so its three phases all
    report success: the enrichment falls back inside the adapter, the store
    failure becomes a fallback record, the cascade ends in the mock. *)
Lemma phase_scraping_returns url practiceData step :
  phase_scraping E url = Returned (practiceData, step) -> step_success step = true.
Proof.
  unfold phase_scraping. destruct (URL_hostname E url) as [hostname|] eqn:Hurl.
  - destruct (scrapeHealthcarePractice_valid E url hostname Hurl)
      as (_ & pd & _ & -> & Hcompany & _).
    cbn [bind]. rewrite Hcompany. cbn [truthy].
    pose proof (extractCompanyFromUrl_nonempty hostname) as Hne.
    unfold nonempty in Hne. rewrite Hne. cbn [negb]. by intros [= _ <-].
  - unfold scrapeHealthcarePractice, createMinimalFallbackData, new_URL_hostname.
    rewrite Hurl. cbn [bind try_catch]. discriminate.
Qed.

Lemma phase_notion_succeeds practiceData :
  step_success (snd (phase_notion E practiceData)) = true.
Proof.
  unfold phase_notion.
  by destruct (storeLeadInNotion_returns E practiceData) as (r & -> & _).
Qed.

Lemma phase_deployment_succeeds practiceData :
  step_success (snd (phase_deployment E practiceData)) = true.
Proof.
  unfold phase_deployment.
  by destruct (createPersonalizedRepository_success E practiceData) as (r & -> & Hr).
Qed.

Lemma processHealthcarePractice_complete url r :
  processHealthcarePractice E url = Returned r -> workflow_status r = "complete".
Proof.
  intros (practiceData & scraping & Hs & H0 & H1 & H2 & Hn & Hstatus & _)
    %processHealthcarePractice_inv.
  rewrite Hstatus, Hn, H0, H1, H2.
  by rewrite (phase_scraping_returns _ _ _ Hs), phase_notion_succeeds,
    phase_deployment_succeeds.
Qed.

Lemma processHealthcarePractice_valid url hostname :
  URL_hostname E url = Some hostname ->
  exists r, processHealthcarePractice E url = Returned r.
Proof.
  intros Hurl. unfold processHealthcarePractice, phase_scraping.
  destruct (scrapeHealthcarePractice_valid E url hostname Hurl)
    as (_ & pd & _ & -> & Hcompany & _).
  cbn [bind]. rewrite Hcompany. cbn [truthy].
  pose proof (extractCompanyFromUrl_nonempty hostname) as Hne.
  unfold nonempty in Hne. rewrite Hne. cbn [negb bind].
  destruct (phase_notion E pd), (phase_deployment E pd). by eexists.
Qed.

End Orchestrator.

(** C1 (as the code has it).  The overall status of a run that returns is
    ['complete'] exactly when the three step results have [success = true],
    ['partial-success'] exactly when some but not all have, and ['failed']
    exactly when none has.  A ['complete'] run used no fallback of the
    orchestrator; the fallback record of the persistence adapter and the
    emergency mock count as successes. *)
Theorem workflow_status_counts_successes (E : Env) (url : string) (r : WorkflowResult) :
  processHealthcarePractice E url = Returned r ->
  (workflow_status r = "complete" <->
     step_success (step_scraping r) = true
     /\ step_success (step_notion r) = true
     /\ step_success (step_deployment r) = true)
  /\ (workflow_status r = "partial-success" <-> 0 < successful_steps r < 3)
  /\ (workflow_status r = "failed" <-> successful_steps r = 0)
  /\ successful_steps r
     = count_successful
         [step_success (step_scraping r); step_success (step_notion r);
          step_success (step_deployment r)]
  /\ (workflow_status r = "complete" -> fallbacks_used r = []).
Proof.
  intros Hrun.
  destruct (processHealthcarePractice_inv E url r Hrun)
    as (practiceData & scraping & Hs & H0 & H1 & H2 & Hn & Hstatus & Hfb).
  pose proof (status_of_flags (step_success (step_scraping r))
                (step_success (step_notion r)) (step_success (step_deployment r)))
    as (Hc & Hp & Hf).
  cbv zeta in Hc, Hp, Hf. rewrite <- Hn, <- Hstatus in Hc, Hp, Hf.
  split; [exact Hc|]. split; [exact Hp|]. split; [exact Hf|]. split; [exact Hn|].
  intros (Ha & Hb & Hd)%Hc. rewrite Hfb.
  pose proof (phase_scraping_flags E url practiceData scraping Hs) as F0.
  pose proof (phase_notion_flags E practiceData) as F1.
  pose proof (phase_deployment_flags E practiceData) as F2.
  rewrite <- H0 in F0. rewrite <- H1 in F1. rewrite <- H2 in F2.
  rewrite F0, F1, Ha, Hb. cbn [negb app].
  destruct (step_fallback_used (step_deployment r)); [|reflexivity].
  specialize (F2 eq_refl). congruence.
Qed.

Lemma workflow_status_counts_successes_witness :
  exists r,
    processHealthcarePractice (offline_env (1 # 10)) drsmith_url = Returned r
    /\ (workflow_status r = "complete" <->
          step_success (step_scraping r) = true
          /\ step_success (step_notion r) = true
          /\ step_success (step_deployment r) = true).
Proof.
  destruct (processHealthcarePractice (offline_env (1 # 10)) drsmith_url)
    as [r|message] eqn:Hrun.
  - exists r. split; [reflexivity|].
    exact (proj1 (workflow_status_counts_successes _ _ _ Hrun)).
  - vm_compute in Hrun. discriminate Hrun.
Defined.

(** C1 (as stated) fails: with the store call failing and Railway out of
    reach the run is ['complete'], though the persistence phase returned its
    fallback record and the deployment is the emergency mock. *)
Lemma complete_despite_fallback : ~ status_as_specified (offline_env (1 # 10)) drsmith_url.
Proof.
  intros Hspec.
  destruct (processHealthcarePractice_valid (offline_env (1 # 10)) drsmith_url
              "drsmith-dental.example.com" eq_refl) as [r Hr].
  pose proof (processHealthcarePractice_complete _ _ _ Hr) as Hcomplete.
  apply (Hspec r Hr) in Hcomplete as (_ & _ & _ & _ & _ & _ & Hclean).
  assert (Hfallback :
    match processHealthcarePractice (offline_env (1 # 10)) drsmith_url with
    | Returned r' => notion_is_fallback r' = true /\ deployment_method r' = "emergency-mock"
    | Thrown _ => False
    end) by (vm_compute; split; reflexivity).
  rewrite Hr in Hfallback. destruct Hfallback as [Hfallback _]. congruence.
Qed.

(** ** Batch coordinator *)

Section BatchProperties.

Context {R : Type} (process : nat -> string -> outcome R).
Implicit Types (urls : list string) (i : nat).

Lemma item_url_batch_item i index url : item_url (batch_item process i index url) = url.
Proof. unfold batch_item. by destruct (process _ url). Qed.

Lemma item_urls_of_window i (batch : list string) :
  map item_url (imap (batch_item process i) batch) = batch.
Proof.
  generalize (batch_item process i) (item_url_batch_item i).
  induction batch as [|url batch IH]; intros f Hf; cbn; [reflexivity|].
  rewrite Hf. f_equal. apply IH. intros index url'. apply Hf.
Qed.

(** The loop appends the remaining URLs window by window. *)
Lemma batch_loop_urls urls i results log :
  map item_url (fst (batch_loop process urls i (results, log)))
  = map item_url results ++ drop i urls.
Proof.
  remember (length urls - i) as fuel eqn:Hfuel.
  revert i results log Hfuel.
  induction fuel as [fuel IH] using lt_wf_ind; intros i results log Hfuel.
  simp batch_loop. destruct (lt_dec i (length urls)) as [Hlt|Hge]; cbn.
  - subst fuel.
    rewrite (IH (length urls - (i + concurrencyLimit))
               ltac:(unfold concurrencyLimit; lia) _ _ _ eq_refl).
    rewrite map_app, item_urls_of_window, <- app_assoc. f_equal.
    unfold slice, concurrencyLimit.
    replace (i + 3 - i) with 3 by lia.
    rewrite <- (take_drop 3 (drop i urls)) at 2. by rewrite drop_drop.
  - rewrite drop_ge by lia. by rewrite app_nil_r.
Qed.

Lemma run_batch_urls urls : map item_url (fst (run_batch process urls)) = urls.
Proof. unfold run_batch. by rewrite batch_loop_urls. Qed.

End BatchProperties.

Lemma processBatchHealthcarePractices_urls (envs : nat -> Env) (urls : list string) :
  map item_url (processBatchHealthcarePractices envs urls) = urls.
Proof. apply run_batch_urls. Qed.

Lemma processBatchSimplified_urls (envs : nat -> Env) (urls : list string) :
  map item_url (processBatchSimplified envs urls) = urls.
Proof. apply run_batch_urls. Qed.

(** The three-step workflow reports a URL that does not parse in its result;
    for one that parses it succeeds. *)
Lemma simplified_workflow_valid (E : Env) (url hostname : string) :
  URL_hostname E url = Some hostname ->
  Simplified.success (Simplified.processHealthcarePractice E url) = true.
Proof.
  intros Hurl. unfold Simplified.processHealthcarePractice.
  destruct (scrapeHealthcarePractice_valid E url hostname Hurl)
    as (_ & pd & _ & -> & Hcompany & _).
  rewrite Hcompany. cbn [truthy].
  pose proof (extractCompanyFromUrl_nonempty hostname) as Hne.
  unfold nonempty in Hne. rewrite Hne. cbn [negb].
  by destruct (storeLeadInNotion_returns E pd) as (r & -> & _).
Qed.

(** C9. For seven targets the coordinator runs three windows, of three,
    three and one workflows; a window is launched only after the one before
    has settled (and after the pause); the results are one per input, in the
    order of the input. *)
Theorem batch_of_seven {R : Type} (process : nat -> string -> outcome R)
    (u1 u2 u3 u4 u5 u6 u7 : string) :
  run_batch process [u1; u2; u3; u4; u5; u6; u7]
  = ([ batch_item process 0 0 u1; batch_item process 0 1 u2; batch_item process 0 2 u3;
       batch_item process 3 0 u4; batch_item process 3 1 u5; batch_item process 3 2 u6;
       batch_item process 6 0 u7 ],
     [ Launched 0 [u1; u2; u3]; AllSettled 0 3; Paused 2000;
       Launched 3 [u4; u5; u6]; AllSettled 3 3; Paused 2000;
       Launched 6 [u7]; AllSettled 6 1 ])
  /\ map item_url (fst (run_batch process [u1; u2; u3; u4; u5; u6; u7]))
     = [u1; u2; u3; u4; u5; u6; u7].
Proof.
  split; [|apply run_batch_urls].
  unfold run_batch. do 4 (simp batch_loop; cbn). reflexivity.
Qed.


(* ===================================================================== *)
(** * Part III. Further properties of the agent                           *)
(* ===================================================================== *)

(** ** Provisioning *)

Section Provisioning.

Context (E : Env).
Implicit Types (practiceData : obj).

Lemma deployToRailwayViaMCP_thrown practiceData repoName message :
  deployToRailwayViaMCP E practiceData repoName = Thrown message ->
  exists cause, message = "Railway MCP deployment failed: " +:+ cause.
Proof.
  unfold deployToRailwayViaMCP.
  destruct (let* _ := railway_createProject E _ in _) as [d|cause];
    cbn [try_catch]; [discriminate|].
  intros [= <-]. by exists cause.
Qed.

Lemma deployToRailwayViaMCP_returned practiceData repoName d :
  deployToRailwayViaMCP E practiceData repoName = Returned d ->
  nonempty (rd_domain_url d) = true.
Proof.
  unfold deployToRailwayViaMCP.
  destruct (railway_createProject E _) as [project|]; cbn [bind try_catch];
    [|discriminate].
  destruct (rp_success project); cbn [negb try_catch]; [|discriminate].
  destruct (railway_createServiceFromRepo E _ _) as [service|]; cbn [bind try_catch];
    [|discriminate].
  destruct (rs_success service); cbn [negb try_catch]; [|discriminate].
  destruct (railway_setEnvironmentVariables E _ _ _); cbn [bind try_catch];
    [|discriminate].
  destruct (railway_createDomain E _ _) as [[domain_url|]|]; cbn [bind try_catch];
    [| |discriminate]; intros [= <-]; cbn [rd_domain_url]; [|reflexivity].
  unfold str_or. destruct (nonempty domain_url) eqn:Hd; [exact Hd|reflexivity].
Qed.

Lemma attemptFullGithubRailwayDeployment_returned practiceData r :
  attemptFullGithubRailwayDeployment E practiceData = Returned r ->
  pr_success r = true /\ pr_method r = "full-github-railway".
Proof.
  unfold attemptFullGithubRailwayDeployment.
  destruct (negb (gh_success _)); [discriminate|].
  destruct (deployToRailwayViaMCP E practiceData _); cbn [bind try_catch];
    [|discriminate].
  by intros [= <-].
Qed.

Lemma attemptExistingRepoDeployment_returned practiceData r :
  attemptExistingRepoDeployment E practiceData = Returned r ->
  pr_success r = true /\ pr_method r = "existing-repo-railway".
Proof.
  unfold attemptExistingRepoDeployment.
  destruct (deployToRailwayViaMCP E practiceData _); cbn [bind]; [|discriminate].
  by intros [= <-].
Qed.

Lemma attemptDirectRailwayMCP_returned practiceData r :
  attemptDirectRailwayMCP E practiceData = Returned r ->
  pr_success r = true /\ pr_method r = "direct-railway-mcp".
Proof.
  unfold attemptDirectRailwayMCP.
  destruct (createDirectRailwayService E practiceData); cbn [bind]; [|discriminate].
  by intros [= <-].
Qed.

(** The cascade returns the result of the first strategy that does not
    throw, with its method name and [success = true]. *)
Lemma cascade_first_success practiceData :
  exists r,
    createPersonalizedRepository E practiceData = Returned (Some r)
    /\ pr_success r = true
    /\ pr_method r = first_success E practiceData.
Proof.
  rewrite createPersonalizedRepository_unfold. unfold first_success.
  destruct (attemptFullGithubRailwayDeployment E practiceData) as [r|] eqn:H1.
  { exists r. apply attemptFullGithubRailwayDeployment_returned in H1 as [? ?].
    by repeat split. }
  destruct (attemptExistingRepoDeployment E practiceData) as [r|] eqn:H2.
  { exists r. apply attemptExistingRepoDeployment_returned in H2 as [? ?].
    by repeat split. }
  destruct (attemptDirectRailwayMCP E practiceData) as [r|] eqn:H3.
  { exists r. apply attemptDirectRailwayMCP_returned in H3 as [? ?].
    by repeat split. }
  eexists. by repeat split.
Qed.

End Provisioning.

(** X1. Every run of the cascade ends in a result with [success = true]
    whose method is the name of the first strategy, in priority order, that
    did not throw; the method ['all-failed'] is never returned. *)
Theorem cascade_returns_first_success (E : Env) (practiceData : obj) :
  exists r,
    createPersonalizedRepository E practiceData = Returned (Some r)
    /\ pr_success r = true
    /\ pr_method r = first_success E practiceData
    /\ pr_method r <> "all-failed"
    /\ pr_error r = None.
Proof.
  destruct (cascade_first_success E practiceData) as (r & Hr & Hs & Hm).
  exists r. repeat split; try assumption.
  - rewrite Hm. unfold first_success.
    repeat match goal with |- context [if ?b then _ else _] => destruct b end;
      discriminate.
  - revert Hr. rewrite createPersonalizedRepository_unfold.
    unfold attemptFullGithubRailwayDeployment, attemptExistingRepoDeployment,
      attemptDirectRailwayMCP.
    destruct (gh_success (createGitHubRepository E practiceData _)); cbn [negb];
      repeat match goal with
             | |- context [deployToRailwayViaMCP E ?p ?n] =>
                 destruct (deployToRailwayViaMCP E p n); cbn [bind try_catch]
             | |- context [createDirectRailwayService E ?p] =>
                 destruct (createDirectRailwayService E p); cbn [bind try_catch]
             end;
      by intros [= <-].
Qed.

(** X2. A Railway deployment through the client either returns a
    deployment whose domain URL is not empty (the production URL of the
    practice when the domain reply carries none), or throws a message that
    starts with "Railway MCP deployment failed: "; such a message is filed
    under notion_api, github_api or railway_api by [categorizeError], never
    under network_issues, scraping_issues or other, whatever its cause. *)
Theorem deployToRailwayViaMCP_outcomes (E : Env) (practiceData : obj) (repoName : string) :
  match deployToRailwayViaMCP E practiceData repoName with
  | Returned d => nonempty (rd_domain_url d) = true
  | Thrown message =>
      (exists cause, message = "Railway MCP deployment failed: " +:+ cause)
      /\ In (categorizeError message) ["notion_api"; "github_api"; "railway_api"]
  end.
Proof.
  destruct (deployToRailwayViaMCP E practiceData repoName) as [d|message] eqn:H.
  - by apply deployToRailwayViaMCP_returned in H.
  - destruct (deployToRailwayViaMCP_thrown E _ _ _ H) as [cause ->].
    split; [by exists cause|].
    unfold categorizeError.
    assert (Hrailway : includes "railway"
              (toLowerCase ("Railway MCP deployment failed: " +:+ cause)) = true)
      by reflexivity.
    rewrite Hrailway. cbn [orb].
    repeat match goal with |- context [if ?b then _ else _] => destruct b end;
      cbn; tauto.
Qed.


(** ** Recovery *)

Section RecoveryProperties.

Context (E : Env).
Implicit Types (practiceId : option value).

Lemma attemptNotionStorage_cases (validatedData : obj) :
  attemptNotionStorage E validatedData =
    Returned
      (if Qle_bool (Math_random E) (3 # 10)
       then {| nr_success := false; nr_leadId := ""; nr_record := None;
               nr_is_fallback := false; nr_is_emergency_fallback := false;
               nr_error := Some "Notion API rate limit exceeded" |}
       else {| nr_success := true;
               nr_leadId :=
                 "notion_" +:+ Z_toString (Date_now E) +:+ "_" +:+ random_base36 E;
               nr_record := Some validatedData;
               nr_is_fallback := false; nr_is_emergency_fallback := false;
               nr_error := None |}).
Proof.
  unfold attemptNotionStorage, mockNotionCall.
  by destruct (Qle_bool (Math_random E) (3 # 10)).
Qed.

Lemma retryDeploymentOnly_returns practiceId :
  exists d,
    retryDeploymentOnly E practiceId
    = Returned
        {| retry_success := true; retry_data := Some (DeploymentData d);
           retry_error := None |}
    /\ pr_success d = true.
Proof.
  unfold retryDeploymentOnly.
  match goal with
  | |- context [createPersonalizedRepository E ?data] =>
      destruct (cascade_first_success E data) as (d & -> & Hs & _)
  end.
  cbn [bind try_catch]. exists d. by rewrite Hs.
Qed.

Lemma retryNotionStorage_returns practiceId :
  exists notionResult,
    retryNotionStorage E practiceId
    = Returned
        {| retry_success := nr_success notionResult;
           retry_data := Some (NotionData notionResult);
           retry_error := None |}
    /\ nr_success notionResult = negb (Qle_bool (Math_random E) (3 # 10)).
Proof.
  unfold retryNotionStorage. rewrite attemptNotionStorage_cases.
  cbn [bind try_catch]. eexists. split; [reflexivity|].
  by destruct (Qle_bool (Math_random E) (3 # 10)).
Qed.

End RecoveryProperties.

(** [String(x)] of a number: the numeral itself for a safe integer, the
    shortest digits of the double beyond, the exponent form from [1e21] on. *)
Example Number_toString_examples :
  Number_toString 42 = "42"
  /\ Number_toString (-7) = "-7"
  /\ Number_toString (2 ^ 53 - 1) = "9007199254740991"
  /\ Number_toString (2 ^ 60) = "1152921504606847000"
  /\ Number_toString (10 ^ 21 - 1) = "1e+21"
  /\ Number_toString (10 ^ 21) = "1e+21"
  /\ Number_toString (2 ^ 70) = "1.1805916207174113e+21"
  /\ Number_toString (- 10 ^ 21) = "-1e+21".
Proof. vm_compute. repeat split. Qed.

(** The retries of a numeric practice id of [1e21]: the id enters the URLs
    as the template literal prints it. *)
Example retry_with_a_large_numeric_id :
  match retryNotionStorage online_store_env (Some (VNum (10 ^ 21))) with
  | Returned result =>
      match retry_data result with
      | Some (NotionData notionResult) =>
          stored_field (Returned notionResult) "url"
          = Some (VStr "https://1e+21.example.com")
      | _ => False
      end
  | Thrown _ => False
  end
  /\ match retryDeploymentOnly online_store_env (Some (VNum (10 ^ 21))) with
     | Returned result =>
         match retry_data result with
         | Some (DeploymentData deploymentResult) =>
             pr_railway_url deploymentResult
             = Some "https://1e+21-emergency-1730000123456.mock.demo"
         | _ => False
         end
     | Thrown _ => False
     end.
Proof. vm_compute. split; reflexivity. Qed.

(** [parseInt] reads the exponent form up to the [e]. *)
Example clamp_score_of_a_large_number :
  clamp_score (Some (VNum (10 ^ 21))) = 1%Z
  /\ clamp_score (Some (VNum (10 ^ 20))) = 100%Z.
Proof. vm_compute. split; reflexivity. Qed.

(** X3. The retry of the persistence phase never throws and never builds
    a fallback record: its [success] is that of the store call.  When the
    call resolves, the stored record carries the practice id it was given, the
    URL https://<id>.example.com and the lead score 50; when it rejects, the
    result carries the store's error and no record. *)
Theorem retryNotionStorage_reports_store (E : Env) (practiceId : option value) :
  exists notionResult,
    retryNotionStorage E practiceId
    = Returned
        {| retry_success := nr_success notionResult;
           retry_data := Some (NotionData notionResult);
           retry_error := None |}
    /\ nr_success notionResult = negb (Qle_bool (Math_random E) (3 # 10))
    /\ nr_is_fallback notionResult = false
    /\ nr_error notionResult
       = (if Qle_bool (Math_random E) (3 # 10)
          then Some "Notion API rate limit exceeded" else None)
    /\ stored_field (Returned notionResult) "practiceId"
       = (if Qle_bool (Math_random E) (3 # 10) then None else practiceId)
    /\ stored_field (Returned notionResult) "url"
       = (if Qle_bool (Math_random E) (3 # 10) then None
          else Some (VStr ("https://" +:+ toString practiceId +:+ ".example.com")))
    /\ stored_field (Returned notionResult) "lead_score"
       = (if Qle_bool (Math_random E) (3 # 10) then None else Some (VNum 50)).
Proof.
  unfold retryNotionStorage. rewrite attemptNotionStorage_cases.
  cbn [bind try_catch]. eexists. split; [reflexivity|].
  destruct (Qle_bool (Math_random E) (3 # 10)); cbn [nr_success nr_is_fallback nr_error
    stored_field nr_record negb]; repeat split;
    destruct practiceId as [v|]; unfold object_of; cbn [omap fst snd fmap option_fmap
      option_map list_omap mbind option_bind]; obj_lookup.
Qed.

(** X4. The retry of the provisioning phase never throws and always
    reports success: the cascade it runs ends in the emergency mock at the
    latest.  With every strategy before the mock failing, the URL it reports
    is the mock URL built from the practice id it was given. *)
Theorem retryDeploymentOnly_succeeds (E : Env) (practiceId : option value) :
  exists d,
    retryDeploymentOnly E practiceId
    = Returned
        {| retry_success := true; retry_data := Some (DeploymentData d);
           retry_error := None |}
    /\ pr_success d = true
    /\ pr_method d <> "all-failed"
    /\ (pr_method d = "emergency-mock" ->
        pr_railway_url d
        = Some ("https://" +:+ toString practiceId +:+ "-emergency-"
                +:+ Z_toString (Date_now E) +:+ ".mock.demo")).
Proof.
  unfold retryDeploymentOnly.
  set (fallbackData := object_of _).
  assert (Hid : toString (fallbackData !! "practiceId") = toString practiceId).
  { subst fallbackData. destruct practiceId as [v|]; unfold object_of;
      cbn [omap fst snd fmap option_fmap option_map list_omap mbind option_bind];
      f_equal; obj_lookup. }
  destruct (cascade_first_success E fallbackData) as (d & Hd & Hs & Hm).
  rewrite Hd. cbn [bind try_catch]. exists d. rewrite Hs.
  split; [reflexivity|]. split; [reflexivity|]. split.
  - rewrite Hm. unfold first_success.
    repeat match goal with |- context [if ?b then _ else _] => destruct b end;
      discriminate.
  - intros Hmock. revert Hd. rewrite createPersonalizedRepository_unfold.
    destruct (attemptFullGithubRailwayDeployment E fallbackData) as [r|] eqn:H1.
    { intros [= ->]. apply attemptFullGithubRailwayDeployment_returned in H1 as [_ H1].
      congruence. }
    destruct (attemptExistingRepoDeployment E fallbackData) as [r|] eqn:H2.
    { intros [= ->]. apply attemptExistingRepoDeployment_returned in H2 as [_ H2].
      congruence. }
    destruct (attemptDirectRailwayMCP E fallbackData) as [r|] eqn:H3.
    { intros [= ->]. apply attemptDirectRailwayMCP_returned in H3 as [_ H3].
      congruence. }
    intros [= <-]. unfold createEmergencyMockDeployment. cbn [pr_railway_url].
    by rewrite Hid.
Qed.

Lemma retryDeploymentOnly_succeeds_witness :
  exists d,
    retryDeploymentOnly (offline_env (1 # 10)) (Some (VStr "acme-dental-120000"))
    = Returned
        {| retry_success := true; retry_data := Some (DeploymentData d);
           retry_error := None |}
    /\ pr_method d = "emergency-mock"
    /\ pr_railway_url d
       = Some "https://acme-dental-120000-emergency-1730000123456.mock.demo".
Proof.
  destruct (retryDeploymentOnly_succeeds (offline_env (1 # 10))
              (Some (VStr "acme-dental-120000"))) as (d & Hd & _ & _ & Hurl).
  exists d. split; [exact Hd|].
  assert (Hm : pr_method d = "emergency-mock").
  { vm_compute in Hd. by injection Hd as <-. }
  split; [exact Hm|]. rewrite (Hurl Hm). vm_compute. reflexivity.
Defined.

(** X5. [POST /recover] of the fault-tolerant agent always answers 200,
    echoing the phase it was given.  Its [success] is [true] for the phase
    'deployment', the outcome of the store call for the phase 'notion', and
    [false] with the error 'Invalid retry phase' for any other phase, a
    missing one included. *)
Theorem recover_response (E : Env) (practice_id retry_phase : option value) :
  recover_status (recover E practice_id retry_phase) = 200
  /\ recover_phase (recover E practice_id retry_phase) = retry_phase
  /\ recover_error (recover E practice_id retry_phase) = None
  /\ recover_success (recover E practice_id retry_phase)
     = match retry_phase with
       | Some (VStr phase) =>
           if String.eqb phase "notion" then negb (Qle_bool (Math_random E) (3 # 10))
           else String.eqb phase "deployment"
       | _ => false
       end
  /\ (retry_error <$> recover_result (recover E practice_id retry_phase))
     = match retry_phase with
       | Some (VStr phase) =>
           if String.eqb phase "notion" || String.eqb phase "deployment"
           then Some None else Some (Some "Invalid retry phase")
       | _ => Some (Some "Invalid retry phase")
       end.
Proof.
  unfold recover.
  destruct retry_phase as [[phase| | |]|]; try by repeat split.
  destruct (String.eqb phase "notion") eqn:Hn.
  - destruct (retryNotionStorage_returns E practice_id) as (nr & -> & Hs).
    cbn. by rewrite Hs.
  - destruct (String.eqb phase "deployment") eqn:Hd; [|by repeat split].
    destruct (retryDeploymentOnly_returns E practice_id) as (d & -> & _).
    by repeat split.
Qed.


(** ** Analytics *)

Section Analytics.

Implicit Types (results : list LoggedResult) (category : string).

Lemma count_category_cons category r results :
  count_category category (r :: results)
  = (if in_category category r then 1 else 0) + count_category category results.
Proof.
  unfold count_category. rewrite filter_cons.
  destruct (in_category category r); by case_decide.
Qed.

Lemma count_category_failed category results :
  count_category category (filter (fun r => logged_success r = false) results)
  = count_category category results.
Proof.
  induction results as [|r results IH]; [reflexivity|].
  rewrite filter_cons, (count_category_cons _ r results).
  case_decide as Hr.
  - by rewrite count_category_cons, IH.
  - rewrite IH. unfold in_category.
    destruct (logged_success r); [reflexivity|contradiction].
Qed.

Lemma categorizeError_range (message : string) :
  In (categorizeError message) error_categories.
Proof.
  unfold categorizeError, error_categories.
  repeat match goal with |- context [if ?b then _ else _] => destruct b end;
    cbn; tauto.
Qed.

End Analytics.

(** X6. The error patterns of the diagnostics count, for each category,
    the failed results that carry an error of that category: a category
    without such results is absent from the object, and no other key than the
    six categories of [categorizeError] occurs. *)
Theorem analyzeErrorPatterns_counts (deploymentResults : list LoggedResult)
    (category : string) :
  analyzeErrorPatterns deploymentResults !! category
  = (if count_category category deploymentResults =? 0 then None
     else Some (count_category category deploymentResults))
  /\ (is_Some (analyzeErrorPatterns deploymentResults !! category) ->
      In category error_categories).
Proof.
  assert (Hfold : forall (l : list LoggedResult) (acc : gmap string nat),
    foldl
      (fun errorPatterns deployment =>
         match logged_error deployment with
         | Some error =>
             if nonempty error
             then let errorType := categorizeError error in
                  <[errorType := default 0 (errorPatterns !! errorType) + 1]> errorPatterns
             else errorPatterns
         | None => errorPatterns
         end) acc (filter (fun r => logged_success r = false) l) !! category
    = (if count_category category l =? 0 then acc !! category
       else Some (default 0 (acc !! category) + count_category category l))).
  { induction l as [|r l IH]; intros acc; [reflexivity|].
    rewrite filter_cons, count_category_cons. unfold in_category at 1 2.
    case_decide as Hr; [rewrite Hr|destruct (logged_success r); [|contradiction]];
      cbn [negb andb foldl]; [|apply IH].
    rewrite IH.
    destruct (logged_error r) as [error|]; [|reflexivity].
    destruct (nonempty error); cbn [andb]; [|reflexivity].
    cbv zeta. destruct (String.eqb (categorizeError error) category) eqn:Hc.
    - apply String.eqb_eq in Hc. rewrite Hc, lookup_insert_eq. cbn [default].
      destruct (count_category category l); cbn; f_equal; lia.
    - apply String.eqb_neq in Hc. by rewrite lookup_insert_ne. }
  assert (Hlookup :
    analyzeErrorPatterns deploymentResults !! category
    = (if count_category category deploymentResults =? 0 then None
       else Some (count_category category deploymentResults))).
  { unfold analyzeErrorPatterns. rewrite Hfold, lookup_empty. reflexivity. }
  split; [exact Hlookup|].
  rewrite Hlookup. destruct (count_category category deploymentResults =? 0) eqn:Hn.
  - by intros [? ?].
  - intros _. apply Nat.eqb_neq in Hn. unfold count_category in Hn.
    destruct (filter _ deploymentResults) as [|r rest] eqn:Hf; [done|].
    assert (Hr : r ∈ filter (fun r => in_category category r = true) deploymentResults)
      by (rewrite Hf; left).
    apply list_elem_of_filter in Hr as [Hr _]. unfold in_category in Hr.
    destruct (logged_error r) as [error|];
      [|by rewrite andb_false_r in Hr].
    apply andb_true_iff in Hr as [_ [_ Hc%String.eqb_eq]%andb_true_iff].
    rewrite <- Hc. apply categorizeError_range.
Qed.

Lemma analyzeErrorPatterns_counts_witness :
  is_Some
    (analyzeErrorPatterns
       [mkLoggedResult false (Some "Railway MCP deployment failed: timeout");
        mkLoggedResult true None;
        mkLoggedResult false (Some "Invalid URL")] !! "railway_api")
  /\ In "railway_api" error_categories.
Proof.
  assert (H : is_Some
    (analyzeErrorPatterns
       [mkLoggedResult false (Some "Railway MCP deployment failed: timeout");
        mkLoggedResult true None;
        mkLoggedResult false (Some "Invalid URL")] !! "railway_api"))
    by (exists 1; vm_compute; reflexivity).
  split; [exact H|].
  exact (proj2 (analyzeErrorPatterns_counts _ "railway_api") H).
Defined.


(** ** Enrichment, continued *)

Section EnrichmentShape.

Context (E : Env).
Implicit Types (url hostname companyName : string).

Lemma to_lower_idem (c : ascii) : to_lower (to_lower c) = to_lower c.
Proof. destruct c as [[] [] [] [] [] [] [] []]; reflexivity. Qed.

Lemma toLowerCase_idem (s : string) : toLowerCase (toLowerCase s) = toLowerCase s.
Proof.
  unfold toLowerCase. induction s as [|c s IH]; cbn; [reflexivity|].
  by rewrite to_lower_idem, IH.
Qed.

Lemma first_hint_known (domain : string) :
  In (first_hint locationHints domain) known_locations.
Proof.
  unfold locationHints, known_locations. cbn [first_hint].
  repeat match goal with |- context [if ?b then _ else _] => destruct b end;
    vm_compute; tauto.
Qed.

Lemma extractLocationFromUrl_nonempty hostname :
  nonempty (extractLocationFromUrl hostname) = true.
Proof.
  unfold extractLocationFromUrl.
  pose proof (first_hint_known (toLowerCase hostname)) as H.
  unfold known_locations in H. cbn [In] in H.
  repeat destruct H as [<-|H]; try reflexivity. contradiction.
Qed.

Lemma determinePracticeType_known (content : string) (services treatments : list string) :
  In (determinePracticeType content services treatments) practice_types.
Proof.
  unfold determinePracticeType, practice_types.
  repeat match goal with |- context [if ?b then _ else _] => destruct b end;
    cbn; tauto.
Qed.

(** What the search resolves to for a URL that parses. *)
Lemma searchWithExa_shape url hostname :
  URL_hostname E url = Some hostname ->
  exists exaData,
    searchWithExa E url (extractCompanyFromUrl hostname) = Returned exaData
    /\ In (practice_type exaData) practice_types
    /\ nonempty (location exaData) = true.
Proof.
  intros H. unfold searchWithExa.
  assert (Hbasic : exists exaData,
    basicContentAnalysis E url = Returned exaData
    /\ In (practice_type exaData) practice_types
    /\ nonempty (location exaData) = true).
  { unfold basicContentAnalysis. rewrite (new_URL_hostname_valid _ _ _ H).
    cbn [bind]. eexists. split; [reflexivity|]. cbn [practice_type location].
    split; [unfold practice_types; cbn; tauto|apply extractLocationFromUrl_nonempty]. }
  destruct (exa_disabled E); [exact Hbasic|].
  rewrite (new_URL_hostname_valid _ _ _ H). cbn [bind].
  destruct (axios_post_exa E _ hostname) as [[|text results]|];
    cbn [bind try_catch];
    try (destruct Hbasic as (d & -> & Hd); by exists d).
  unfold extractHealthcareData. rewrite (new_URL_hostname_valid _ _ _ H).
  destruct (extractLocationFromContent E text) as [l|];
    [destruct (nonempty l) eqn:Hl|]; cbn [bind try_catch]; eexists;
    (split; [reflexivity|]); cbn [practice_type location];
    (split; [apply determinePracticeType_known|]);
    first [exact Hl | apply extractLocationFromUrl_nonempty].
Qed.

Lemma scrapeHealthcarePractice_fields url hostname :
  URL_hostname E url = Some hostname ->
  exists exaData practiceData,
    searchWithExa E url (extractCompanyFromUrl hostname) = Returned exaData
    /\ scrapeHealthcarePractice E url = Returned practiceData
    /\ practiceData !! "url" = Some (VStr url)
    /\ practiceData !! "domain" = Some (VStr hostname)
    /\ practiceData !! "location" = Some (VStr (location exaData))
    /\ practiceData !! "practice_type" = Some (VStr (practice_type exaData))
    /\ practiceData !! "lead_score" = Some (VNum (calculateLeadScore exaData))
    /\ practiceData !! "exa_enhanced" = Some (VBool true)
    /\ practiceData !! "error" = None
    /\ In (practice_type exaData) practice_types
    /\ nonempty (location exaData) = true.
Proof.
  intros H. destruct (searchWithExa_shape _ _ H) as (exaData & Hsearch & Htype & Hloc).
  exists exaData. unfold scrapeHealthcarePractice.
  rewrite (new_URL_hostname_valid _ _ _ H). cbn [bind]. rewrite Hsearch.
  cbn [bind try_catch]. rewrite (str_or_left (location exaData)) by exact Hloc.
  assert (Hpt : nonempty (practice_type exaData) = true).
  { unfold practice_types in Htype. cbn [In] in Htype.
    repeat destruct Htype as [<-|Htype]; try reflexivity. contradiction. }
  rewrite (str_or_left (practice_type exaData)) by exact Hpt.
  eexists. split; [reflexivity|]. split; [reflexivity|].
  repeat split; try assumption.
Qed.

Lemma searchWithExa_unusable url companyName :
  exa_unusable E url companyName = true ->
  searchWithExa E url companyName = basicContentAnalysis E url.
Proof.
  unfold exa_unusable, searchWithExa. destruct (exa_disabled E); [reflexivity|].
  cbn [orb]. unfold new_URL_hostname at 1.
  destruct (URL_hostname E url) as [hostname|] eqn:Hurl; cbn [bind try_catch];
    [|reflexivity].
  destruct (axios_post_exa E companyName hostname) as [[|text results]|];
    cbn [bind try_catch]; [|discriminate|reflexivity].
  intros _. by destruct (basicContentAnalysis E url).
Qed.

End EnrichmentShape.

(** X7. The Exa search contributes nothing exactly when there is no API
    key, the URL does not parse, the search is rejected or it has no result:
    in these cases, and only in these, [searchWithExa] resolves to (or
    rejects like) the basic analysis of the host name.  In every other case
    it resolves to the data extracted from the first result of the search:
    the company name it was given, the services and treatments found in that
    text, and the length of the text as [content_analyzed]. *)
Theorem searchWithExa_degrades_to_basic (E : Env) (url companyName : string) :
  (exa_unusable E url companyName = true
   <-> searchWithExa E url companyName = basicContentAnalysis E url)
  /\ (exa_unusable E url companyName = false ->
      exists hostname text results exaData,
        URL_hostname E url = Some hostname
        /\ axios_post_exa E companyName hostname = Returned (text :: results)
        /\ extractHealthcareData E text url companyName = Returned exaData
        /\ searchWithExa E url companyName = Returned exaData
        /\ company exaData = companyName
        /\ services exaData = extractServices E text
        /\ treatments exaData = extractTreatments E text
        /\ specializations exaData = extractSpecializations E text
        /\ content_analyzed exaData = Some (String.length text)).
Proof.
  split; [split; [apply searchWithExa_unusable|]|].
  - unfold exa_unusable, searchWithExa, basicContentAnalysis.
    destruct (exa_disabled E); [reflexivity|]. cbn [orb].
    unfold new_URL_hostname.
    destruct (URL_hostname E url) as [hostname|] eqn:Hurl; [|reflexivity].
    cbn [bind]. destruct (axios_post_exa E companyName hostname) as [[|text results]|];
      try reflexivity.
    cbn [bind try_catch]. unfold extractHealthcareData, new_URL_hostname. rewrite Hurl.
    destruct (extractLocationFromContent E text) as [l|]; [destruct (nonempty l)|];
      cbn [bind try_catch]; intros Heq; simplify_eq Heq.
  - unfold exa_unusable, searchWithExa.
    destruct (exa_disabled E); [discriminate|]. cbn [orb].
    unfold new_URL_hostname at 1.
    destruct (URL_hostname E url) as [hostname|] eqn:Hurl; [|discriminate].
    destruct (axios_post_exa E companyName hostname) as [[|text results]|] eqn:Hpost;
      try discriminate.
    intros _. exists hostname, text, results.
    unfold extractHealthcareData, new_URL_hostname. rewrite Hurl. cbn [bind].
    rewrite Hpost. cbn [bind].
    destruct (extractLocationFromContent E text) as [l|]; [destruct (nonempty l)|];
      cbn [bind try_catch]; eexists;
      (split; [reflexivity|]); (split; [reflexivity|]);
      (split; [reflexivity|]); (split; [reflexivity|]); repeat split.
Qed.

Lemma searchWithExa_degrades_to_basic_witness :
  exa_unusable (exa_env "Cosmetic dentistry in London") drsmith_url "Drsmith Dental" = false
  /\ exists exaData,
       searchWithExa (exa_env "Cosmetic dentistry in London") drsmith_url "Drsmith Dental"
       = Returned exaData
       /\ company exaData = "Drsmith Dental"
       /\ content_analyzed exaData = Some 28.
Proof.
  assert (Husable :
    exa_unusable (exa_env "Cosmetic dentistry in London") drsmith_url "Drsmith Dental"
    = false) by reflexivity.
  split; [exact Husable|].
  destruct (proj2 (searchWithExa_degrades_to_basic
                     (exa_env "Cosmetic dentistry in London") drsmith_url
                     "Drsmith Dental") Husable)
    as (hostname & text & results & exaData & _ & Hpost & _ & Hsearch & Hcompany
        & _ & _ & _ & Hlength).
  exists exaData. split; [exact Hsearch|]. split; [exact Hcompany|].
  injection Hpost as <- _. exact Hlength.
Defined.

(** X8. The enrichment adapter throws exactly when the URL does not parse,
    and then with the parser's error.  For a URL that parses the record holds
    the URL and its host name, a location that is not empty, a practice type
    out of the six of the classifier, a lead score between 50 and 100, no
    [error], and [exa_enhanced = true] whether or not the Exa search
    contributed. *)
Theorem scrapeHealthcarePractice_outcome (E : Env) (url : string) :
  match URL_hostname E url with
  | None => scrapeHealthcarePractice E url = Thrown "Invalid URL"
  | Some hostname =>
      exists practiceData location practice_type score,
        scrapeHealthcarePractice E url = Returned practiceData
        /\ practiceData !! "url" = Some (VStr url)
        /\ practiceData !! "domain" = Some (VStr hostname)
        /\ practiceData !! "location" = Some (VStr location)
        /\ nonempty location = true
        /\ practiceData !! "practice_type" = Some (VStr practice_type)
        /\ In practice_type practice_types
        /\ practiceData !! "lead_score" = Some (VNum score)
        /\ (50 <= score <= 100)%Z
        /\ practiceData !! "exa_enhanced" = Some (VBool true)
        /\ practiceData !! "error" = None
  end.
Proof.
  destruct (URL_hostname E url) as [hostname|] eqn:Hurl.
  - destruct (scrapeHealthcarePractice_fields E url hostname Hurl)
      as (exaData & practiceData & _ & Hscrape & H1 & H2 & H3 & H4 & H5 & H6 & H7 & H8 & H9).
    exists practiceData, (location exaData), (practice_type exaData),
      (calculateLeadScore exaData).
    repeat split; try assumption;
      pose proof (score_of_signals_bounds (signals_of exaData)) as Hb;
      rewrite <- calculateLeadScore_signals in Hb; lia.
  - unfold scrapeHealthcarePractice, new_URL_hostname. by rewrite Hurl.
Qed.

(** X9. Whenever the Exa search contributes nothing, the lead of a URL that
    parses scores exactly 68, whatever the host name: one default service, one
    default treatment, a location that is never empty and one default
    specialization. *)
Theorem lead_score_without_exa (E : Env) (url hostname : string) :
  URL_hostname E url = Some hostname ->
  exa_unusable E url (extractCompanyFromUrl hostname) = true ->
  field_of (scrapeHealthcarePractice E url) "lead_score" = Some (VNum 68).
Proof.
  intros Hurl Hexa.
  destruct (scrapeHealthcarePractice_fields E url hostname Hurl)
    as (exaData & practiceData & Hsearch & -> & _ & _ & _ & _ & Hscore & _).
  cbn [field_of]. rewrite Hscore.
  rewrite (searchWithExa_unusable E _ _ Hexa) in Hsearch.
  unfold basicContentAnalysis in Hsearch.
  rewrite (new_URL_hostname_valid _ _ _ Hurl) in Hsearch. cbn [bind] in Hsearch.
  injection Hsearch as <-. unfold calculateLeadScore.
  cbn [services treatments specializations phone email location content_analyzed].
  by rewrite extractLocationFromUrl_nonempty.
Qed.

Lemma lead_score_without_exa_witness :
  URL_hostname (offline_env (1 # 10)) "https://www.london-smiles.co.uk/contact"
    = Some "www.london-smiles.co.uk"
  /\ exa_unusable (offline_env (1 # 10)) "https://www.london-smiles.co.uk/contact"
       (extractCompanyFromUrl "www.london-smiles.co.uk") = true
  /\ field_of
       (scrapeHealthcarePractice (offline_env (1 # 10))
          "https://www.london-smiles.co.uk/contact") "lead_score" = Some (VNum 68).
Proof.
  assert (H1 : URL_hostname (offline_env (1 # 10)) "https://www.london-smiles.co.uk/contact"
               = Some "www.london-smiles.co.uk") by reflexivity.
  assert (H2 : exa_unusable (offline_env (1 # 10)) "https://www.london-smiles.co.uk/contact"
                 (extractCompanyFromUrl "www.london-smiles.co.uk") = true) by reflexivity.
  split; [exact H1|]. split; [exact H2|].
  exact (lead_score_without_exa _ _ _ H1 H2).
Defined.


(** ** Names and ids derived from the host name *)

Section HostNames.

Implicit Types (s hostname : string) (p : ascii -> bool).

Lemma str_length_append s1 s2 :
  String.length (s1 +:+ s2) = String.length s1 + String.length s2.
Proof. induction s1 as [|c s1 IH]; simpl; [reflexivity|]. f_equal. exact IH. Qed.

Lemma str_forall_append p s1 s2 :
  str_forall p (s1 +:+ s2) = str_forall p s1 && str_forall p s2.
Proof. induction s1 as [|c s1 IH]; simpl; [reflexivity|]. by rewrite IH, andb_assoc. Qed.

Lemma strip_prefix_append (prefix s : string) :
  strip_prefix prefix (prefix +:+ s) = Some s.
Proof.
  induction prefix as [|c prefix IH]; [by destruct s|].
  change (String c prefix +:+ s) with (String c (prefix +:+ s)).
  cbn [strip_prefix]. by rewrite Ascii.eqb_refl.
Qed.

Lemma split_on_not_nil p s : split_on p s <> [].
Proof.
  destruct s as [|c s]; cbn; [done|].
  destruct (p c); [done|]. by destruct (split_on p s).
Qed.

(** No part of a split holds a separator. *)
Lemma split_on_parts p s :
  Forall (fun part => str_forall (fun c => negb (p c)) part = true) (split_on p s).
Proof.
  induction s as [|c s IH]; cbn; [by repeat constructor|].
  destruct (p c) eqn:Hc; [by constructor|].
  destruct (split_on p s) as [|x xs]; inversion IH; subst;
    constructor; cbn; rewrite ?Hc; auto.
Qed.

Lemma to_upper_not_separator (c : ascii) :
  is_host_separator c = false -> is_host_separator (to_upper c) = false.
Proof. destruct c as [[] [] [] [] [] [] [] []]; vm_compute; congruence. Qed.

Lemma capitalize_no_separator (part : string) :
  str_forall (fun c => negb (is_host_separator c)) part = true ->
  str_forall (fun c => negb (is_host_separator c)) (capitalize part) = true.
Proof.
  destruct part as [|c part]; [reflexivity|].
  change (capitalize (String c part)) with (String (to_upper c) (str_drop 0 part)).
  cbn. intros [Hc H]%andb_true_iff. apply negb_true_iff in Hc.
  rewrite (to_upper_not_separator _ Hc). cbn. by destruct part.
Qed.

Lemma join_no_separator (parts : list string) :
  Forall (fun part => str_forall (fun c => negb (is_host_separator c)) part = true) parts ->
  str_forall (fun c => negb (is_host_separator c)) (join " " parts) = true.
Proof.
  induction 1 as [|x l Hx Hl IH]; [reflexivity|].
  destruct l as [|y l]; [exact Hx|].
  change (join " " (x :: y :: l)) with (x +:+ " " +:+ join " " (y :: l)).
  by rewrite !str_forall_append, Hx, IH.
Qed.

Lemma slice_last_length (n : nat) s : String.length (slice_last n s) <= n.
Proof. unfold slice_last. rewrite str_drop_length. lia. Qed.

End HostNames.

(** X10. The company name derived from a host name holds neither a dot
    nor a hyphen: the labels of the host are split at both, capitalized and
    joined by spaces.  A leading "www." makes no difference. *)
Theorem extractCompanyFromUrl_clean (hostname : string) :
  str_forall (fun c => negb (is_host_separator c)) (extractCompanyFromUrl hostname) = true
  /\ (starts_with "www." hostname = false ->
      extractCompanyFromUrl ("www." +:+ hostname) = extractCompanyFromUrl hostname).
Proof.
  split.
  - unfold extractCompanyFromUrl. rewrite str_forall_append, join_no_separator;
      [reflexivity|].
    apply Forall_fmap, Forall_forall. intros part [_ Hpart]%list_elem_of_filter.
    apply capitalize_no_separator.
    pose proof (split_on_parts is_host_separator
                  (strip_first_suffix
                     [".com"; ".org"; ".net"; ".co.uk"; ".nl"; ".de"; ".fr"]
                     (strip_www hostname))) as Hall.
    rewrite Forall_forall in Hall. by apply Hall.
  - intros Hwww. unfold extractCompanyFromUrl, strip_www.
    rewrite strip_prefix_append. unfold starts_with in Hwww.
    by destruct (strip_prefix "www." hostname).
Qed.

Lemma extractCompanyFromUrl_clean_witness :
  starts_with "www." "london-smiles.co.uk" = false
  /\ extractCompanyFromUrl ("www." +:+ "london-smiles.co.uk")
     = extractCompanyFromUrl "london-smiles.co.uk".
Proof.
  assert (H : starts_with "www." "london-smiles.co.uk" = false) by reflexivity.
  split; [exact H|].
  exact (proj2 (extractCompanyFromUrl_clean "london-smiles.co.uk") H).
Defined.

(** X11. The location derived from a host name is one of the nine known
    cities, capitalized, or 'Practice Location'; it does not depend on the
    case of the host name. *)
Theorem extractLocationFromUrl_known (hostname : string) :
  In (extractLocationFromUrl hostname) known_locations
  /\ extractLocationFromUrl (toLowerCase hostname) = extractLocationFromUrl hostname.
Proof.
  split; [apply first_hint_known|].
  unfold extractLocationFromUrl. by rewrite toLowerCase_idem.
Qed.

(** X12. A practice id has at most 37 code units (30 of the slug, the
    hyphen, 6 of the clock), whatever the company name and the clock. *)
Theorem generatePracticeId_length (E : Env) (companyName : string) :
  String.length (generatePracticeId E companyName) <= 37.
Proof.
  unfold generatePracticeId. rewrite !str_length_append.
  pose proof (str_take_length 30
    (collapse_spaces false
       (str_filter (fun c => is_alnum c || is_space c) (toLowerCase companyName)))).
  pose proof (slice_last_length 6 (Z_toString (Date_now E))).
  cbn [String.length]. lia.
Qed.

(** X13. The minimal fallback data of the orchestrator exist exactly for
    the URLs that parse.  Their practice id is "fallback-", the letters and
    digits of the host name (without its first "www."), a hyphen and the last
    six digits of the clock; the company is not empty and the lead score is
    30. *)
Theorem createMinimalFallbackData_outcome (E : Env) (url : string) :
  (100000 <= Date_now E)%Z ->
  match URL_hostname E url with
  | None => createMinimalFallbackData E url = Thrown "Invalid URL"
  | Some hostname =>
      exists practiceData company body suffix,
        createMinimalFallbackData E url = Returned practiceData
        /\ practiceData !! "practiceId" = Some (VStr ("fallback-" +:+ body +:+ "-" +:+ suffix))
        /\ body = str_filter is_alnum (remove_first "www." hostname)
        /\ str_forall is_alnum body = true
        /\ String.length suffix = 6
        /\ str_forall is_digit suffix = true
        /\ practiceData !! "company" = Some (VStr company)
        /\ nonempty company = true
        /\ practiceData !! "lead_score" = Some (VNum 30)
        /\ practiceData !! "url" = Some (VStr url)
  end.
Proof.
  intros Hnow. destruct (clock_suffix _ Hnow) as [Hlen Hdigits].
  unfold createMinimalFallbackData, new_URL_hostname.
  destruct (URL_hostname E url) as [hostname|]; [|reflexivity].
  cbn [bind].
  eexists _,
    (capitalize (hd "" (split_on (is_char ".") (remove_first "www." hostname)))
     +:+ " Healthcare"),
    (str_filter is_alnum (remove_first "www." hostname)),
    (slice_last 6 (Z_toString (Date_now E))).
  split; [reflexivity|].
  split; [obj_lookup|]. split; [reflexivity|].
  split; [apply str_forall_filter|]. split; [exact Hlen|]. split; [exact Hdigits|].
  split; [obj_lookup|]. split; [by apply nonempty_append|].
  split; obj_lookup.
Qed.

Lemma createMinimalFallbackData_outcome_witness :
  (100000 <= Date_now (offline_env (1 # 10)))%Z
  /\ (exists practiceData,
        createMinimalFallbackData (offline_env (1 # 10)) "https://www.acme-dental.nl"
        = Returned practiceData)
  /\ createMinimalFallbackData (offline_env (1 # 10)) "acme-dental.nl" = Thrown "Invalid URL".
Proof.
  assert (H : (100000 <= Date_now (offline_env (1 # 10)))%Z) by (cbn; lia).
  split; [exact H|].
  pose proof (createMinimalFallbackData_outcome (offline_env (1 # 10))
                "https://www.acme-dental.nl" H) as H1.
  pose proof (createMinimalFallbackData_outcome (offline_env (1 # 10))
                "acme-dental.nl" H) as H2.
  split; [|exact H2].
  change (URL_hostname (offline_env (1 # 10)) "https://www.acme-dental.nl")
    with (Some "www.acme-dental.nl") in H1.
  destruct H1 as (practiceData & _ & _ & _ & Hrun & _).
  by exists practiceData.
Defined.

Example createMinimalFallbackData_acme :
  field_of (createMinimalFallbackData (offline_env (1 # 10)) "https://www.acme-dental.nl")
    "practiceId" = Some (VStr "fallback-acmedentalnl-123456").
Proof. vm_compute. reflexivity. Qed.


(** ** Record validator, continued *)

Section ValidatorSchema.

Context (E : Env).
Implicit Types (s : string) (v : option value) (p : ascii -> bool).

Lemma str_filter_length p s : String.length (str_filter p s) <= String.length s.
Proof. induction s as [|c s IH]; cbn; [lia|]. destruct (p c); cbn; lia. Qed.

Lemma str_map_length (f : ascii -> ascii) s :
  String.length (str_map f s) = String.length s.
Proof. induction s as [|c s IH]; cbn; congruence. Qed.

Lemma trim_left_length s : String.length (trim_left s) <= String.length s.
Proof. induction s as [|c s IH]; cbn; [lia|]. destruct (is_space c); cbn; lia. Qed.

Lemma sanitize_text v : text_within 2000 (sanitize v).
Proof. destruct (sanitize_neat v) as (Hp & _ & Hl). by split. Qed.

Lemma str_or_text (n : nat) (a b : string) :
  text_within n a -> text_within n b ->
  text_within n (str_or a b) /\ (nonempty b = true -> nonempty (str_or a b) = true).
Proof.
  intros Ha Hb. unfold str_or. destruct (nonempty a) eqn:Hn; split; auto.
Qed.

Lemma text_within_literal (n : nat) s :
  str_forall is_printable s && (String.length s <=? n) = true -> text_within n s.
Proof. intros [H1 H2%Nat.leb_le]%andb_true_iff. by split. Qed.

Lemma joined_list_length v (n : nat) (default : string) :
  String.length default <= n -> String.length (joined_list v n default) <= n.
Proof.
  intros Hd. unfold joined_list.
  destruct v as [[| | |items]|]; try exact Hd. apply str_take_length.
Qed.

Lemma validatePhone_shape v phone :
  validatePhone v = Returned phone ->
  exists digits,
    phone = VStr digits
    /\ (digits = ""
        \/ 10 <= String.length digits /\ str_forall is_phone_char digits = true).
Proof.
  unfold validatePhone. destruct (negb (truthy v)).
  - intros [= <-]. exists "". by split; [|left].
  - destruct v as [[digits| | |]|]; try discriminate.
    destruct (10 <=? String.length (str_filter is_phone_char digits)) eqn:Hlen;
      intros [= <-]; eexists; (split; [reflexivity|]); [right|by left].
    split; [by apply Nat.leb_le|apply str_forall_filter].
Qed.

Lemma validateEmail_shape v :
  validateEmail v = VStr ""
  \/ test emailRegex (toString (Some (validateEmail v))) = true.
Proof.
  unfold validateEmail. destruct v as [x|]; [|by left].
  destruct (negb (truthy (Some x))); [by left|].
  destruct (test emailRegex (toString (Some x))) eqn:Hm; [by right|by left].
Qed.

(** Within the bound, nothing is cut off and a second pass changes nothing. *)
Lemma sanitize_idem_bounded s :
  String.length s <= 2000 ->
  sanitize (Some (VStr (sanitize (Some (VStr s))))) = sanitize (Some (VStr s)).
Proof.
  intros Hlen. rewrite (sanitize_of_neat (sanitize (Some (VStr s))))
    by apply sanitize_neat.
  unfold sanitize. destruct (negb (truthy (Some (VStr s)))); [reflexivity|].
  cbn [toString].
  set (cleaned := str_filter is_printable (str_map newline_to_space s)).
  assert (Hc : String.length (trim cleaned) <= 2000).
  { unfold trim.
    pose proof (trim_right_length (trim_left cleaned)).
    pose proof (trim_left_length cleaned).
    pose proof (str_filter_length is_printable (str_map newline_to_space s)).
    pose proof (str_map_length newline_to_space s). subst cleaned. lia. }
  rewrite (str_take_all 2000 (trim cleaned)) by exact Hc.
  unfold trim. apply trim_right_idem.
Qed.

Lemma validateNotionData_record practiceData validatedData :
  validateNotionData E practiceData = Returned validatedData ->
  exists phone website,
    validatePhone (practiceData !! "phone") = Returned phone
    /\ validatedData =
       validatedRecord E
         (str_or (sanitize (practiceData !! "company")) "Healthcare Practice")
         phone
         (validateEmail (practiceData !! "email"))
         (str_or (sanitize (practiceData !! "location")) "Healthcare Location")
         website
         (sanitize (practiceData !! "practiceId"))
         (str_or (sanitize (practiceData !! "practice_type")) "healthcare")
         (joined_list (practiceData !! "services") 1000 "Healthcare Services")
         (joined_list (practiceData !! "treatments") 1000 "Consultation")
         (joined_list (practiceData !! "specializations") 500 "General Healthcare")
         (clamp_score (practiceData !! "lead_score"))
         (or_else (practiceData !! "exa_enhanced") (VBool false))
         (str_or (sanitize (practiceData !! "domain")) "")
         (or_else (practiceData !! "scraped_at") (VStr (Date_toISOString E))).
Proof.
  unfold validateNotionData. intros H.
  destruct (validatePhone (practiceData !! "phone")) as [phone|]; cbn [bind] in H;
    [|discriminate].
  destruct (validateUrl E (practiceData !! "url")) as [website|]; cbn [bind] in H;
    [|discriminate].
  injection H as <-. by exists phone, website.
Qed.

Lemma validatedRecord_fields
    (company : string) (phone email : value) (location : string) (website : value)
    (practice_id practice_type services treatments specializations : string)
    (lead_score : Z) (exa_enhanced : value) (domain : string) (scraped_at : value) :
  let record :=
    validatedRecord E company phone email location website practice_id practice_type
      services treatments specializations lead_score exa_enhanced domain scraped_at in
  record !! "company" = Some (VStr company)
  /\ record !! "location" = Some (VStr location)
  /\ record !! "practice_type" = Some (VStr practice_type)
  /\ record !! "practice_id" = Some (VStr practice_id)
  /\ record !! "domain" = Some (VStr domain)
  /\ record !! "services" = Some (VStr services)
  /\ record !! "treatments" = Some (VStr treatments)
  /\ record !! "specializations" = Some (VStr specializations)
  /\ record !! "phone" = Some phone
  /\ record !! "lead_score" = Some (VNum lead_score)
  /\ record !! "email" = Some email
  /\ record !! "status" = Some (VStr "Lead Captured")
  /\ record !! "website" = Some website.
Proof. cbv zeta. repeat split; vm_compute; reflexivity. Qed.

End ValidatorSchema.

(** X14. Every record the validator returns meets the constraints of the
    store: company, location and practice type are printable, not empty and
    at most 2000 code units; practice id and domain are printable and at most
    2000; the joined services and treatments are at most 1000 and the
    specializations at most 500; the lead score is between 0 and 100; the
    phone is empty or has at least ten code units, all digits, white space or
    one of + ( ) -; the email is empty or matches the pattern of the source;
    the status is 'Lead Captured'. *)
Theorem validateNotionData_schema (E : Env) (practiceData validatedData : obj) :
  validateNotionData E practiceData = Returned validatedData ->
  string_field validatedData "company"
    (fun s => text_within 2000 s /\ nonempty s = true)
  /\ string_field validatedData "location"
       (fun s => text_within 2000 s /\ nonempty s = true)
  /\ string_field validatedData "practice_type"
       (fun s => text_within 2000 s /\ nonempty s = true)
  /\ string_field validatedData "practice_id" (text_within 2000)
  /\ string_field validatedData "domain" (text_within 2000)
  /\ string_field validatedData "services" (fun s => String.length s <= 1000)
  /\ string_field validatedData "treatments" (fun s => String.length s <= 1000)
  /\ string_field validatedData "specializations" (fun s => String.length s <= 500)
  /\ string_field validatedData "phone"
       (fun s => s = ""
                 \/ 10 <= String.length s /\ str_forall is_phone_char s = true)
  /\ (exists score,
        validatedData !! "lead_score" = Some (VNum score) /\ (0 <= score <= 100)%Z)
  /\ (exists email,
        validatedData !! "email" = Some email
        /\ (email = VStr "" \/ test emailRegex (toString (Some email)) = true))
  /\ validatedData !! "status" = Some (VStr "Lead Captured").
Proof.
  intros H.
  destruct (validateNotionData_record E _ _ H) as (phone & website & Hphone & ->).
  destruct (validatePhone_shape _ _ Hphone) as (digits & -> & Hdigits).
  assert (Hdefault : forall default v,
    str_forall is_printable default && (String.length default <=? 2000) = true ->
    nonempty default = true ->
    text_within 2000 (str_or (sanitize v) default)
    /\ nonempty (str_or (sanitize v) default) = true).
  { intros default v Hd Hne.
    destruct (str_or_text 2000 (sanitize v) default (sanitize_text v)
                (text_within_literal _ _ Hd)) as [Ht Hn]. auto. }
  match goal with
  | |- context [validatedRecord E ?a ?b ?c ?d ?e ?f ?g ?h ?i ?j ?k ?l ?m ?n] =>
      pose proof (validatedRecord_fields E a b c d e f g h i j k l m n)
        as (F1 & F2 & F3 & F4 & F5 & F6 & F7 & F8 & F9 & F10 & F11 & F12 & _)
  end.
  cbv zeta in *.
  split; [eexists; split; [exact F1|by apply Hdefault]|].
  split; [eexists; split; [exact F2|by apply Hdefault]|].
  split; [eexists; split; [exact F3|by apply Hdefault]|].
  split; [eexists; split; [exact F4|apply sanitize_text]|].
  split.
  { eexists; split; [exact F5|].
    apply (str_or_text 2000 _ ""); [apply sanitize_text|by apply text_within_literal]. }
  split; [eexists; split; [exact F6|apply joined_list_length; cbn; lia]|].
  split; [eexists; split; [exact F7|apply joined_list_length; cbn; lia]|].
  split; [eexists; split; [exact F8|apply joined_list_length; cbn; lia]|].
  split; [eexists; split; [exact F9|exact Hdigits]|].
  split; [eexists; split; [exact F10|apply clamp_score_range]|].
  split; [eexists; split; [exact F11|apply validateEmail_shape]|].
  exact F12.
Qed.

Lemma validateNotionData_schema_witness :
  exists validatedData,
    validateNotionData (offline_env (1 # 10)) sample_lead = Returned validatedData
    /\ string_field validatedData "services" (fun s => String.length s <= 1000)
    /\ validatedData !! "status" = Some (VStr "Lead Captured").
Proof.
  destruct (validateNotionData (offline_env (1 # 10)) sample_lead)
    as [validatedData|message] eqn:Hrun.
  - exists validatedData. split; [reflexivity|].
    pose proof (validateNotionData_schema _ _ _ Hrun)
      as (_ & _ & _ & _ & _ & Hs & _ & _ & _ & _ & _ & Hstatus).
    by split.
  - vm_compute in Hrun. discriminate Hrun.
Defined.

(** X15. [sanitize] is idempotent on strings of at most 2000 code units:
    what it returns is printable, trimmed and unchanged by a second pass.
    Beyond that bound it is not: the cut at 2000 comes after the trim and can
    leave a space at the end, which a second pass removes. *)
Theorem sanitize_idempotent_within_bound :
  (forall s : string,
     String.length s <= 2000 ->
     sanitize (Some (VStr (sanitize (Some (VStr s))))) = sanitize (Some (VStr s)))
  /\ sanitize (Some (VStr (sanitize (Some (VStr (str_repeat "a" 1999 +:+ " b"))))))
     <> sanitize (Some (VStr (str_repeat "a" 1999 +:+ " b"))).
Proof.
  split; [apply sanitize_idem_bounded|].
  intros H. apply (f_equal String.length) in H. vm_compute in H. discriminate H.
Qed.

Lemma sanitize_idempotent_within_bound_witness :
  String.length "  Acme   Dental  " <= 2000
  /\ sanitize (Some (VStr (sanitize (Some (VStr "  Acme   Dental  ")))))
     = sanitize (Some (VStr "  Acme   Dental  ")).
Proof.
  assert (H : String.length "  Acme   Dental  " <= 2000) by (cbn; lia).
  split; [exact H|].
  exact (proj1 sanitize_idempotent_within_bound _ H).
Defined.


(** ** What the adapter and the workflows return *)

Section Outcomes.

Context (E : Env).
Implicit Types (practiceData validatedData : obj).

Lemma nr_success_phase_notion practiceData :
  nr_success (fst (phase_notion E practiceData)) = true.
Proof.
  unfold phase_notion.
  by destruct (storeLeadInNotion_returns E practiceData) as (r & -> & Hr & _).
Qed.

Lemma processHealthcarePractice_result url hostname :
  URL_hostname E url = Some hostname ->
  exists r,
    processHealthcarePractice E url = Returned r
    /\ workflow_status r = "complete"
    /\ wf_success r = true
    /\ successful_steps r = 3
    /\ total_steps r = 3
    /\ success_rate r = "100%"
    /\ fallbacks_used r = []
    /\ notion_stored r = true
    /\ step_error (step_scraping r) = None.
Proof.
  intros Hurl. unfold processHealthcarePractice, phase_scraping.
  destruct (scrapeHealthcarePractice_valid E url hostname Hurl)
    as (_ & pd & _ & -> & Hcompany & _).
  cbn [bind]. rewrite Hcompany. cbn [truthy].
  pose proof (extractCompanyFromUrl_nonempty hostname) as Hne.
  unfold nonempty in Hne. rewrite Hne. cbn [negb bind].
  pose proof (phase_notion_succeeds E pd) as Hn.
  pose proof (phase_notion_flags E pd) as Hnf.
  pose proof (phase_deployment_succeeds E pd) as Hd.
  pose proof (phase_deployment_flags E pd) as Hdf.
  pose proof (nr_success_phase_notion pd) as Hstored.
  destruct (phase_notion E pd) as [notionResult notion].
  destruct (phase_deployment E pd) as [deploymentResult deployment].
  cbn [fst snd] in *. rewrite Hn in Hnf. cbn [negb] in Hnf.
  eexists. split; [reflexivity|].
  cbn [workflow_status wf_success successful_steps total_steps success_rate
       fallbacks_used notion_stored step_scraping step_success step_fallback_used
       step_error].
  rewrite Hn, Hd, Hnf, Hstored.
  destruct (step_fallback_used deployment); [specialize (Hdf eq_refl); congruence|].
  repeat split; vm_compute; reflexivity.
Qed.

Lemma processHealthcarePractice_invalid url :
  URL_hostname E url = None ->
  processHealthcarePractice E url = Thrown "Invalid URL".
Proof.
  intros Hurl.
  unfold processHealthcarePractice, phase_scraping, scrapeHealthcarePractice,
    createMinimalFallbackData, new_URL_hostname.
  rewrite Hurl. reflexivity.
Qed.

Lemma object_of_lookup_here key (x : value) (fields : list (string * option value)) :
  object_of ((key, Some x) :: fields) !! key = Some x.
Proof. unfold object_of. cbn. apply lookup_insert_eq. Qed.

Lemma object_of_lookup_next key k (v : option value)
    (fields : list (string * option value)) :
  k <> key -> object_of ((k, v) :: fields) !! key = object_of fields !! key.
Proof.
  intros Hne. unfold object_of. destruct v as [x|]; cbn; [|reflexivity].
  by apply lookup_insert_ne.
Qed.

End Outcomes.

(** X16. The persistence adapter never throws and always reports
    [success = true].  What it returns is a fallback record unless the data
    validated and the store call resolved, in which case it is the validated
    record; the lead id is [fallback_<clock>_<random>] for the former and
    [notion_<clock>_<random>] for the latter. *)
Theorem storeLeadInNotion_outcome (E : Env) (practiceData : obj) :
  exists r,
    storeLeadInNotion E practiceData = Returned r
    /\ nr_success r = true
    /\ nr_is_emergency_fallback r = false
    /\ nr_error r = None
    /\ (nr_is_fallback r = false <-> stored_as_validated E practiceData r)
    /\ nr_leadId r
       = lead_id_prefix r +:+ Z_toString (Date_now E) +:+ "_" +:+ random_base36 E.
Proof.
  unfold storeLeadInNotion, stored_as_validated.
  destruct (validateNotionData E practiceData) as [validatedData|message];
    cbn [bind try_catch].
  - unfold attemptNotionStorage, mockNotionCall.
    destruct (Qle_bool (Math_random E) (3 # 10)); cbn [negb bind try_catch nr_success].
    + eexists. split; [reflexivity|]. repeat split; try discriminate.
      by intros [? _].
    + eexists. split; [reflexivity|]. repeat split. by exists validatedData.
  - eexists. split; [reflexivity|]. repeat split; try discriminate.
    by intros (_ & ? & ? & _).
Qed.

(** X17. The fault-tolerant workflow throws ["Invalid URL"] exactly for a
    URL that does not parse.  For every other URL it returns, and the result
    is always ['complete']: three successful steps out of three, a rate of
    ["100%"], no orchestrator fallback used and the lead reported as stored,
    whatever the search, the store call and the deployment services did. *)
Theorem processHealthcarePractice_outcome (E : Env) (url : string) :
  match URL_hostname E url with
  | None => processHealthcarePractice E url = Thrown "Invalid URL"
  | Some _ =>
      exists r,
        processHealthcarePractice E url = Returned r
        /\ workflow_status r = "complete"
        /\ wf_success r = true
        /\ successful_steps r = 3
        /\ total_steps r = 3
        /\ success_rate r = "100%"
        /\ fallbacks_used r = []
        /\ notion_stored r = true
        /\ step_error (step_scraping r) = None
  end.
Proof.
  destruct (URL_hostname E url) as [hostname|] eqn:Hurl.
  - exact (processHealthcarePractice_result E url hostname Hurl).
  - exact (processHealthcarePractice_invalid E url Hurl).
Qed.

(** X18. The three-step workflow never throws.  It reports
    [success = false] exactly for a URL that does not parse, with the error
    ["Invalid URL"] and neither practice nor store summary; for every other
    URL it reports success with a store summary whose [stored] is [true]. *)
Theorem simplified_workflow_outcome (E : Env) (url : string) :
  let result := Simplified.processHealthcarePractice E url in
  Simplified.workflow_type result = "3-step-simplified"
  /\ match URL_hostname E url with
     | None =>
         Simplified.success result = false
         /\ Simplified.error result = Some "Invalid URL"
         /\ Simplified.practice result = None
         /\ Simplified.notion result = None
     | Some hostname =>
         Simplified.success result = true
         /\ Simplified.error result = None
         /\ (exists summary,
               Simplified.notion result = Some summary
               /\ Simplified.stored summary = true
               /\ nonempty (Simplified.lead_id summary) = true)
         /\ (exists practice,
               Simplified.practice result = Some practice
               /\ practice !! "company" = Some (VStr (extractCompanyFromUrl hostname))
               /\ practice !! "practice_id"
                  = Some (VStr (generatePracticeId E (extractCompanyFromUrl hostname))))
     end.
Proof.
  cbv zeta. unfold Simplified.processHealthcarePractice.
  destruct (URL_hostname E url) as [hostname|] eqn:Hurl.
  - destruct (scrapeHealthcarePractice_valid E url hostname Hurl)
      as (exaData & pd & _ & -> & Hcompany & Hid & _).
    rewrite Hcompany. cbn [truthy].
    pose proof (extractCompanyFromUrl_nonempty hostname) as Hne.
    unfold nonempty in Hne. rewrite Hne. cbn [negb].
    destruct (storeLeadInNotion_returns E pd) as (r & -> & Hr & Hlead).
    split; [reflexivity|]. split; [reflexivity|]. split; [reflexivity|].
    split; [by eexists|].
    eexists. split; [reflexivity|]. rewrite Hid. split.
    + apply object_of_lookup_here.
    + rewrite !object_of_lookup_next by discriminate. apply object_of_lookup_here.
  - unfold scrapeHealthcarePractice, new_URL_hostname. rewrite Hurl.
    cbn [bind try_catch]. by repeat split.
Qed.


(** ** Batch coordinator, continued *)

Section BatchWindows.

Context {R : Type} (process : nat -> string -> outcome R).
Implicit Types (urls : list string) (i : nat) (log : list BatchEvent).

Lemma windows_of_app log1 log2 :
  windows_of (log1 ++ log2) = windows_of log1 ++ windows_of log2.
Proof. apply omap_app. Qed.

Lemma pauses_of_app log1 log2 : pauses_of (log1 ++ log2) = pauses_of log1 + pauses_of log2.
Proof. unfold pauses_of. by rewrite omap_app, length_app. Qed.

Lemma batch_count_step (n : nat) :
  0 < n -> batch_count n = 1 + batch_count (n - concurrencyLimit).
Proof.
  unfold batch_count, concurrencyLimit. intros Hn.
  destruct n as [|[|[|m]]]; [lia|reflexivity|reflexivity|].
  replace (S (S (S m)) + 3 - 1) with (m + 2 + 1 * 3) by lia.
  replace (S (S (S m)) - 3 + 3 - 1) with (m + 2) by lia.
  rewrite Nat.div_add by lia. lia.
Qed.

(** The items of a window are those of the whole input at its offset. *)
Lemma imap_window urls i :
  imap (fun k => batch_item process 0 (i + k)) (drop i urls)
  = imap (batch_item process i) (slice i (i + concurrencyLimit) urls)
    ++ imap (fun k => batch_item process 0 (i + concurrencyLimit + k))
         (drop (i + concurrencyLimit) urls).
Proof.
  unfold slice, concurrencyLimit. replace (i + 3 - i) with 3 by lia.
  rewrite <- (take_drop 3 (drop i urls)) at 1. rewrite imap_app, drop_drop.
  f_equal. destruct (decide (length (take 3 (drop i urls)) = 3)) as [->|Hshort].
  - apply imap_ext. intros k url _. cbn. f_equal. lia.
  - rewrite length_take, length_drop in Hshort.
    rewrite (drop_ge urls (i + 3)) by lia. reflexivity.
Qed.

(** The loop from offset [i]: what it appends to the results and to the
    log. *)
Lemma batch_loop_windows urls i results log :
  let out := batch_loop process urls i (results, log) in
  fst out = results ++ imap (fun k => batch_item process 0 (i + k)) (drop i urls)
  /\ concat (windows_of (snd out)) = concat (windows_of log) ++ drop i urls
  /\ (Forall full_window (windows_of log) -> Forall full_window (windows_of (snd out)))
  /\ length (windows_of (snd out))
     = length (windows_of log) + batch_count (length urls - i)
  /\ pauses_of (snd out) = pauses_of log + (batch_count (length urls - i) - 1).
Proof.
  cbv zeta. remember (length urls - i) as fuel eqn:Hfuel.
  revert i results log Hfuel.
  induction fuel as [fuel IH] using lt_wf_ind; intros i results log Hfuel.
  simp batch_loop. destruct (lt_dec i (length urls)) as [Hlt|Hge]; cbn.
  - subst fuel.
    edestruct (IH (length urls - (i + concurrencyLimit))
               ltac:(unfold concurrencyLimit; lia) (i + concurrencyLimit))
      as (H1 & H2 & H3 & H4 & H5); [reflexivity|].
    rewrite H1, H2, H4, H5. clear H1 H2 H4 H5.
    set (window := slice i (i + concurrencyLimit) urls) in *.
    set (settled := AllSettled i _) in *.
    assert (Hw : windows_of
                   (Launched i window :: settled
                      :: (if lt_dec (i + concurrencyLimit) (length urls)
                          then [Paused 2000] else []))
                 = [window]) by (by destruct (lt_dec _ _)).
    assert (Hp : pauses_of
                   (Launched i window :: settled
                      :: (if lt_dec (i + concurrencyLimit) (length urls)
                          then [Paused 2000] else []))
                 = if lt_dec (i + concurrencyLimit) (length urls) then 1 else 0)
      by (by destruct (lt_dec _ _)).
    rewrite !windows_of_app, !pauses_of_app, Hw, Hp in *. clear Hw Hp.
    assert (Hwindow : window ++ drop (i + concurrencyLimit) urls = drop i urls).
    { subst window. unfold slice, concurrencyLimit.
      replace (i + 3 - i) with 3 by lia.
      rewrite <- (take_drop 3 (drop i urls)) at 2. by rewrite drop_drop. }
    assert (Hlength : length window = Nat.min 3 (length urls - i)).
    { subst window. unfold slice, concurrencyLimit.
      replace (i + 3 - i) with 3 by lia. by rewrite length_take, length_drop. }
    split; [rewrite <- app_assoc; f_equal; symmetry; apply imap_window|].
    split.
    { rewrite concat_app, <- app_assoc. cbn [concat]. by rewrite app_nil_r, Hwindow. }
    split.
    { intros Hfull. apply H3, Forall_app. split; [exact Hfull|].
      constructor; [|constructor]. unfold full_window, concurrencyLimit. lia. }
    rewrite length_app. cbn [length].
    rewrite (batch_count_step (length urls - i)) by lia.
    replace (length urls - i - concurrencyLimit)
      with (length urls - (i + concurrencyLimit)) by lia.
    destruct (lt_dec (i + concurrencyLimit) (length urls)) as [Hmore|Hlast].
    + rewrite (batch_count_step (length urls - (i + concurrencyLimit))) by lia.
      split; lia.
    + replace (length urls - (i + concurrencyLimit)) with 0 by lia.
      change (batch_count 0) with 0. split; lia.
  - rewrite !drop_ge by lia. rewrite !app_nil_r.
    replace fuel with 0 by lia. change (batch_count 0) with 0.
    repeat split; cbn; rewrite ?Nat.add_0_r; done.
Qed.

(** The results are the per-URL outcomes, each computed at the position of
    its URL in the input. *)
Lemma run_batch_results urls :
  fst (run_batch process urls) = imap (batch_item process 0) urls.
Proof.
  unfold run_batch.
  destruct (batch_loop_windows urls 0 [] []) as (H1 & _).
  by rewrite drop_0 in H1.
Qed.

Lemma run_batch_lookup urls k url :
  urls !! k = Some url ->
  fst (run_batch process urls) !! k = Some (batch_item process 0 k url).
Proof. intros Hk. by rewrite run_batch_results, list_lookup_imap, Hk. Qed.

End BatchWindows.

(** X19. For every list of URLs the coordinator returns one item per URL,
    in the order of the input, each the outcome of the workflow at that
    URL's position.  Its windows partition the input in order, each of one
    to three URLs; there are [ceil(n / 3)] of them, and one pause fewer. *)
Theorem run_batch_windows {R : Type} (process : nat -> string -> outcome R)
    (urls : list string) :
  let log := snd (run_batch process urls) in
  fst (run_batch process urls) = imap (batch_item process 0) urls
  /\ concat (windows_of log) = urls
  /\ Forall full_window (windows_of log)
  /\ length (windows_of log) = batch_count (length urls)
  /\ pauses_of log = batch_count (length urls) - 1.
Proof.
  cbv zeta. unfold run_batch.
  destruct (batch_loop_windows process urls 0 [] []) as (H1 & H2 & H3 & H4 & H5).
  rewrite drop_0, Nat.sub_0_r in *.
  split; [exact H1|]. split; [exact H2|]. split; [by apply H3|].
  split; [exact H4|exact H5].
Qed.

(** X20. In a batch of the fault-tolerant workflow the item of a URL has
    [success = true] exactly when the URL parses, and then carries a
    ['complete'] result; otherwise it carries the error ["Invalid URL"] and
    no result. *)
Theorem processBatchHealthcarePractices_item (envs : nat -> Env) (urls : list string)
    (k : nat) (url : string) :
  urls !! k = Some url ->
  exists item,
    processBatchHealthcarePractices envs urls !! k = Some item
    /\ item_url item = url
    /\ item_success item = url_parses (envs k) url
    /\ (if url_parses (envs k) url
        then item_error item = None
             /\ exists r, item_result item = Some r /\ workflow_status r = "complete"
        else item_error item = Some "Invalid URL" /\ item_result item = None).
Proof.
  intros Hk. unfold processBatchHealthcarePractices.
  rewrite (run_batch_lookup _ urls k url Hk).
  eexists. split; [reflexivity|]. unfold batch_item, url_parses. cbn [Nat.add].
  destruct (URL_hostname (envs k) url) as [hostname|] eqn:Hurl.
  - destruct (processHealthcarePractice_result (envs k) url hostname Hurl)
      as (r & -> & Hstatus & _).
    cbn. repeat split. by exists r.
  - rewrite (processHealthcarePractice_invalid (envs k) url Hurl). by cbn.
Qed.

Lemma processBatchHealthcarePractices_item_witness :
  exists item,
    processBatchHealthcarePractices (fun _ => offline_env (1 # 10))
      [drsmith_url; "not a url"] !! 1 = Some item
    /\ item_success item = false
    /\ item_error item = Some "Invalid URL".
Proof.
  destruct (processBatchHealthcarePractices_item (fun _ => offline_env (1 # 10))
              [drsmith_url; "not a url"] 1 "not a url" eq_refl)
    as (item & Hitem & _ & Hsuccess & Herror & _).
  exists item. split; [exact Hitem|]. split; [exact Hsuccess|exact Herror].
Defined.

Lemma simplified_workflow_success (E : Env) (url : string) :
  Simplified.success (Simplified.processHealthcarePractice E url) = url_parses E url.
Proof.
  unfold url_parses. destruct (URL_hostname E url) as [hostname|] eqn:Hurl.
  - exact (simplified_workflow_valid E url hostname Hurl).
  - unfold Simplified.processHealthcarePractice, scrapeHealthcarePractice,
      new_URL_hostname.
    by rewrite Hurl.
Qed.

(** X21. In a batch of the three-step workflow every item has
    [success = true] and carries the workflow's result, also when that result
    itself reports a failure: the workflow catches its own errors, so the
    coordinator never sees one. *)
Theorem processBatchSimplified_item (envs : nat -> Env) (urls : list string)
    (k : nat) (url : string) :
  urls !! k = Some url ->
  exists item,
    processBatchSimplified envs urls !! k = Some item
    /\ item_url item = url
    /\ item_success item = true
    /\ item_error item = None
    /\ item_result item = Some (Simplified.processHealthcarePractice (envs k) url)
    /\ (exists r, item_result item = Some r
                  /\ Simplified.success r = url_parses (envs k) url).
Proof.
  intros Hk. unfold processBatchSimplified.
  rewrite (run_batch_lookup _ urls k url Hk).
  eexists. split; [reflexivity|]. unfold batch_item. cbn.
  repeat split. eexists. split; [reflexivity|].
  apply simplified_workflow_success.
Qed.

Lemma processBatchSimplified_item_witness :
  exists item,
    processBatchSimplified (fun _ => offline_env (1 # 10)) ["not a url"] !! 0 = Some item
    /\ item_success item = true
    /\ exists r, item_result item = Some r /\ Simplified.success r = false.
Proof.
  destruct (processBatchSimplified_item (fun _ => offline_env (1 # 10))
              ["not a url"] 0 "not a url" eq_refl)
    as (item & Hitem & _ & Hsuccess & _ & _ & Hresult).
  exists item. split; [exact Hitem|]. split; [exact Hsuccess|exact Hresult].
Defined.

(** ** Route handlers *)

Section Counting.

Context {R : Type}.
Implicit Types (results : list (BatchItem R)).

Lemma count_successful_map {A : Type} (flag : A -> bool) (l : list A) :
  length (filter (fun a => flag a = true) l) = count_successful (map flag l).
Proof.
  unfold count_successful. induction l as [|a l IH]; [reflexivity|].
  cbn [map]. rewrite !filter_cons.
  destruct (decide (flag a = true)) as [Ha|Ha]; cbn [length]; by rewrite IH.
Qed.

Lemma count_items_flags results :
  count_items true results = count_successful (map item_success results).
Proof. apply count_successful_map. Qed.

Lemma count_items_split results :
  count_items false results = length results - count_items true results
  /\ count_items true results <= length results.
Proof.
  unfold count_items. induction results as [|r results [IH1 IH2]]; [cbn; lia|].
  rewrite !filter_cons.
  destruct (item_success r); repeat case_decide; try done; cbn [length]; lia.
Qed.

Lemma count_successful_all (flags : list bool) :
  Forall (fun b => b = true) flags -> count_successful flags = length flags.
Proof.
  unfold count_successful. induction 1 as [|b flags Hb _ IH]; [reflexivity|].
  rewrite filter_cons, decide_True by done. cbn [length]. by rewrite IH.
Qed.

Lemma count_successful_le (flags : list bool) : count_successful flags <= length flags.
Proof. unfold count_successful. apply length_filter. Qed.

End Counting.

Lemma count_successful_imap {A : Type} (f g : nat -> A -> bool) (l : list A) :
  (forall k a, l !! k = Some a -> f k a = g k a) ->
  count_successful (imap f l) = count_successful (imap g l).
Proof. intros H. f_equal. by apply imap_ext. Qed.

Lemma count_successful_true {A : Type} (l : list A) :
  count_successful (imap (fun _ _ => true) l) = length l.
Proof.
  rewrite count_successful_all, length_imap; [done|].
  apply Forall_forall. intros b Hb.
  apply elem_of_lookup_imap in Hb as (k & a & -> & _). reflexivity.
Qed.

Section RouteProperties.

Context (envs : nat -> Env).

Lemma batch_reply_counts {R : Type} (results : list (BatchItem R)) :
  BatchReply results (length results) (count_items true results)
    (count_items false results)
  = BatchReply results (length results)
      (count_successful (map item_success results))
      (length results - count_successful (map item_success results)).
Proof.
  destruct (count_items_split results) as [-> _]. by rewrite count_items_flags.
Qed.

Lemma automate_simplified_batch url items :
  exists results,
    automate_simplified envs url (Some (VArr items))
    = BatchReply results (length items) (length items) 0
    /\ map item_url results = items
    /\ map item_result results
       = imap (fun k singleUrl =>
                 Some (Simplified.processHealthcarePractice (envs k) singleUrl)) items.
Proof.
  unfold automate_simplified. cbn [truthy negb andb].
  rewrite andb_false_r. cbv zeta.
  set (results := imap _ items).
  assert (Hflags : map item_success results = imap (fun _ _ => true) items).
  { subst results. rewrite fmap_imap. by apply imap_ext. }
  exists results. rewrite batch_reply_counts, Hflags, count_successful_true.
  replace (length results) with (length items) by (subst results; by rewrite length_imap).
  rewrite Nat.sub_diag. split; [reflexivity|].
  subst results. rewrite !fmap_imap. split.
  - clear. generalize 0. induction items as [|u items IH]; intros n; [reflexivity|].
    cbn. f_equal. apply (IH (S n)).
  - by apply imap_ext.
Qed.

Lemma processBatchHealthcarePractices_flags (urls : list string) :
  map item_success (processBatchHealthcarePractices envs urls)
  = imap (fun k url => url_parses (envs k) url) urls.
Proof.
  unfold processBatchHealthcarePractices.
  rewrite run_batch_results, fmap_imap. apply imap_ext. intros k url _.
  unfold compose, batch_item, url_parses. cbn [Nat.add].
  destruct (URL_hostname (envs k) url) as [hostname|] eqn:Hurl.
  - by destruct (processHealthcarePractice_result (envs k) url hostname Hurl)
      as (r & -> & _).
  - by rewrite (processHealthcarePractice_invalid (envs k) url Hurl).
Qed.

Lemma process_lead_parsed (E : Env) (leadUrl hostname : string) :
  URL_hostname E leadUrl = Some hostname ->
  exists exaData notion_id,
    searchWithExa E leadUrl (extractCompanyFromUrl hostname) = Returned exaData
    /\ nonempty notion_id = true
    /\ process_lead E leadUrl
       = {| lead_url := leadUrl;
            lead_success := true;
            lead_company := Some (VStr (extractCompanyFromUrl hostname));
            lead_treatments := Some (VArr (take 3 (treatments exaData)));
            lead_services := Some (VArr (take 3 (services exaData)));
            lead_score := Some (VNum (calculateLeadScore exaData));
            lead_notion_id := Some notion_id;
            lead_error := None |}.
Proof.
  intros Hurl. unfold process_lead.
  destruct (scrapeHealthcarePractice_valid E leadUrl hostname Hurl)
    as (exaData & pd & Hsearch & -> & Hcompany & _ & Hservices & Htreatments & Hscore & _).
  cbn [bind].
  destruct (storeLeadInNotion_returns E pd) as (r & -> & Hr & Hid).
  cbn [bind]. rewrite Hcompany, Hservices, Htreatments, Hscore, Hr. cbn [first_three bind].
  by exists exaData, (nr_leadId r).
Qed.

Lemma process_lead_unparsed (E : Env) (leadUrl : string) :
  URL_hostname E leadUrl = None ->
  process_lead E leadUrl
  = {| lead_url := leadUrl;
       lead_success := false;
       lead_company := None;
       lead_treatments := None;
       lead_services := None;
       lead_score := None;
       lead_notion_id := None;
       lead_error := Some "Invalid URL" |}.
Proof.
  intros Hurl. unfold process_lead, scrapeHealthcarePractice, new_URL_hostname.
  by rewrite Hurl.
Qed.

Lemma process_lead_success (E : Env) (leadUrl : string) :
  lead_success (process_lead E leadUrl) = url_parses E leadUrl.
Proof.
  unfold url_parses. destruct (URL_hostname E leadUrl) as [hostname|] eqn:Hurl.
  - by destruct (process_lead_parsed E leadUrl hostname Hurl) as (? & ? & _ & _ & ->).
  - by rewrite (process_lead_unparsed E leadUrl Hurl).
Qed.

End RouteProperties.

(** X22. [POST /automate] of autonomous-agent.js answers 400 exactly when
    the body has neither a [url] nor [urls]; it never answers 500.  For an
    array of URLs the summary counts every URL as successful and none as
    failed, whatever the results say. *)
Theorem automate_simplified_reply (envs : nat -> Env) (url : option string)
    (urls : option value) :
  match urls with
  | Some (VArr items) =>
      exists results,
        automate_simplified envs url urls
        = BatchReply results (length items) (length items) 0
        /\ map item_url results = items
        /\ map item_result results
           = imap (fun k singleUrl =>
                     Some (Simplified.processHealthcarePractice (envs k) singleUrl)) items
  | _ =>
      if truthy (VStr <$> url) || truthy urls
      then automate_simplified envs url urls
           = SingleReply
               (Simplified.processHealthcarePractice (envs 0) (single_target url))
      else automate_simplified envs url urls = BadRequest "URL or URLs array required"
  end.
Proof.
  destruct urls as [[s|n|b|items]|]; try apply automate_simplified_batch;
    unfold automate_simplified;
    destruct (truthy (VStr <$> url)), (truthy _); reflexivity.
Qed.

(** X23. [POST /automate] of the fault-tolerant agent: for an array of URLs
    the summary counts as successful the URLs that parse and as failed the
    others; a single URL gets a ['complete'] result when it parses and a 500
    with ["Invalid URL"] when it does not. *)
Theorem automate_reply (envs : nat -> Env) (url : option string) (urls : option value) :
  match urls with
  | Some (VArr items) =>
      automate envs url urls
      = BatchReply (processBatchHealthcarePractices envs items) (length items)
          (parsed_count envs items) (length items - parsed_count envs items)
      /\ parsed_count envs items <= length items
  | _ =>
      if truthy (VStr <$> url) || truthy urls
      then if url_parses (envs 0) (single_target url)
           then exists r,
                  automate envs url urls = SingleReply r
                  /\ workflow_status r = "complete"
           else automate envs url urls = ServerError "Invalid URL"
      else automate envs url urls = BadRequest "URL or URLs array required"
  end.
Proof.
  assert (Hsingle :
    if url_parses (envs 0) (single_target url)
    then exists r,
           match
             (let* result := processHealthcarePractice (envs 0) (single_target url) in
              Returned (SingleReply result))
           with
           | Returned reply => reply
           | Thrown message => ServerError message
           end = SingleReply r
           /\ workflow_status r = "complete"
    else match
           (let* result := processHealthcarePractice (envs 0) (single_target url) in
            Returned (SingleReply result))
         with
         | Returned reply => reply
         | Thrown message => ServerError message
         end = ServerError "Invalid URL").
  { unfold url_parses.
    destruct (URL_hostname (envs 0) (single_target url)) as [hostname|] eqn:Hurl.
    - destruct (processHealthcarePractice_result (envs 0) _ hostname Hurl)
        as (r & -> & Hstatus & _).
      by exists r.
    - by rewrite (processHealthcarePractice_invalid (envs 0) _ Hurl). }
  destruct urls as [[s|n|b|items]|]; unfold automate;
    try (destruct (truthy (VStr <$> url)), (truthy _); cbn [negb andb orb];
         first [reflexivity | exact Hsingle]).
  cbn [truthy negb andb]. rewrite andb_false_r. cbv zeta.
  rewrite batch_reply_counts, processBatchHealthcarePractices_flags.
  unfold parsed_count.
  replace (length (processBatchHealthcarePractices envs items)) with (length items).
  - split; [reflexivity|].
    rewrite <- (length_imap (fun k url => url_parses (envs k) url) items).
    apply count_successful_le.
  - rewrite <- (length_map item_url), processBatchHealthcarePractices_urls. reflexivity.
Qed.

(** X24. [POST /process-leads] answers 400 unless [leads] is an array.  A
    lead succeeds exactly when its URL parses: then the entry carries the
    company, at most three treatments and three services, the score and the
    id of the stored record; otherwise it carries the error ["Invalid URL"].
    The summary counts the URLs that parse as successful and the others as
    failed. *)
Theorem process_leads_reply (envs : nat -> Env) (leads : option value) :
  match leads with
  | Some (VArr items) =>
      process_leads envs leads
      = LeadsProcessed (length items) (parsed_count envs items)
          (length items - parsed_count envs items)
          (imap (fun k leadUrl => process_lead (envs k) leadUrl) items)
      /\ forall k leadUrl,
           items !! k = Some leadUrl ->
           let item := process_lead (envs k) leadUrl in
           lead_url item = leadUrl
           /\ lead_success item = url_parses (envs k) leadUrl
           /\ if url_parses (envs k) leadUrl
              then lead_error item = None
                   /\ (exists treatments services,
                         lead_treatments item = Some (VArr treatments)
                         /\ lead_services item = Some (VArr services)
                         /\ length treatments <= 3 /\ length services <= 3)
                   /\ (exists notion_id,
                         lead_notion_id item = Some notion_id
                         /\ nonempty notion_id = true)
              else lead_error item = Some "Invalid URL"
                   /\ lead_notion_id item = None
  | _ => process_leads envs leads = LeadsBadRequest "Leads array required"
  end.
Proof.
  destruct leads as [[s|n|b|items]|]; try reflexivity. split.
  - unfold process_leads, parsed_count. cbv zeta.
    rewrite length_imap, count_successful_map, fmap_imap.
    rewrite (count_successful_imap _ (fun k url => url_parses (envs k) url)); [done|].
    intros k leadUrl _. apply process_lead_success.
  - intros k leadUrl _. cbv zeta. unfold url_parses.
    destruct (URL_hostname (envs k) leadUrl) as [hostname|] eqn:Hurl.
    + destruct (process_lead_parsed (envs k) leadUrl hostname Hurl)
        as (exaData & notion_id & _ & Hid & ->).
      cbn. repeat split.
      * eexists _, _. repeat split; rewrite length_take; lia.
      * by exists notion_id.
    + rewrite (process_lead_unparsed (envs k) leadUrl Hurl). by cbn.
Qed.

(** ** Lead discovery *)

Section DiscoveryProperties.

Context (E : Env).
Context (exa_search : string -> Z -> option (list string) -> outcome (list SearchResult)).
Implicit Types (s needle : string) (results : list SearchResult).

Lemma str_append_assoc s1 s2 s3 : (s1 +:+ s2) +:+ s3 = s1 +:+ (s2 +:+ s3).
Proof.
  induction s1 as [|c s1 IH]; [reflexivity|].
  change (String c ((s1 +:+ s2) +:+ s3) = String c (s1 +:+ (s2 +:+ s3))).
  by rewrite IH.
Qed.

Lemma str_append_nil_r s : s +:+ "" = s.
Proof.
  induction s as [|c s IH]; [reflexivity|].
  change (String c (s +:+ "") = String c s). by rewrite IH.
Qed.

Lemma toLowerCase_append s1 s2 :
  toLowerCase (s1 +:+ s2) = toLowerCase s1 +:+ toLowerCase s2.
Proof.
  unfold toLowerCase. induction s1 as [|c s1 IH]; [reflexivity|].
  change (String (to_lower c) (str_map to_lower (s1 +:+ s2))
          = String (to_lower c) (str_map to_lower s1 +:+ str_map to_lower s2)).
  by rewrite IH.
Qed.

Lemma strip_prefix_extend needle s rest tail :
  strip_prefix needle s = Some rest ->
  strip_prefix needle (s +:+ tail) = Some (rest +:+ tail).
Proof.
  revert s. induction needle as [|c needle IH]; intros s.
  - cbn. by intros [= ->].
  - destruct s as [|d s]; [discriminate|].
    change (String d s +:+ tail) with (String d (s +:+ tail)). cbn [strip_prefix].
    destruct (Ascii.eqb c d); [apply IH|discriminate].
Qed.

Lemma includes_append_l needle s tail :
  includes needle s = true -> includes needle (s +:+ tail) = true.
Proof.
  induction s as [|c s IH].
  - change ("" +:+ tail) with tail. cbn [includes]. unfold starts_with.
    rewrite orb_false_r.
    destruct needle; [|discriminate]. intros _. by destruct tail.
  - change (String c s +:+ tail) with (String c (s +:+ tail)). cbn [includes].
    intros [H|H]%orb_true_iff.
    + unfold starts_with in *.
      destruct (strip_prefix needle (String c s)) as [rest|] eqn:Hp; [|discriminate].
      change (String c (s +:+ tail)) with (String c s +:+ tail).
      by rewrite (strip_prefix_extend _ _ _ tail Hp).
    + rewrite (IH H). apply orb_true_r.
Qed.

Lemma includes_append_r needle s head :
  includes needle s = true -> includes needle (head +:+ s) = true.
Proof.
  intros H. induction head as [|c head IH]; [exact H|].
  change (String c head +:+ s) with (String c (head +:+ s)). cbn [includes].
  rewrite IH. apply orb_true_r.
Qed.

Lemma str_take_length_le (n : nat) s : String.length (str_take n s) <= n.
Proof.
  revert s. induction n as [|n IH]; intros [|c s]; cbn; try lia.
  specialize (IH s). lia.
Qed.

Lemma snippet_of_shape (text : option string) :
  String.length (snippet_of text) <= 203 /\ exists t, snippet_of text = t +:+ "...".
Proof.
  destruct text as [t|]; cbn [snippet_of].
  - split; [|by eexists]. rewrite str_length_append.
    pose proof (str_take_length_le 200 t). change (String.length "...") with 3. lia.
  - split; [|by eexists]. change (String.length ("undefined" +:+ "...")) with 12. lia.
Qed.

Lemma score_or_half_nonzero (x : option Q) : Qeq_bool (score_or_half x) 0 = false.
Proof.
  destruct x as [q|]; cbn; [|reflexivity].
  destruct (Qeq_bool q 0) eqn:Hq; [reflexivity|exact Hq].
Qed.

Lemma lead_of_result_parsed result hostname :
  URL_hostname E (sr_url result) = Some hostname ->
  exists lead,
    lead_of_result E result = Returned lead
    /\ dl_url lead = sr_url result
    /\ dl_title lead = sr_title result
    /\ lead_from_search E lead.
Proof.
  intros Hurl. unfold lead_of_result, new_URL_hostname. rewrite Hurl. cbn [bind].
  eexists. split; [reflexivity|]. split; [reflexivity|]. split; [reflexivity|].
  destruct (snippet_of_shape (sr_text result)) as [Hlen Hend].
  split; [exact Hurl|]. split; [exact Hlen|]. split; [exact Hend|].
  apply score_or_half_nonzero.
Qed.

Lemma map_outcome_parsed results :
  forallb (fun result => url_parses E (sr_url result)) results = true ->
  exists leads,
    map_outcome (lead_of_result E) results = Returned leads
    /\ map dl_url leads = map sr_url results
    /\ map dl_title leads = map sr_title results
    /\ Forall (lead_from_search E) leads.
Proof.
  induction results as [|result results IH]; cbn [forallb map_outcome].
  - intros _. exists []. by repeat split.
  - intros [Hresult Hrest]%andb_true_iff. unfold url_parses in Hresult.
    destruct (URL_hostname E (sr_url result)) as [hostname|] eqn:Hurl; [|discriminate].
    destruct (lead_of_result_parsed result hostname Hurl)
      as (lead & -> & Hlead_url & Hlead_title & Hlead).
    destruct (IH Hrest) as (leads & -> & Hurls & Htitles & Hleads).
    cbn [bind]. exists (lead :: leads). split; [reflexivity|].
    cbn [map]. rewrite Hlead_url, Hlead_title, Hurls, Htitles.
    repeat split. by constructor.
Qed.

Lemma map_outcome_unparsed results :
  forallb (fun result => url_parses E (sr_url result)) results = false ->
  exists message, map_outcome (lead_of_result E) results = Thrown message.
Proof.
  induction results as [|result results IH]; cbn [forallb map_outcome]; [discriminate|].
  unfold url_parses at 1, lead_of_result at 1, new_URL_hostname.
  destruct (URL_hostname E (sr_url result)) as [hostname|] eqn:Hurl; cbn [bind andb].
  - intros Hrest. destruct (IH Hrest) as [message ->]. by exists message.
  - intros _. by eexists.
Qed.

End DiscoveryProperties.

Lemma buildHealthcareSearchQuery_parts (query : string) (options : DiscoveryOptions) :
  exists context,
    buildHealthcareSearchQuery query options
    = (query +:+ (if negb (includes "healthcare" (toLowerCase query))
                     && negb (includes "medical" (toLowerCase query))
                  then " healthcare medical practice clinic" else ""))
      +:+ context +:+ booking_terms.
Proof.
  exists (match given (opt_location options) with
          | Some location => " in " +:+ location
          | None => ""
          end
          +:+ match given (opt_practice_type options) with
              | Some practice_type =>
                  if negb (String.eqb practice_type "healthcare")
                  then " " +:+ practice_type else ""
              | None => ""
              end).
  unfold buildHealthcareSearchQuery, booking_terms. cbv zeta.
  destruct (negb _ && negb _);
    destruct (given (opt_location options)) as [location|];
    destruct (given (opt_practice_type options)) as [practice_type|];
    try destruct (negb (String.eqb practice_type "healthcare"));
    rewrite ?str_append_nil_r, ?str_append_assoc; reflexivity.
Qed.

(** X25. The search query built for a discovery starts with the query
    given and ends with the booking terms, and, lower-cased, it always
    mentions ["healthcare"] or ["medical"]. *)
Theorem buildHealthcareSearchQuery_shape (query : string) (options : DiscoveryOptions) :
  let searchQuery := buildHealthcareSearchQuery query options in
  (exists context, searchQuery = query +:+ context +:+ booking_terms)
  /\ includes "healthcare" (toLowerCase searchQuery)
     || includes "medical" (toLowerCase searchQuery) = true.
Proof.
  cbv zeta. destruct (buildHealthcareSearchQuery_parts query options) as [context ->].
  set (added := if negb _ && negb _ then _ else _).
  split.
  - exists (added +:+ context).
    by rewrite (str_append_assoc query added), (str_append_assoc added context).
  - rewrite (toLowerCase_append (query +:+ added)), (toLowerCase_append query).
    apply orb_true_iff. subst added.
    destruct (includes "healthcare" (toLowerCase query)) eqn:H1.
    + left. apply includes_append_l, includes_append_l, H1.
    + destruct (includes "medical" (toLowerCase query)) eqn:H2; cbn [negb andb].
      * right. apply includes_append_l, includes_append_l, H2.
      * left. apply includes_append_l, includes_append_r. reflexivity.
Qed.

(** X26. A discovery never throws.  Without an API key, when the search
    throws, or when the URL of some result does not parse, it returns the
    demo leads, dropping every result of the search; otherwise it returns one
    lead per result, in order, with the URL and title of the result, the host
    of the URL as domain, a snippet of at most 203 code units and a score
    that is not zero. *)
Theorem discoverHealthcareLeads_outcome (E : Env)
    (exa_search : string -> Z -> option (list string) -> outcome (list SearchResult))
    (query : string) (options : DiscoveryOptions) :
  let leads := discoverHealthcareLeads E exa_search query options in
  let demoLeads := createDemoLeads E query options in
  if exa_disabled E then leads = demoLeads
  else
    match search_of exa_search query options with
    | Thrown _ => leads = demoLeads
    | Returned results =>
        if forallb (fun result => url_parses E (sr_url result)) results
        then map dl_url leads = map sr_url results
             /\ map dl_title leads = map sr_title results
             /\ Forall (lead_from_search E) leads
        else leads = demoLeads
    end.
Proof.
  cbv zeta. unfold discoverHealthcareLeads, search_of.
  destruct (exa_disabled E); [reflexivity|].
  destruct (exa_search _ _ _) as [results|message]; cbn [bind]; [|reflexivity].
  destruct (forallb _ results) eqn:Hparsed.
  - destruct (map_outcome_parsed E results Hparsed) as (leads & Hleads & Hrest).
    destruct results as [|result results]; [by repeat split|].
    by rewrite Hleads.
  - destruct (map_outcome_unparsed E results Hparsed) as [message Hthrown].
    destruct results as [|result results]; [discriminate|].
    by rewrite Hthrown.
Qed.

(** X27. There are at most two demo leads.  A missing limit, a limit of 0
    and every limit of 2 or more give both; a limit of 1 gives the first; a
    negative limit counts from the end, so -1 gives the first and anything
    below none. *)
Theorem createDemoLeads_count (E : Env) (query : string) (options : DiscoveryOptions) :
  length (createDemoLeads E query options)
  = match opt_limit options with
    | None => 2
    | Some limit =>
        if (limit =? 0)%Z then 2
        else if (limit <? 0)%Z then Z.to_nat (2 + limit)
        else Nat.min 2 (Z.to_nat limit)
    end.
Proof.
  unfold createDemoLeads, limit_or_10, slice_to.
  destruct (opt_limit options) as [limit|]; [|reflexivity].
  destruct (limit =? 0)%Z eqn:Hzero; [reflexivity|].
  destruct (limit <? 0)%Z eqn:Hneg; rewrite length_take; cbn [length]; lia.
Qed.

(** ** Telegram webhook *)

Section UrlPattern.

Implicit Types (s text url run : string).

Lemma take_nonspace_split s :
  exists after,
    s = take_nonspace s +:+ after
    /\ ends_token after
    /\ str_forall (fun c => negb (is_space c)) (take_nonspace s) = true.
Proof.
  induction s as [|c s (after & Hs & Hafter & Hrun)].
  - exists "". repeat split. by left.
  - cbn [take_nonspace]. destruct (is_space c) eqn:Hc.
    + exists (String c s). repeat split. right. by exists c, s.
    + exists after.
      change (String c (take_nonspace s) +:+ after)
        with (String c (take_nonspace s +:+ after)).
      rewrite <- Hs. repeat split; [exact Hafter|].
      cbn [str_forall]. by rewrite Hc, Hrun.
Qed.

Lemma take_nonspace_fixed run :
  str_forall (fun c => negb (is_space c)) run = true -> take_nonspace run = run.
Proof.
  induction run as [|c run IH]; [reflexivity|]. cbn [str_forall take_nonspace].
  intros [Hc Hrun]%andb_true_iff. apply negb_true_iff in Hc. rewrite Hc.
  by rewrite IH.
Qed.

Lemma strip_prefix_split prefix s rest :
  strip_prefix prefix s = Some rest -> s = prefix +:+ rest.
Proof.
  revert s. induction prefix as [|c prefix IH]; intros s; [by intros [= ->]|].
  destruct s as [|d s]; [discriminate|]. cbn [strip_prefix].
  destruct (Ascii.eqb c d) eqn:Hcd; [|discriminate].
  apply Ascii.eqb_eq in Hcd as ->. intros ->%IH. reflexivity.
Qed.

Lemma url_here_token s url :
  url_here s = Some url ->
  url_token url /\ exists after, s = url +:+ after /\ ends_token after.
Proof.
  unfold url_here.
  destruct (strip_prefix "https://" s) as [rest|] eqn:Hs;
    [|destruct (strip_prefix "http://" s) as [rest|] eqn:Hp; [|discriminate]];
    destruct (nonempty (take_nonspace rest)) eqn:Hne; try discriminate;
    intros [= <-];
    destruct (take_nonspace_split rest) as (after & Hrest & Hafter & Hrun).
  - apply strip_prefix_split in Hs. split.
    + exists "https://", (take_nonspace rest). split; [by left|]. by repeat split.
    + exists after. split; [|exact Hafter].
      rewrite str_append_assoc, <- Hrest. exact Hs.
  - apply strip_prefix_split in Hp. split.
    + exists "http://", (take_nonspace rest). split; [by right|]. by repeat split.
    + exists after. split; [|exact Hafter].
      rewrite str_append_assoc, <- Hrest. exact Hp.
Qed.

Lemma url_here_fixed url : url_token url -> url_here url = Some url.
Proof.
  intros (scheme & run & [-> | ->] & -> & Hne & Hrun); unfold url_here.
  - rewrite strip_prefix_append, (take_nonspace_fixed run Hrun), Hne. reflexivity.
  - change (strip_prefix "https://" ("http://" +:+ run)) with (@None string).
    rewrite strip_prefix_append, (take_nonspace_fixed run Hrun), Hne. reflexivity.
Qed.

Lemma first_url_token text url :
  first_url text = Some url ->
  url_token url
  /\ exists before after, text = before +:+ url +:+ after /\ ends_token after.
Proof.
  induction text as [|c text IH]; cbn [first_url].
  - destruct (url_here "") as [u|] eqn:Hu; [|discriminate].
    intros [= ->]. destruct (url_here_token _ _ Hu) as (Htoken & after & Hs & Hafter).
    split; [exact Htoken|]. by exists "", after.
  - destruct (url_here (String c text)) as [u|] eqn:Hu.
    + intros [= ->]. destruct (url_here_token _ _ Hu) as (Htoken & after & Hs & Hafter).
      split; [exact Htoken|]. by exists "", after.
    + intros (Htoken & before & after & -> & Hafter)%IH.
      split; [exact Htoken|]. by exists (String c before), after.
Qed.

Lemma first_url_fixed url : url_token url -> first_url url = Some url.
Proof.
  intros Hurl. pose proof (url_here_fixed url Hurl) as Hhere.
  destruct url as [|c url]; cbn [first_url]; by rewrite Hhere.
Qed.

End UrlPattern.

(** A safe integer prints as its decimal numeral. *)
Lemma Number_toString_safe (n : Z) :
  (Z.abs n < 2 ^ 53)%Z -> Number_toString n = Z_toString n.
Proof.
  intros Hn. unfold Number_toString, Z_toString. cbv zeta.
  destruct (Z.abs n <? 2 ^ 53)%Z eqn:Hsafe; [|apply Z.ltb_ge in Hsafe; lia].
  destruct (n <? 0)%Z eqn:Hneg; [|f_equal; apply Z.ltb_ge in Hneg; f_equal; lia].
  by destruct n.
Qed.

Section TelegramProperties.

Context (E : Env).
Context (telegram_bot_token : option string).
Context (axios_post_telegram : value -> BotMessage -> outcome unit).

Lemma sendTelegramMessage_posted chatId text :
  let sent := sendTelegramMessage telegram_bot_token axios_post_telegram chatId text in
  (exists message, sent = (Thrown message, []))
  \/ sent = (Returned tt, [])
  \/ sent = (Returned tt, [text]).
Proof.
  cbv zeta. unfold sendTelegramMessage. destruct (negb _); [by right; left|].
  destruct (axios_post_telegram chatId text) as [[]|message];
    [by right; right|left; by exists message].
Qed.

Lemma sendTelegramMessage_delivers chatId text :
  truthy (VStr <$> telegram_bot_token) = true ->
  axios_post_telegram chatId text = Returned tt ->
  sendTelegramMessage telegram_bot_token axios_post_telegram chatId text
  = (Returned tt, [text]).
Proof. unfold sendTelegramMessage. by intros -> ->. Qed.

Lemma sendTelegramMessage_silent chatId text :
  truthy (VStr <$> telegram_bot_token) = false ->
  sendTelegramMessage telegram_bot_token axios_post_telegram chatId text
  = (Returned tt, []).
Proof. unfold sendTelegramMessage. by intros ->. Qed.

End TelegramProperties.

(** X28. The URL the webhook takes from a message is a scheme, [http://] or
    [https://], followed by a run, not empty, of code units that are not
    white space; it occurs in the message, where it is followed by white
    space or by the end; and taking the URL of the URL itself gives it
    back. *)
Theorem first_url_extracts (text url : string) :
  first_url text = Some url ->
  url_token url
  /\ (exists before after, text = before +:+ url +:+ after /\ ends_token after)
  /\ first_url url = Some url.
Proof.
  intros (Htoken & Hoccurs)%first_url_token.
  split; [exact Htoken|]. split; [exact Hoccurs|]. by apply first_url_fixed.
Qed.

Lemma first_url_extracts_witness :
  first_url "see https://clinic.example.com/team today" = Some "https://clinic.example.com/team"
  /\ first_url "https://clinic.example.com/team" = Some "https://clinic.example.com/team".
Proof.
  split; [reflexivity|].
  exact (proj2 (proj2 (first_url_extracts
                         "see https://clinic.example.com/team today"
                         "https://clinic.example.com/team" eq_refl))).
Defined.

(** X29. The Telegram webhook never throws.  It answers 400 exactly when
    the chat id or the text is missing or falsy, and then posts nothing.  It
    schedules a workflow only with a 200, only for a text that is a string,
    and then for the leftmost URL of the text; what it has posted by then is
    at most the acknowledgement for that URL.  Without a URL it posts at most
    the help message. *)
Theorem telegram_webhook_reply (telegram_bot_token : option string)
    (axios_post_telegram : value -> BotMessage -> outcome unit)
    (chatId messageText : option value) :
  exists reply posted,
    telegram_webhook telegram_bot_token axios_post_telegram chatId messageText
    = (Returned reply, posted)
    /\ In (wh_status reply) [200; 400; 500]
    /\ (wh_status reply = 400 <-> truthy chatId = false \/ truthy messageText = false)
    /\ (wh_status reply <> 200 -> posted = [] /\ wh_started reply = None)
    /\ (forall url,
          wh_started reply = Some url ->
          (exists text, messageText = Some (VStr text) /\ first_url text = Some url)
          /\ (posted = [] \/ posted = [ProcessingStarted url]))
    /\ (wh_started reply = None -> posted = [] \/ posted = [Help]).
Proof.
  assert (Hbad :
    truthy chatId = false \/ truthy messageText = false ->
    exists reply posted',
      (Returned (mkWebhookReply 400 None), @nil BotMessage) = (Returned reply, posted')
      /\ In (wh_status reply) [200; 400; 500]
      /\ (wh_status reply = 400 <-> truthy chatId = false \/ truthy messageText = false)
      /\ (wh_status reply <> 200 -> posted' = [] /\ wh_started reply = None)
      /\ (forall url,
            wh_started reply = Some url ->
            (exists text, messageText = Some (VStr text) /\ first_url text = Some url)
            /\ (posted' = [] \/ posted' = [ProcessingStarted url]))
      /\ (wh_started reply = None -> posted' = [] \/ posted' = [Help])).
  { intros Hfalsy. eexists _, _. split; [reflexivity|]. cbn.
    split; [tauto|]. split; [tauto|]. split; [tauto|]. split; [discriminate|]. tauto. }
  unfold telegram_webhook.
  destruct chatId as [chat|]; [|apply Hbad; by left].
  destruct messageText as [text|]; [|apply Hbad; by right].
  destruct (truthy (Some chat)) eqn:Hchat; cbn [negb orb]; [|apply Hbad; by left].
  destruct (truthy (Some text)) eqn:Htext; cbn [negb]; [|apply Hbad; by right].
  clear Hbad.
  assert (Hgood : ~ (true = false \/ true = false)) by (intros [|]; discriminate).
  destruct text as [text|n|b|items].
  2-4: (eexists _, _; split; [reflexivity|]; cbn;
        split; [tauto|]; split; [split; [discriminate|tauto]|];
        split; [tauto|]; split; [discriminate|tauto]).
  destruct (first_url text) as [url|] eqn:Hurl.
  - destruct (sendTelegramMessage_posted telegram_bot_token axios_post_telegram
                chat (ProcessingStarted url)) as [[message ->]|[-> | ->]];
      cbn [bot_bind bot_catch app]; eexists _, _; (split; [reflexivity|]);
      cbn [wh_status wh_started In].
    + split; [tauto|]. split; [split; [discriminate|tauto]|].
      split; [tauto|]. split; [discriminate|tauto].
    + split; [tauto|]. split; [split; [discriminate|tauto]|].
      split; [intros H; by destruct H|]. split; [|discriminate].
      intros url' [= <-]. split; [by exists text|by left].
    + split; [tauto|]. split; [split; [discriminate|tauto]|].
      split; [intros H; by destruct H|]. split; [|discriminate].
      intros url' [= <-]. split; [by exists text|by right].
  - destruct (sendTelegramMessage_posted telegram_bot_token axios_post_telegram
                chat Help) as [[message ->]|[-> | ->]];
      cbn [bot_bind bot_catch app]; eexists _, _; (split; [reflexivity|]);
      cbn [wh_status wh_started In].
    + split; [tauto|]. split; [split; [discriminate|tauto]|].
      split; [tauto|]. split; [discriminate|tauto].
    + split; [tauto|]. split; [split; [discriminate|tauto]|].
      split; [intros H; by destruct H|]. split; [discriminate|tauto].
    + split; [tauto|]. split; [split; [discriminate|tauto]|].
      split; [intros H; by destruct H|]. split; [discriminate|tauto].
Qed.

(** X30. The workflow the webhook schedules never throws when the posts
    succeed.  With a bot token it posts, for a URL that parses, the two step
    notices and then the result, with the company derived from the host name,
    a lead score between 50 and 100 and the id of the stored record; for a
    URL that does not parse, the first step notice and then the failure
    ["Invalid URL"].  Without a bot token it posts nothing at all. *)
Theorem webhook_workflow_messages (E : Env) (telegram_bot_token : option string)
    (axios_post_telegram : value -> BotMessage -> outcome unit)
    (chatId : value) (url : string) :
  (truthy (VStr <$> telegram_bot_token) = true ->
   (forall text, axios_post_telegram chatId text = Returned tt) ->
   match URL_hostname E url with
   | Some hostname =>
       exists location treatments services score notion_id,
         webhook_workflow E telegram_bot_token axios_post_telegram chatId url
         = (Returned tt,
            [StepOne; StepTwo;
             StepThree (extractCompanyFromUrl hostname) location treatments services
               (Z_toString score) notion_id])
         /\ (50 <= score <= 100)%Z
         /\ nonempty notion_id = true
   | None =>
       webhook_workflow E telegram_bot_token axios_post_telegram chatId url
       = (Returned tt, [StepOne; ProcessingFailed "Invalid URL"])
   end)
  /\ (truthy (VStr <$> telegram_bot_token) = false ->
      webhook_workflow E telegram_bot_token axios_post_telegram chatId url
      = (Returned tt, [])).
Proof.
  split.
  - intros Htoken Hpost. unfold webhook_workflow.
    rewrite !(sendTelegramMessage_delivers _ _ _ _ Htoken (Hpost _)).
    cbn [bot_bind bot_lift].
    destruct (URL_hostname E url) as [hostname|] eqn:Hurl.
    + destruct (scrapeHealthcarePractice_valid E url hostname Hurl)
        as (exaData & pd & _ & -> & Hcompany & _ & _ & _ & Hscore & _).
      cbn [bot_bind bot_lift].
      destruct (storeLeadInNotion_returns E pd) as (r & -> & _ & Hid).
      rewrite (sendTelegramMessage_delivers _ _ _ _ Htoken (Hpost _)).
      cbn [bot_bind bot_catch app]. rewrite Hcompany, Hscore. cbn [toString].
      pose proof (score_of_signals_bounds (signals_of exaData)) as Hbounds.
      rewrite <- calculateLeadScore_signals in Hbounds.
      assert (Hscore_truthy :
        or_else (Some (VNum (calculateLeadScore exaData))) (VNum 50)
        = VNum (calculateLeadScore exaData)).
      { unfold or_else. cbn [truthy].
        destruct (calculateLeadScore exaData =? 0)%Z eqn:Hz; [lia|reflexivity]. }
      rewrite Hscore_truthy. cbn [toString].
      rewrite (Number_toString_safe (calculateLeadScore exaData)) by lia.
      eexists _, _, _, (calculateLeadScore exaData), (nr_leadId r).
      split; [reflexivity|]. split; [exact Hbounds|exact Hid].
    + unfold scrapeHealthcarePractice, new_URL_hostname. rewrite Hurl.
      cbn [bind try_catch bot_bind bot_catch app].
      by rewrite ?(sendTelegramMessage_delivers _ _ _ _ Htoken (Hpost _)).
  - intros Htoken. unfold webhook_workflow.
    rewrite !(sendTelegramMessage_silent _ _ _ _ Htoken).
    cbn [bot_bind bot_lift].
    destruct (scrapeHealthcarePractice E url) as [pd|message].
    + destruct (storeLeadInNotion_returns E pd) as (r & -> & _).
      by rewrite ?(sendTelegramMessage_silent _ _ _ _ Htoken).
    + cbn [bot_catch]. by rewrite ?(sendTelegramMessage_silent _ _ _ _ Htoken).
Qed.

Lemma webhook_workflow_messages_witness :
  webhook_workflow (offline_env (1 # 2)) (Some "token") (fun _ _ => Returned tt)
    (VNum 42) "not a url"
  = (Returned tt, [StepOne; ProcessingFailed "Invalid URL"]).
Proof.
  exact (proj1 (webhook_workflow_messages (offline_env (1 # 2)) (Some "token")
                  (fun _ _ => Returned tt) (VNum 42) "not a url")
           eq_refl (fun _ => eq_refl)).
Defined.
